(** * LightController (apps/lights.py): a shallow embedding and its properties

    The AppDaemon application [LightController] is embedded as a state
    machine: the instance attributes are a record, every method is a function
    in a small state-and-exception monad, and the host (entity store, clock,
    timers, service bus) is an explicit world plus an effect trace.

    Conventions of the embedding:
    - Python [float] values are exact rationals extended with the three
      non-finite values; IEEE rounding and overflow are outside the model.
    - [str] values are byte strings; [lower], [strip] and [int] are the
      ASCII fragments of the Python builtins.
    - [float] applied to a string is left abstract ([PyFloatParser]): no
      property below depends on which strings it accepts.
    - one clock reading per dispatched event: all [_now_ts()] calls of one
      handler run see the same value.
    - configuration numbers are typed (the value [float]/[int] gives at the
      point of use); entity states are strings or absent; listener and
      attribute values range over None, bool, int, float and str.
    - host calls ([call_service], [set_state], [log], [run_in],
      [cancel_timer]) return normally; timer handles are fresh tokens. *)

From Stdlib Require Import ZArith QArith Qround Qabs Qminmax Lqa String Ascii List Lia Bool.
From stdpp Require Import base option gmap strings list fin_maps.

Open Scope string_scope.
Open Scope Z_scope.

(** ** Python values and builtins *)

Inductive pyfloat :=
| Fin (q : Q)
| PosInf
| NegInf
| NaN.

(** The values an entity attribute or a listener argument can carry. *)
Inductive pyval :=
| PNone
| PBool (b : bool)
| PInt (z : Z)
| PFloat (f : pyfloat)
| PStr (s : string).

(** [float(s)] for a string [s]; [None] stands for [ValueError]. *)
Class PyFloatParser := float_of_string : string -> option pyfloat.

Definition ascii_code (c : ascii) : nat := nat_of_ascii c.

(** [str.isspace] on one ASCII character. *)
Definition is_space (c : ascii) : bool :=
  let n := ascii_code c in
  ((9 <=? n)%nat && (n <=? 13)%nat) || ((28 <=? n)%nat && (n <=? 32)%nat).

Fixpoint lstrip (s : string) : string :=
  match s with
  | String c s' => if is_space c then lstrip s' else s
  | EmptyString => EmptyString
  end.

(** [s.strip()] *)
Definition strip (s : string) : string :=
  String.rev (lstrip (String.rev (lstrip s))).

Definition lower_ascii (c : ascii) : ascii :=
  let n := ascii_code c in
  if (65 <=? n)%nat && (n <=? 90)%nat then ascii_of_nat (n + 32) else c.

(** [s.lower()] *)
Fixpoint lower (s : string) : string :=
  match s with
  | String c s' => String (lower_ascii c) (lower s')
  | EmptyString => EmptyString
  end.

(** [sub in s] *)
Fixpoint contains (sub s : string) : bool :=
  String.prefix sub s ||
  match s with
  | String _ s' => contains sub s'
  | EmptyString => false
  end.

(** [s.startswith(p)] *)
Definition startswith (s p : string) : bool := String.prefix p s.

(** [s[:n]] *)
Definition slice_to (n : nat) (s : string) : string := substring 0 n s.

(** [s.split(sep)] for a one-character separator: [cur] is the field being
    read, kept reversed. *)
Fixpoint split_aux (sep : ascii) (cur : string) (s : string) : list string :=
  match s with
  | EmptyString => [String.rev cur]
  | String c s' =>
      if Ascii.eqb c sep then String.rev cur :: split_aux sep EmptyString s'
      else split_aux sep (String c cur) s'
  end.

Definition split (sep : ascii) (s : string) : list string :=
  split_aux sep EmptyString s.

Definition digit_of (c : ascii) : option Z :=
  let n := ascii_code c in
  if (48 <=? n)%nat && (n <=? 57)%nat then Some (Z.of_nat (n - 48)) else None.

(** Digits with single underscores between them, after a first digit. *)
Fixpoint digits_from (acc : Z) (after_underscore : bool) (s : string) : option Z :=
  match s with
  | EmptyString => if after_underscore then None else Some acc
  | String c s' =>
      if Ascii.eqb c "_" then
        if after_underscore then None else digits_from acc true s'
      else
        match digit_of c with
        | Some d => digits_from (10 * acc + d) false s'
        | None => None
        end
  end.

Definition digitpart (s : string) : option Z :=
  match s with
  | EmptyString => None
  | String c s' =>
      match digit_of c with
      | Some d => digits_from d false s'
      | None => None
      end
  end.

(** The white space [int] and [float] skip around a number: blank, tab,
    line feed, vertical tab, form feed and carriage return. [str.strip]
    drops four more characters (codes 28 to 31), which these two reject. *)
Definition is_number_space (c : ascii) : bool :=
  let n := ascii_code c in
  ((9 <=? n)%nat && (n <=? 13)%nat) || (n =? 32)%nat.

Fixpoint number_lstrip (s : string) : string :=
  match s with
  | String c s' => if is_number_space c then number_lstrip s' else s
  | EmptyString => EmptyString
  end.

Definition number_strip (s : string) : string :=
  String.rev (number_lstrip (String.rev (number_lstrip s))).

(** [int(s)] for a string [s] in base ten; [None] stands for [ValueError]. *)
Definition int_of_string (s : string) : option Z :=
  match number_strip s with
  | String "+" r => digitpart r
  | String "-" r => Z.opp <$> digitpart r
  | t => digitpart t
  end.

(** [int(q)] truncates toward zero. *)
Definition Qtrunc (q : Q) : Z :=
  if Qle_bool 0 q then Qfloor q else Qceiling q.

(** [round(q)]: to the nearest integer, ties to the even one. *)
Definition round_half_even (q : Q) : Z :=
  let f := Qfloor q in
  match Qcompare (q - inject_Z f) (1 # 2) with
  | Lt => f
  | Gt => f + 1
  | Eq => if Z.even f then f else f + 1
  end.

(** [round(x)] of a float; [None] stands for the error raised on a
    non-finite argument. *)
Definition py_round (x : pyfloat) : option Z :=
  match x with
  | Fin q => Some (round_half_even q)
  | _ => None
  end.

Definition fsub (x y : pyfloat) : pyfloat :=
  match x, y with
  | NaN, _ | _, NaN => NaN
  | Fin a, Fin b => Fin (a - b)
  | PosInf, PosInf | NegInf, NegInf => NaN
  | PosInf, _ => PosInf
  | NegInf, _ => NegInf
  | Fin _, PosInf => NegInf
  | Fin _, NegInf => PosInf
  end.

Definition fabs (x : pyfloat) : pyfloat :=
  match x with
  | Fin q => Fin (Qabs q)
  | PosInf | NegInf => PosInf
  | NaN => NaN
  end.

(** [x <= y] *)
Definition fle (x y : pyfloat) : bool :=
  match x, y with
  | NaN, _ | _, NaN => false
  | Fin a, Fin b => Qle_bool a b
  | NegInf, _ => true
  | _, PosInf => true
  | _, _ => false
  end.

(** [x * c / d] for finite positive constants [c], [d]. *)
Definition fscale (c d : Q) (x : pyfloat) : pyfloat :=
  match x with
  | Fin q => Fin (q * c / d)
  | other => other
  end.

(** [c / x] for a finite positive constant [c] and [x] that is not [<= 0]. *)
Definition fdiv_into (c : Q) (x : pyfloat) : pyfloat :=
  match x with
  | Fin q => Fin (c / q)
  | PosInf | NegInf => Fin 0
  | NaN => NaN
  end.

(** [isinstance(v, (int, float))]; [bool] is a subclass of [int]. *)
Definition is_number (v : pyval) : bool :=
  match v with
  | PBool _ | PInt _ | PFloat _ => true
  | _ => false
  end.

(** The float a number converts to in arithmetic. *)
Definition number_value (v : pyval) : option pyfloat :=
  match v with
  | PBool b => Some (Fin (if b then 1 else 0))
  | PInt z => Some (Fin (inject_Z z))
  | PFloat f => Some f
  | _ => None
  end.

(** Truth value of [v] in a condition. *)
Definition py_truthy (v : pyval) : bool :=
  match v with
  | PNone => false
  | PBool b => b
  | PInt z => negb (z =? 0)
  | PFloat (Fin q) => negb (Qeq_bool q 0)
  | PFloat _ => true
  | PStr s => negb (String.eqb s "")
  end.

(** [int(v)]; [None] stands for [TypeError], [ValueError] or
    [OverflowError]. *)
Definition py_int (v : pyval) : option Z :=
  match v with
  | PNone => None
  | PBool b => Some (if b then 1 else 0)
  | PInt z => Some z
  | PFloat (Fin q) => Some (Qtrunc q)
  | PFloat _ => None
  | PStr s => int_of_string s
  end.

(** [float(v)]; [None] stands for [TypeError] or [ValueError]. *)
Definition py_float `{!PyFloatParser} (v : pyval) : option pyfloat :=
  match v with
  | PNone => None
  | PStr s => float_of_string s
  | other => number_value other
  end.

(** [(x or "")] for a state string. *)
Definition or_empty (x : option string) : string := default "" x.

(** Truth value of an optional string: [None] and [""] are false. *)
Definition str_truthy (x : option string) : bool :=
  match x with
  | Some s => negb (String.eqb s "")
  | None => false
  end.

(** A configuration value that may be absent, one string or a list of
    strings. *)
Inductive str_or_list :=
| SLNone
| SLStr (s : string)
| SLList (l : list string).

(** [_as_list(val)] *)
Definition _as_list (val : str_or_list) : list string :=
  match val with
  | SLNone => []
  | SLStr s => [s]
  | SLList l => l
  end.

Definition sl_truthy (val : str_or_list) : bool :=
  match val with
  | SLNone => false
  | SLStr s => negb (String.eqb s "")
  | SLList l => negb (Nat.eqb (List.length l) 0)
  end.

(** ** Time-based blocking helpers *)

(** [str(s)] of a window bound read with [w.get]. *)
Definition str_of (s : option string) : string := default "None" s.

(** [_parse_hhmm]: any exception yields [None]. *)
Definition _parse_hhmm (s : option string) : option Z :=
  match split ":" (str_of s) with
  | p0 :: p1 :: _ =>
      h ← int_of_string p0;
      m ← int_of_string p1;
      Some (h * 60 + m)
  | _ => None
  end.

Definition _within_window (start_min end_min : option Z) (now_min : Z) : bool :=
  match start_min, end_min with
  | Some s, Some e =>
      if s =? e then false
      else if s <? e then (s <=? now_min) && (now_min <? e)
      else (now_min >=? s) || (now_min <? e)
  | _, _ => false
  end.


(** ** Configuration, host and controller state *)

(** The [actions] entry of a block window, or [block_actions]. *)
Inductive actions_cfg :=
| ANone
| ABool (b : bool)
| AStr (s : string).

(** One entry of [block_windows], read with [w.get]. *)
Record window := {
  w_start : option string;
  w_end : option string;
  w_days : str_or_list;
  w_actions : actions_cfg
}.

(** The attributes [initialize] reads from [self.args] and never assigns
    again. Numbers are taken after the [float]/[int] conversion the code
    applies to them. *)
Record Config := {
  _app_name : string;
  _lights : list string;
  _motion_entities : list string;
  _lux_sensor : option string;
  _lux_threshold : option Q;
  _only_when_dark : bool;
  _delay_off : Q;
  _manual_off_reauto_delay : Q;
  _motion_reauto_seconds : Q;
  _boot_grace : Q;
  _echo_window : Q;
  _echo_max_window : Q;
  _media_players : list string;
  _media_dim_brightness_pct : option Z;
  _auto_brightness_pct : option Z;
  _al_switch : option string;
  _al_use_targets : bool;
  _al_take_over_on_manual : bool;
  _al_manual_reset_seconds : option Z;
  _al_adapt_brightness : option bool;
  _al_adapt_color : option bool;
  _quiet_start : option string;
  _quiet_end : option string;
  _block_windows : list window;
  block_actions : actions_cfg
}.

(** What the host answers while one event is handled. *)
Record World := {
  now_ts : Q;                                  (* time.time() *)
  dt_hour : Z;                                 (* datetime.now().hour *)
  dt_minute : Z;                               (* datetime.now().minute *)
  dt_day_abbr : string;                        (* strftime("%a") *)
  get_state : string -> option string;         (* get_state(entity) *)
  get_attr : string -> string -> option pyval  (* attributes of an entity, by key *)
}.

Inductive mode :=
| Auto
| ManualOn
| ManualOff.

(** The text [_mode] holds. *)
Definition mode_name (m : mode) : string :=
  match m with
  | Auto => "auto"
  | ManualOn => "manual_on"
  | ManualOff => "manual_off"
  end.

(** An entry of [_expected_echo]. *)
Record echo := {
  until : Q;
  expected : string;
  logged : bool
}.

(** The callbacks handed to [run_in]. *)
Inductive callback :=
| CbAutoOff
| CbMotionReauto
| CbManualOffReauto
| CbAlReset (entity : string).

(** A timer the host holds. *)
Record timer := {
  t_handle : nat;
  t_cb : callback;
  t_delay : Q
}.

(** Log texts; the ones with a number in them keep the number apart. *)
Inductive logmsg :=
| Msg (text : string)
| MsgScheduledOff (seconds : Z)
| MsgManualOff (entity : string) (seconds : Z)
| MsgLux (lux : option pyfloat)
| MsgInitialized.

(** What a handler asks of the host, in order. *)
Inductive effect :=
| Call (service entity_id : string) (brightness_pct color_temp_kelvin : option Z)
| AlCall (service entity_id : string) (lights : list string)
| Log (level : string) (msg : logmsg)
| SetStatus (m : mode) (presence media_playing : bool)
| SetDebug (m : mode) (presence media_playing : bool)
    (expected_echo : gmap string echo) (now : Q).

(** The mutable attributes of the instance, then the host's side: pending
    timers, the next fresh handle and the effects so far. *)
Record Ctl := {
  _mode : mode;
  _presence : bool;
  _off_timer : option nat;
  _motion_reauto_timer : option nat;
  _started_ts : Q;
  _expected_echo : gmap string echo;
  _last_cmd_by_entity : gmap string (string * Q);
  _media_playing : bool;
  _before_media_brightness_pct : list (string * option Z);
  _al_manual_timers : gmap string nat;
  timers : list timer;
  next_handle : nat;
  trace : list effect
}.

Definition set_mode (v : mode) (s : Ctl) : Ctl :=
  {| _mode := v; _presence := _presence s; _off_timer := _off_timer s;
     _motion_reauto_timer := _motion_reauto_timer s; _started_ts := _started_ts s;
     _expected_echo := _expected_echo s; _last_cmd_by_entity := _last_cmd_by_entity s;
     _media_playing := _media_playing s;
     _before_media_brightness_pct := _before_media_brightness_pct s;
     _al_manual_timers := _al_manual_timers s; timers := timers s;
     next_handle := next_handle s; trace := trace s |}.

Definition set_presence (v : bool) (s : Ctl) : Ctl :=
  {| _mode := _mode s; _presence := v; _off_timer := _off_timer s;
     _motion_reauto_timer := _motion_reauto_timer s; _started_ts := _started_ts s;
     _expected_echo := _expected_echo s; _last_cmd_by_entity := _last_cmd_by_entity s;
     _media_playing := _media_playing s;
     _before_media_brightness_pct := _before_media_brightness_pct s;
     _al_manual_timers := _al_manual_timers s; timers := timers s;
     next_handle := next_handle s; trace := trace s |}.

Definition set_off_timer (v : option nat) (s : Ctl) : Ctl :=
  {| _mode := _mode s; _presence := _presence s; _off_timer := v;
     _motion_reauto_timer := _motion_reauto_timer s; _started_ts := _started_ts s;
     _expected_echo := _expected_echo s; _last_cmd_by_entity := _last_cmd_by_entity s;
     _media_playing := _media_playing s;
     _before_media_brightness_pct := _before_media_brightness_pct s;
     _al_manual_timers := _al_manual_timers s; timers := timers s;
     next_handle := next_handle s; trace := trace s |}.

Definition set_motion_reauto_timer (v : option nat) (s : Ctl) : Ctl :=
  {| _mode := _mode s; _presence := _presence s; _off_timer := _off_timer s;
     _motion_reauto_timer := v; _started_ts := _started_ts s;
     _expected_echo := _expected_echo s; _last_cmd_by_entity := _last_cmd_by_entity s;
     _media_playing := _media_playing s;
     _before_media_brightness_pct := _before_media_brightness_pct s;
     _al_manual_timers := _al_manual_timers s; timers := timers s;
     next_handle := next_handle s; trace := trace s |}.

Definition set_expected_echo (v : gmap string echo) (s : Ctl) : Ctl :=
  {| _mode := _mode s; _presence := _presence s; _off_timer := _off_timer s;
     _motion_reauto_timer := _motion_reauto_timer s; _started_ts := _started_ts s;
     _expected_echo := v; _last_cmd_by_entity := _last_cmd_by_entity s;
     _media_playing := _media_playing s;
     _before_media_brightness_pct := _before_media_brightness_pct s;
     _al_manual_timers := _al_manual_timers s; timers := timers s;
     next_handle := next_handle s; trace := trace s |}.

Definition set_last_cmd_by_entity (v : gmap string (string * Q)) (s : Ctl) : Ctl :=
  {| _mode := _mode s; _presence := _presence s; _off_timer := _off_timer s;
     _motion_reauto_timer := _motion_reauto_timer s; _started_ts := _started_ts s;
     _expected_echo := _expected_echo s; _last_cmd_by_entity := v;
     _media_playing := _media_playing s;
     _before_media_brightness_pct := _before_media_brightness_pct s;
     _al_manual_timers := _al_manual_timers s; timers := timers s;
     next_handle := next_handle s; trace := trace s |}.

Definition set_media_playing (v : bool) (s : Ctl) : Ctl :=
  {| _mode := _mode s; _presence := _presence s; _off_timer := _off_timer s;
     _motion_reauto_timer := _motion_reauto_timer s; _started_ts := _started_ts s;
     _expected_echo := _expected_echo s; _last_cmd_by_entity := _last_cmd_by_entity s;
     _media_playing := v;
     _before_media_brightness_pct := _before_media_brightness_pct s;
     _al_manual_timers := _al_manual_timers s; timers := timers s;
     next_handle := next_handle s; trace := trace s |}.

Definition set_before_media (v : list (string * option Z)) (s : Ctl) : Ctl :=
  {| _mode := _mode s; _presence := _presence s; _off_timer := _off_timer s;
     _motion_reauto_timer := _motion_reauto_timer s; _started_ts := _started_ts s;
     _expected_echo := _expected_echo s; _last_cmd_by_entity := _last_cmd_by_entity s;
     _media_playing := _media_playing s;
     _before_media_brightness_pct := v;
     _al_manual_timers := _al_manual_timers s; timers := timers s;
     next_handle := next_handle s; trace := trace s |}.

Definition set_al_manual_timers (v : gmap string nat) (s : Ctl) : Ctl :=
  {| _mode := _mode s; _presence := _presence s; _off_timer := _off_timer s;
     _motion_reauto_timer := _motion_reauto_timer s; _started_ts := _started_ts s;
     _expected_echo := _expected_echo s; _last_cmd_by_entity := _last_cmd_by_entity s;
     _media_playing := _media_playing s;
     _before_media_brightness_pct := _before_media_brightness_pct s;
     _al_manual_timers := v; timers := timers s;
     next_handle := next_handle s; trace := trace s |}.

Definition set_timers (v : list timer) (s : Ctl) : Ctl :=
  {| _mode := _mode s; _presence := _presence s; _off_timer := _off_timer s;
     _motion_reauto_timer := _motion_reauto_timer s; _started_ts := _started_ts s;
     _expected_echo := _expected_echo s; _last_cmd_by_entity := _last_cmd_by_entity s;
     _media_playing := _media_playing s;
     _before_media_brightness_pct := _before_media_brightness_pct s;
     _al_manual_timers := _al_manual_timers s; timers := v;
     next_handle := next_handle s; trace := trace s |}.

Definition set_next_handle (v : nat) (s : Ctl) : Ctl :=
  {| _mode := _mode s; _presence := _presence s; _off_timer := _off_timer s;
     _motion_reauto_timer := _motion_reauto_timer s; _started_ts := _started_ts s;
     _expected_echo := _expected_echo s; _last_cmd_by_entity := _last_cmd_by_entity s;
     _media_playing := _media_playing s;
     _before_media_brightness_pct := _before_media_brightness_pct s;
     _al_manual_timers := _al_manual_timers s; timers := timers s;
     next_handle := v; trace := trace s |}.

Definition set_trace (v : list effect) (s : Ctl) : Ctl :=
  {| _mode := _mode s; _presence := _presence s; _off_timer := _off_timer s;
     _motion_reauto_timer := _motion_reauto_timer s; _started_ts := _started_ts s;
     _expected_echo := _expected_echo s; _last_cmd_by_entity := _last_cmd_by_entity s;
     _media_playing := _media_playing s;
     _before_media_brightness_pct := _before_media_brightness_pct s;
     _al_manual_timers := _al_manual_timers s; timers := timers s;
     next_handle := next_handle s; trace := v |}.

(** ** The handler monad: state that survives an exception *)

Inductive result (A : Type) :=
| Ok (a : A)
| Raised.
Arguments Ok {A} a.
Arguments Raised {A}.

Definition M (A : Type) : Type := Ctl -> result A * Ctl.

Definition ret {A} (a : A) : M A := fun s => (Ok a, s).

Definition bind {A B} (m : M A) (k : A -> M B) : M B :=
  fun s =>
    match m s with
    | (Ok a, s') => k a s'
    | (Raised, s') => (Raised, s')
    end.

Declare Scope py_scope.
Delimit Scope py_scope with py.
Notation "'let*' x ':=' m 'in' k" := (bind m (fun x => k))
  (at level 10, x name, m at level 100, k at level 200) : py_scope.
Notation "m '>>' k" := (bind m (fun _ => k))
  (at level 100, k at level 200, right associativity) : py_scope.
Open Scope py_scope.

Definition raise {A} : M A := fun s => (Raised, s).

Definition gets {A} (f : Ctl -> A) : M A := fun s => (Ok (f s), s).

Definition modify (f : Ctl -> Ctl) : M unit := fun s => (Ok tt, f s).

(** A conversion that may raise, run inside a handler. *)
Definition lift_opt {A} (o : option A) : M A :=
  match o with
  | Some a => ret a
  | None => raise
  end.

(** [for x in xs: body(x)] *)
Fixpoint for_each {A} (xs : list A) (body : A -> M unit) : M unit :=
  match xs with
  | [] => ret tt
  | x :: rest => body x >> for_each rest body
  end.

Definition when (b : bool) (m : M unit) : M unit := if b then m else ret tt.

Definition emit (e : effect) : M unit :=
  modify (fun s => set_trace (trace s ++ [e]) s).

(** [self.run_in(cb, delay, **kwargs)]: the host hands out a fresh handle. *)
Definition run_in (cb : callback) (delay : Q) : M nat :=
  fun s =>
    let h := next_handle s in
    (Ok h,
     set_next_handle (S h)
       (set_timers (timers s ++ [{| t_handle := h; t_cb := cb; t_delay := delay |}]) s)).

(** [self.cancel_timer(handle)] *)
Definition cancel_timer (handle : nat) : M unit :=
  modify (fun s =>
    set_timers (List.filter (fun t => negb (Nat.eqb (t_handle t) handle)) (timers s)) s).

(** Handles are opaque non-empty tokens, so [not handle] is [handle is None]. *)
Definition _cancel_timer_safe (handle : option nat) : M unit :=
  match handle with
  | None => ret tt
  | Some h => cancel_timer h
  end.

Definition _norm_actions (val : actions_cfg) : option string :=
  match val with
  | ABool b => if b then Some "on_off" else None
  | AStr s =>
      let v := lower (strip s) in
      if String.eqb v "on" || String.eqb v "off" || String.eqb v "on_off"
      then Some v else None
  | ANone => None
  end.

(** [(x or "").lower() == "on"] *)
Definition is_on (x : option string) : bool :=
  String.eqb (lower (or_empty x)) "on".

(** [(x or "").lower() in ("on", "home", "occupied", "true", "1")] *)
Definition is_occupied (x : option string) : bool :=
  let v := lower (or_empty x) in
  String.eqb v "on" || String.eqb v "home" || String.eqb v "occupied"
  || String.eqb v "true" || String.eqb v "1".

Definition is_none (v : pyval) : bool :=
  match v with
  | PNone => true
  | _ => false
  end.

(** [now > t] *)
Definition Qgt_bool (now t : Q) : bool := negb (Qle_bool now t).

(** [a < b] *)
Definition Qlt_bool (a b : Q) : bool := negb (Qle_bool b a).

(** ** The methods of [LightController] *)

Section Controller.
Context `{!PyFloatParser} (cfg : Config) (w : World).

Definition _block_actions_default : string :=
  default "on_off" (_norm_actions (block_actions cfg)).

Definition _reauto_button : string :=
  String.append "button.reautomate_" (_app_name cfg).

Definition _logx (msg : logmsg) (level : string) : M unit := emit (Log level msg).

Definition _publish_status : M unit :=
  let* s := gets id in
  emit (SetStatus (_mode s) (_presence s) (_media_playing s)).

Definition _publish_debug_state : M unit :=
  let* s := gets id in
  emit (SetDebug (_mode s) (_presence s) (_media_playing s) (_expected_echo s) (now_ts w)).

Definition _now_minutes_and_day : Z * string :=
  (dt_hour w * 60 + dt_minute w, lower (dt_day_abbr w)).

(** [days and day[:3] not in days] *)
Definition day_excluded (days : option (list string)) (day : string) : bool :=
  match days with
  | Some (d :: ds) => negb (existsb (String.eqb (slice_to 3 day)) (d :: ds))
  | _ => false
  end.

(** The loop of [_blocked_now] over the windows; [Some] is its [return],
    [None] is falling out of the loop. Nothing in the body raises on
    string-valued entries, so [except] only shows as the skipped window of
    [_parse_hhmm]. *)
Fixpoint blocked_by_windows (ws : list window) (now_min : Z) (day : string)
  : option (bool * option string) :=
  match ws with
  | [] => None
  | w0 :: rest =>
      let s := _parse_hhmm (w_start w0) in
      let e := _parse_hhmm (w_end w0) in
      if negb (_within_window s e now_min) then blocked_by_windows rest now_min day
      else
        let days :=
          if sl_truthy (w_days w0)
          then Some (map (fun d => slice_to 3 (lower d)) (_as_list (w_days w0)))
          else None in
        if day_excluded days day then blocked_by_windows rest now_min day
        else
          let actions := default _block_actions_default (_norm_actions (w_actions w0)) in
          Some (true,
                Some (String.append actions (String.append " "
                       (String.append (str_of (w_start w0))
                          (String.append "-" (str_of (w_end w0)))))))
  end.

Definition _blocked_now : bool * option string :=
  let '(now_min, day) := _now_minutes_and_day in
  match blocked_by_windows (_block_windows cfg) now_min day with
  | Some r => r
  | None =>
      let s := if str_truthy (_quiet_start cfg) then _parse_hhmm (_quiet_start cfg) else None in
      let e := if str_truthy (_quiet_end cfg) then _parse_hhmm (_quiet_end cfg) else None in
      if _within_window s e now_min
      then (true,
            Some (String.append _block_actions_default (String.append " "
                   (String.append (str_of (_quiet_start cfg))
                      (String.append "-" (str_of (_quiet_end cfg)))))))
      else (false, None)
  end.

Definition _automation_allowed (action : string) : bool :=
  let '(blocked, why) := _blocked_now in
  if negb blocked then true
  else if contains "on_off" (or_empty why) then false
  else if String.eqb action "on" && contains " on" (or_empty why) then false
  else if String.eqb action "off" && contains " off" (or_empty why) then false
  else true.

Definition _is_dark_enough : bool :=
  if negb (_only_when_dark cfg) || negb (str_truthy (_lux_sensor cfg)) then true
  else
    let val := get_state w (or_empty (_lux_sensor cfg)) in
    let lux :=
      match val with
      | Some v => float_of_string v     (* a failing float(val) gives None *)
      | None => None
      end in
    match lux with
    | None => true
    | Some l =>
        match _lux_threshold cfg with
        | None => true
        | Some low => fle l (Fin low)
        end
    end.

Definition _any_light_on : bool :=
  existsb (fun l => is_on (get_state w l)) (_lights cfg).

Definition _any_motion_on : bool :=
  existsb (fun ent => is_occupied (get_state w ent)) (_motion_entities cfg).

(** *** Echo protection *)

Definition _mark_expected_echo (state : string) : M unit :=
  let now := now_ts w in
  let until_ := Qmin (now + _echo_window cfg) (now + _echo_max_window cfg) in
  for_each (_lights cfg) (fun l =>
    modify (fun s =>
      set_expected_echo
        (<[l := {| until := until_; expected := state; logged := false |}]> (_expected_echo s)) s) >>
    modify (fun s =>
      set_last_cmd_by_entity (<[l := (state, now)]> (_last_cmd_by_entity s)) s)).

(** [exp["logged"] = True] on the entry stored under [entity]. *)
Definition set_logged (entity : string) (s : Ctl) : Ctl :=
  set_expected_echo
    (alter (fun e => {| until := until e; expected := expected e; logged := true |})
       entity (_expected_echo s)) s.

Definition _ignore_if_expected_echo (entity : string) (old new : option string) : M bool :=
  let* exp := gets (fun s => _expected_echo s !! entity) in
  match exp with
  | None => ret false
  | Some exp =>
      let now := now_ts w in
      if Qgt_bool now (until exp) then
        modify (fun s => set_expected_echo (delete entity (_expected_echo s)) s) >>
        ret false
      else
        let old_on := is_on old in
        let new_on := is_on new in
        if String.eqb (expected exp) "on" && negb old_on && new_on then
          when (negb (logged exp))
            (_logx (Msg "Ignoring echo from our own service call.") "INFO" >>
             modify (set_logged entity)) >>
          ret true
        else if String.eqb (expected exp) "off" && old_on && negb new_on then
          when (negb (logged exp))
            (_logx (Msg "Ignoring echo from our own service call.") "INFO" >>
             modify (set_logged entity)) >>
          ret true
        else ret false
  end.

Definition _recent_app_change (entity : string) (seconds : option Q) (s : Ctl) : bool :=
  let seconds := default (Qmax (_echo_window cfg) 3) seconds in
  match _last_cmd_by_entity s !! entity with
  | None => false
  | Some (_, ts) => Qle_bool (now_ts w - ts) seconds
  end.

(** *** Adaptive Lighting helpers *)

Definition _mireds_to_kelvin (mireds : pyval) : option Z :=
  match py_float mireds with
  | None => None
  | Some m =>
      if fle m (Fin 0) then None
      else py_round (fdiv_into 1000000 m)   (* a failing round() gives None *)
  end.

(** [self._al_switch_attrs().get(key)] *)
Definition al_attr (key : string) : option pyval :=
  if negb (str_truthy (_al_switch cfg)) then None
  else get_attr w (or_empty (_al_switch cfg)) key.

(** Returns (brightness_pct, color_temp_kelvin, adapt_brightness,
    adapt_color); [None] when [int(b2)] raises. *)
Definition _al_current_targets : option (pyval * pyval * bool * bool) :=
  let bri0 := default PNone (al_attr "brightness_pct") in
  bri ← (if is_none bri0 then
           let b2 := default PNone (al_attr "brightness") in
           if is_number b2 then PInt <$> py_int b2 else Some bri0
         else Some bri0);
  let ct0 := default PNone (al_attr "color_temp_kelvin") in
  let ct_kelvin :=
    if is_none ct0 then
      let m := default PNone (al_attr "color_temp") in
      if negb (is_none m) then from_option PInt PNone (_mireds_to_kelvin m) else ct0
    else ct0 in
  let adapt_b :=
    match _al_adapt_brightness cfg with
    | Some b => b
    | None => py_truthy (default (PBool true) (al_attr "adapt_brightness"))
    end in
  let adapt_c :=
    match _al_adapt_color cfg with
    | Some b => b
    | None => py_truthy (default (PBool true) (al_attr "adapt_color"))
    end in
  Some (bri, ct_kelvin, adapt_b, adapt_c).

(** [lights or self._lights] *)
Definition lights_or_all (lights : list string) : list string :=
  match lights with
  | [] => _lights cfg
  | _ => lights
  end.

Definition _al_set_manual_control (lights : list string) : M unit :=
  if negb (str_truthy (_al_switch cfg)) || negb (_al_take_over_on_manual cfg) then ret tt
  else
    emit (AlCall "adaptive_lighting/set_manual_control"
            (or_empty (_al_switch cfg)) (lights_or_all lights)) >>
    _logx (Msg "Told Adaptive Lighting to enable manual control for these lights.") "INFO".

Definition _al_reset (lights : list string) : M unit :=
  if negb (str_truthy (_al_switch cfg)) then ret tt
  else
    emit (AlCall "adaptive_lighting/reset" (or_empty (_al_switch cfg)) (lights_or_all lights)) >>
    _logx (Msg "Reset manual control on Adaptive Lighting for these lights.") "INFO".

(** [not self._al_manual_reset_seconds] *)
Definition no_reset_seconds : bool :=
  match _al_manual_reset_seconds cfg with
  | None => true
  | Some n => n =? 0
  end.

Definition _al_schedule_reset_for (entity : string) : M unit :=
  let* h := gets (fun s => _al_manual_timers s !! entity) in
  modify (fun s => set_al_manual_timers (delete entity (_al_manual_timers s)) s) >>
  _cancel_timer_safe h >>
  if no_reset_seconds then ret tt
  else
    let* h' := run_in (CbAlReset entity)
                 (inject_Z (default 0 (_al_manual_reset_seconds cfg))) in
    modify (fun s => set_al_manual_timers (<[entity := h']> (_al_manual_timers s)) s).

Definition _al_reset_timer_cb (ent : string) : M unit :=
  modify (fun s => set_al_manual_timers (delete ent (_al_manual_timers s)) s) >>
  _logx (Msg (String.append "Manual window elapsed for "
                (String.append ent "; resetting Adaptive Lighting control."))) "INFO" >>
  _al_reset [ent].

Definition is_brightness_attr (attr : string) : bool :=
  String.eqb attr "brightness" || String.eqb attr "brightness_pct".

Definition is_color_attr (attr : string) : bool :=
  String.eqb attr "color_temp" || String.eqb attr "color_temp_kelvin".

(** [int(round((float(new) / 255.0) * 100))] *)
Definition pct_of_255 (new : pyval) : option Z :=
  f ← py_float new;
  py_round (fscale 100 255 f).

(** [val] of the brightness branch: [None] is an exception, [Some None]
    is [val = None]. *)
Definition brightness_val (attr : string) (new : pyval) : option (option Z) :=
  if String.eqb attr "brightness" then
    if is_number new then Some <$> pct_of_255 new else Some None
  else
    if negb (is_none new) then Some <$> py_int new else Some None.

(** [valk] of the colour branch, likewise. *)
Definition kelvin_val (attr : string) (new : pyval) : option (option Z) :=
  if String.eqb attr "color_temp" then Some (_mireds_to_kelvin new)
  else
    if negb (is_none new) then Some <$> py_int new else Some None.

(** The first [if] of the [try] block of [_al_is_change_like_al]: [None] is
    an exception, [Some true] is [return True]. *)
Definition al_brightness_match (attr : string) (new bri_t : pyval) : option bool :=
  if is_brightness_attr attr && negb (is_none bri_t) then
    val ← brightness_val attr new;
    match val with
    | Some v => t ← py_int bri_t; Some (Z.abs (t - v) <=? 3)
    | None => Some false
    end
  else Some false.

(** The second [if] of that block. *)
Definition al_color_match (attr : string) (new ct_k_t : pyval) : option bool :=
  if is_color_attr attr && negb (is_none ct_k_t) then
    valk ← kelvin_val attr new;
    match valk with
    | Some v => t ← py_int ct_k_t; Some (Z.abs (t - v) <=? 150)
    | None => Some false
    end
  else Some false.

(** [None] when [_al_current_targets], called outside the [try], raises. *)
Definition _al_is_change_like_al (entity attr : string) (old new : pyval) : option bool :=
  if negb (str_truthy (_al_switch cfg)) || negb (is_brightness_attr attr || is_color_attr attr)
  then Some false
  else
    t ← _al_current_targets;
    let '(bri_t, ct_k_t, _, _) := t in
    Some (default false
            (b ← al_brightness_match attr new bri_t;
             if b : bool then Some true else al_color_match attr new ct_k_t)).

(** *** Light control *)

Definition _turn_on (reason : string) : M unit :=
  _mark_expected_echo "on" >>
  let* t := (if str_truthy (_al_switch cfg) && _al_use_targets cfg
             then lift_opt _al_current_targets
             else ret (PNone, PNone, true, true)) in
  let '(bri_target, ct_kelvin, adapt_b, adapt_c) := t in
  let* playing := gets _media_playing in
  let bp0 :=
    if playing && bool_decide (is_Some (_media_dim_brightness_pct cfg))
    then _media_dim_brightness_pct cfg
    else _auto_brightness_pct cfg in
  let* bp := (match bp0 with
              | None =>
                  if negb (is_none bri_target) && adapt_b
                  then let* b := lift_opt (py_int bri_target) in ret (Some b)
                  else ret None
              | Some b => ret (Some b)
              end) in
  for_each (_lights cfg) (fun l =>
    if startswith l "switch." then emit (Call "switch/turn_on" l None None)
    else
      let* ct := (if negb (is_none ct_kelvin) && adapt_c
                  then let* k := lift_opt (py_int ct_kelvin) in ret (Some k)
                  else ret None) in
      emit (Call "light/turn_on" l bp ct)) >>
  _logx (Msg (String.append "Turn ON (" (String.append reason ")."))) "INFO".

Definition _turn_off (reason : string) : M unit :=
  _mark_expected_echo "off" >>
  for_each (_lights cfg) (fun l =>
    if startswith l "switch." then emit (Call "switch/turn_off" l None None)
    else emit (Call "light/turn_off" l None None)) >>
  _logx (Msg (String.append "Turn OFF (" (String.append reason ")."))) "INFO".

Definition _schedule_off : M unit :=
  let* h := gets _off_timer in
  _cancel_timer_safe h >>
  let* h' := run_in CbAutoOff (_delay_off cfg) in
  modify (set_off_timer (Some h')) >>
  _logx (MsgScheduledOff (Qtrunc (_delay_off cfg))) "INFO".

Definition is_auto (m : mode) : bool :=
  match m with
  | Auto => true
  | _ => false
  end.

Definition is_manual_on (m : mode) : bool :=
  match m with
  | ManualOn => true
  | _ => false
  end.

Definition is_manual_off (m : mode) : bool :=
  match m with
  | ManualOff => true
  | _ => false
  end.

Definition _auto_off_elapsed : M unit :=
  let* s := gets id in
  when (is_auto (_mode s) && negb (_presence s))
    (if _automation_allowed "off" then
       _logx (Msg "Auto-off timer elapsed; turning light off.") "INFO" >>
       _turn_off "auto_off"
     else
       _logx (Msg "Auto-off elapsed but OFF is blocked; keeping lights as-is.") "INFO") >>
  modify (set_off_timer None).

(** *** Media handling *)

(** [l in d] for an insertion-ordered dict. *)
Definition dict_mem {V} (l : string) (d : list (string * V)) : bool :=
  existsb (fun kv => String.eqb (fst kv) l) d.

(** [d[l] = v]: a present key keeps its place, a new one goes last. *)
Fixpoint dict_set {V} (l : string) (v : V) (d : list (string * V)) : list (string * V) :=
  match d with
  | [] => [(l, v)]
  | (k, x) :: rest => if String.eqb k l then (k, v) :: rest else (k, x) :: dict_set l v rest
  end.

(** [max(1, min(100, int(round((bri / 255) * 100))))]; [None] when
    [round] raises. *)
Definition pct_clamped (bri : pyval) : option Z :=
  f ← number_value bri;
  r ← py_round (fscale 100 255 f);
  Some (Z.max 1 (Z.min 100 r)).

(** The body of the loop of [_apply_media_dimming] for one light; the
    result is the new value of [changed]. *)
Definition dim_one (target : Z) (changed : bool) (l : string) : M bool :=
  if negb (startswith l "light.") then ret changed
  else
    let bri := default PNone (get_attr w l "brightness") in
    let* before := gets _before_media_brightness_pct in
    when (negb (dict_mem l before))
      (let* pct := (if is_number bri
                    then let* p := lift_opt (pct_clamped bri) in ret (Some p)
                    else ret None) in
       modify (fun s => set_before_media (dict_set l pct (_before_media_brightness_pct s)) s)) >>
    emit (Call "light/turn_on" l (Some target) None) >>
    ret true.

(** A [for] loop that carries a local variable. *)
Fixpoint for_fold {A B} (xs : list A) (acc : B) (body : B -> A -> M B) : M B :=
  match xs with
  | [] => ret acc
  | x :: rest => let* acc' := body acc x in for_fold rest acc' body
  end.

Definition _apply_media_dimming : M unit :=
  match _media_dim_brightness_pct cfg with
  | None => ret tt
  | Some target =>
      let* changed := for_fold (_lights cfg) false (dim_one target) in
      when changed (_logx (Msg "Media playing -> dimming lights.") "INFO")
  end.

Definition _restore_from_media : M unit :=
  let* before := gets _before_media_brightness_pct in
  match before with
  | [] =>
      match _auto_brightness_pct cfg with
      | Some a =>
          for_each (_lights cfg) (fun l =>
            when (startswith l "light.") (emit (Call "light/turn_on" l (Some a) None))) >>
          _logx (Msg "Media stopped -> setting lights to auto brightness.") "INFO"
      | None => ret tt
      end
  | _ =>
      for_each before (fun kv =>
        if negb (startswith (fst kv) "light.") then ret tt
        else
          match snd kv with
          | None => ret tt
          | Some pct => emit (Call "light/turn_on" (fst kv) (Some pct) None)
          end) >>
      modify (set_before_media []) >>
      _logx (Msg "Media stopped -> restoring brightness.") "INFO"
  end.

(** *** Event handlers *)

Definition publish : M unit := _publish_status >> _publish_debug_state.

Definition _on_motion (entity attribute : string) (old new : option string) : M unit :=
  let is_on := is_occupied new in
  modify (set_presence is_on) >>
  let* m := gets _mode in
  when (is_manual_on m && is_on)
    (let* h := gets _motion_reauto_timer in
     _cancel_timer_safe h >>
     let* h' := run_in CbMotionReauto (_motion_reauto_seconds cfg) in
     modify (set_motion_reauto_timer (Some h')) >>
     _logx (Msg "Motion during manual_on; scheduling quick re-automate.") "INFO") >>
  let* m := gets _mode in
  if negb (is_auto m) then publish
  else if is_on then
    let* h := gets _off_timer in
    _cancel_timer_safe h >>
    if negb (_automation_allowed "on") then
      _logx (Msg "Motion but automation is blocked now; ignoring ON.") "INFO" >>
      publish
    else
      (if _is_dark_enough then
         if negb _any_light_on then _turn_on "motion"
         else
           let* playing := gets _media_playing in
           when (playing && bool_decide (is_Some (_media_dim_brightness_pct cfg)))
             _apply_media_dimming
       else _logx (Msg "Motion but not dark; leaving lights as-is.") "INFO") >>
      publish
  else
    when (negb _any_motion_on)
      (if _automation_allowed "off" then _schedule_off
       else _logx (Msg "Motion cleared but OFF is blocked now; leaving lights as-is.") "INFO") >>
    publish.

Definition _on_light_power (entity attribute : string) (old new : option string) : M unit :=
  let* started := gets _started_ts in
  if Qlt_bool (now_ts w - started) (_boot_grace cfg) then ret tt
  else
    let* ignored := _ignore_if_expected_echo entity old new in
    if ignored : bool then ret tt
    else
      let new_on := is_on new in
      let old_on := is_on old in
      (if new_on && negb old_on then
         let* m := gets _mode in
         when (negb (is_manual_on m))
           (modify (set_mode ManualOn) >>
            let* h := gets _off_timer in
            _cancel_timer_safe h >>
            _logx (Msg (String.append "Manual ON; pausing automation. (source=state_change:"
                          (String.append entity "=on)"))) "INFO" >>
            _al_set_manual_control [entity] >>
            _al_schedule_reset_for entity)
       else if negb new_on && old_on then
         let* m := gets _mode in
         when (negb (is_manual_off m))
           (modify (set_mode ManualOff) >>
            let* h := gets _off_timer in
            _cancel_timer_safe h >>
            _logx (MsgManualOff entity (Qtrunc (_manual_off_reauto_delay cfg))) "INFO" >>
            let* _ := run_in CbManualOffReauto (_manual_off_reauto_delay cfg) in
            ret tt)
       else ret tt) >>
      publish.

(** [old or 0] *)
Definition or_zero (v : pyval) : pyval := if py_truthy v then v else PInt 0.

(** [o = float(old or 0); n = float(new or 0); abs(n - o) >= threshold];
    [None] when a conversion raises. *)
Definition change_at_least (threshold : Q) (old new : pyval) : option bool :=
  o ← py_float (or_zero old);
  n ← py_float (or_zero new);
  Some (fle (Fin threshold) (fabs (fsub n o))).

(** [s.endswith(suffix)] *)
Definition endswith (s suffix : string) : bool :=
  String.prefix (String.rev suffix) (String.rev s).

(** The [try] block either returns a verdict or, on an exception or on
    another attribute, leaves the final [return True] to run. *)
Definition _changed_meaningfully (attribute : string) (old new : pyval) : bool :=
  default true
    (if is_brightness_attr attribute then change_at_least 5 old new
     else if is_color_attr attribute then
       if endswith attribute "kelvin" then change_at_least 100 old new
       else change_at_least 5 old new
     else None).

Definition _on_light_attr (entity attribute : string) (old new : pyval) : M unit :=
  let* started := gets _started_ts in
  if Qlt_bool (now_ts w - started) (_boot_grace cfg) then ret tt
  else
    let* recent := gets (_recent_app_change entity None) in
    if recent : bool then ret tt
    else
      let* like_al := lift_opt (_al_is_change_like_al entity attribute old new) in
      if like_al : bool then ret tt
      else if negb (_changed_meaningfully attribute old new) then ret tt
      else if negb (is_on (get_state w entity)) then ret tt
      else
        let* m := gets _mode in
        when (negb (is_manual_on m))
          (modify (set_mode ManualOn) >>
           let* h := gets _off_timer in
           _cancel_timer_safe h >>
           _logx (Msg (String.append "Manual tweak on " (String.append entity
                   (String.append " (" (String.append attribute
                     ") -> entering manual_on and pausing automation."))))) "INFO") >>
        _al_set_manual_control [entity] >>
        _al_schedule_reset_for entity >>
        publish.

Definition _on_lux_changed (entity attribute : string) (old new : option string) : M unit :=
  let lux :=
    match new with
    | Some v => float_of_string v
    | None => None
    end in
  _logx (MsgLux lux) "INFO" >>
  let* s := gets id in
  when (is_auto (_mode s) && _presence s && _is_dark_enough)
    (if negb _any_light_on then
       if _automation_allowed "on" then _turn_on "lux_dark_now"
       else _logx (Msg "Dark now but ON is blocked; ignoring.") "INFO"
     else
       when (_media_playing s && bool_decide (is_Some (_media_dim_brightness_pct cfg)))
         _apply_media_dimming) >>
  publish.

Definition _on_media_state (entity attribute : string) (old new : option string) : M unit :=
  let playing := String.eqb (lower (or_empty new)) "playing" in
  modify (set_media_playing playing) >>
  _logx (Msg (String.append "Media state on " (String.append entity
          (String.append ": " (str_of new))))) "INFO" >>
  let* m := gets _mode in
  if negb (is_auto m) then publish
  else
    (if playing then when (_is_dark_enough && _any_light_on) _apply_media_dimming
     else when _any_light_on _restore_from_media) >>
    publish.

(** *** Re-automation paths *)

Definition _reautomate_from_motion : M unit :=
  modify (set_motion_reauto_timer None) >>
  modify (set_mode Auto) >>
  let* presence := gets _presence in
  (if presence && _is_dark_enough then
     if _automation_allowed "on" then
       _logx (Msg "Re-automated (motion_reauto); motion present -> ensuring ON under auto.") "INFO" >>
       _turn_on "motion_reauto"
     else
       _logx (Msg "Re-automated (motion_reauto); ON is blocked now; doing nothing.") "INFO"
   else
     _logx (Msg "Re-automated (motion_reauto); no motion -> turning OFF.") "INFO" >>
     _turn_off "motion_reauto") >>
  publish.

Definition _reautomate_from_manual_off : M unit :=
  modify (set_mode Auto) >>
  let* presence := gets _presence in
  (if presence && _is_dark_enough then
     if _automation_allowed "on" then
       _logx (Msg "Re-automated (manual_off_timeout); presence -> turning ON.") "INFO" >>
       _turn_on "manual_off_timeout"
     else
       _logx (Msg "Re-automated (manual_off_timeout); ON is blocked; doing nothing.") "INFO"
   else
     _logx (Msg "Re-automated (manual_off_timeout); no presence or not dark -> turning OFF.") "INFO" >>
     _turn_off "manual_off_timeout") >>
  publish.

(** The payload of a [call_service] event: [domain], [service] and the
    [entity_id] of [service_data]. *)
Record button_data := {
  bd_domain : option string;
  bd_service : option string;
  bd_entity_id : str_or_list
}.

Definition _on_button_press (data : button_data) : M unit :=
  if negb (bool_decide (bd_domain data = Some "button"))
     || negb (bool_decide (bd_service data = Some "press")) then ret tt
  else
    let ent := bd_entity_id data in
    if negb (sl_truthy ent) then ret tt
    else if negb (existsb (String.eqb _reauto_button) (_as_list ent)) then ret tt
    else
      _logx (Msg (String.append "Re-automate accepted from button.press for " _reauto_button))
        "INFO" >>
      modify (set_mode Auto) >>
      let* presence := gets _presence in
      (if presence && _is_dark_enough then
         _logx (Msg "Re-automated (button.press); motion present -> ensuring ON under auto.") "INFO" >>
         _turn_on "event"
       else
         _logx (Msg "Re-automated (button.press); no motion or not dark -> turning OFF.") "INFO" >>
         _turn_off "event") >>
      publish.

(** *** Dispatch *)

Inductive event :=
| EvMotion (entity : string) (old new : option string)
| EvLightPower (entity : string) (old new : option string)
| EvLightAttr (entity attribute : string) (old new : pyval)
| EvLux (entity : string) (old new : option string)
| EvMedia (entity : string) (old new : option string)
| EvButton (data : button_data)
| EvTimer (handle : nat).

Definition run_callback (cb : callback) : M unit :=
  match cb with
  | CbAutoOff => _auto_off_elapsed
  | CbMotionReauto => _reautomate_from_motion
  | CbManualOffReauto => _reautomate_from_manual_off
  | CbAlReset ent => _al_reset_timer_cb ent
  end.

(** The host fires a pending timer: it leaves the pending list, then its
    callback runs. A handle that is not pending fires nothing. *)
Definition fire_timer (handle : nat) : M unit :=
  let* ts := gets timers in
  match List.find (fun t => Nat.eqb (t_handle t) handle) ts with
  | None => ret tt
  | Some t => cancel_timer handle >> run_callback (t_cb t)
  end.

Definition handle (ev : event) : M unit :=
  match ev with
  | EvMotion entity old new => _on_motion entity "state" old new
  | EvLightPower entity old new => _on_light_power entity "state" old new
  | EvLightAttr entity attribute old new => _on_light_attr entity attribute old new
  | EvLux entity old new => _on_lux_changed entity "state" old new
  | EvMedia entity old new => _on_media_state entity "state" old new
  | EvButton data => _on_button_press data
  | EvTimer h => fire_timer h
  end.

(** One event processed to completion; an exception that escapes the
    handler is kept by the host and the state reached so far stays. *)
Definition step (ev : event) (s : Ctl) : Ctl := snd (handle ev s).

(** The attribute values [initialize] sets, with [_started_ts] read from
    the clock; [None] is the [ValueError] for an empty light list. The
    virtual entities it creates and the listeners it registers are the
    host's wiring: [handle] below is what those listeners dispatch to. *)
Definition initialize : option Ctl :=
  match _lights cfg with
  | [] => None
  | _ =>
      Some {| _mode := Auto; _presence := false; _off_timer := None;
              _motion_reauto_timer := None; _started_ts := now_ts w;
              _expected_echo := ∅; _last_cmd_by_entity := ∅;
              _media_playing := false; _before_media_brightness_pct := [];
              _al_manual_timers := ∅; timers := []; next_handle := 0%nat;
              trace := [Log "INFO" MsgInitialized] |}
  end.

End Controller.

(** A run: each event comes with the world the host shows while it is
    handled. *)
Fixpoint run `{!PyFloatParser} (cfg : Config) (evs : list (World * event)) (s : Ctl) : Ctl :=
  match evs with
  | [] => s
  | (w, ev) :: rest => run cfg rest (step cfg w ev s)
  end.

(** A reader for the scenarios below: the plain decimal fragment of what
    [float] accepts (sign, digits, optional fraction). *)
Definition decimal_of_string (s : string) : option pyfloat :=
  let t := number_strip s in
  let '(neg, body) :=
    match t with
    | String "-" r => (true, r)
    | String "+" r => (false, r)
    | _ => (false, t)
    end in
  if contains "_" body then None
  else
    q ← match split "." body with
        | [i] => inject_Z <$> digitpart i
        | [i; f] =>
            a ← digitpart i;
            b ← digitpart f;
            let scale := Z.pow 10 (Z.of_nat (String.length f)) in
            Some (Qmake (a * scale + b) (Z.to_pos scale))
        | _ => None
        end;
    Some (Fin (if neg : bool then - q else q)).

Definition decimal_parser : PyFloatParser := decimal_of_string.

(** ** Observations used in the statements *)

(** The configuration with another list of block windows. *)
Definition set_block_windows (ws : list window) (cfg : Config) : Config :=
  {| _app_name := _app_name cfg; _lights := _lights cfg;
     _motion_entities := _motion_entities cfg; _lux_sensor := _lux_sensor cfg;
     _lux_threshold := _lux_threshold cfg; _only_when_dark := _only_when_dark cfg;
     _delay_off := _delay_off cfg;
     _manual_off_reauto_delay := _manual_off_reauto_delay cfg;
     _motion_reauto_seconds := _motion_reauto_seconds cfg;
     _boot_grace := _boot_grace cfg; _echo_window := _echo_window cfg;
     _echo_max_window := _echo_max_window cfg; _media_players := _media_players cfg;
     _media_dim_brightness_pct := _media_dim_brightness_pct cfg;
     _auto_brightness_pct := _auto_brightness_pct cfg; _al_switch := _al_switch cfg;
     _al_use_targets := _al_use_targets cfg;
     _al_take_over_on_manual := _al_take_over_on_manual cfg;
     _al_manual_reset_seconds := _al_manual_reset_seconds cfg;
     _al_adapt_brightness := _al_adapt_brightness cfg;
     _al_adapt_color := _al_adapt_color cfg; _quiet_start := _quiet_start cfg;
     _quiet_end := _quiet_end cfg; _block_windows := ws;
     block_actions := block_actions cfg |}.

(** The on/off commands among some effects: service and target. *)
Fixpoint calls_of (tr : list effect) : list (string * string) :=
  match tr with
  | [] => []
  | Call service entity _ _ :: rest => (service, entity) :: calls_of rest
  | _ :: rest => calls_of rest
  end.

(** The turn-on command each light of the group gets. *)
Definition on_calls (cfg : Config) : list (string * string) :=
  map (fun l => (if startswith l "switch." then "switch/turn_on" else "light/turn_on", l))
    (_lights cfg).

(** The turn-off command each light of the group gets. *)
Definition off_calls (cfg : Config) : list (string * string) :=
  map (fun l => (if startswith l "switch." then "switch/turn_off" else "light/turn_off", l))
    (_lights cfg).

(** The report goes the way the expectation says: off to on for an
    expected [on], on to off for an expected [off]. *)
Definition echo_matches (exp : echo) (old new : option string) : bool :=
  (String.eqb (expected exp) "on" && negb (is_on old) && is_on new)
  || (String.eqb (expected exp) "off" && is_on old && negb (is_on new)).

(** The one log line of an acknowledged echo. *)
Definition echo_log : effect :=
  Log "INFO" (Msg "Ignoring echo from our own service call.").

(** The command that sets one light to a brightness percentage. *)
Definition dim_call (target : Z) (l : string) : effect :=
  Call "light/turn_on" l (Some target) None.

(** The commands a restoration sends for the captured values [d]. *)
Definition restore_calls (d : list (string * option Z)) : list effect :=
  concat (map (fun kv : string * option Z =>
                 if startswith (fst kv) "light." then
                   match snd kv with
                   | Some pct => [dim_call pct (fst kv)]
                   | None => []
                   end
                 else []) d).

(** The commands that set every [light.] entity to the default brightness. *)
Definition auto_calls (a : Z) (lights : list string) : list effect :=
  concat (map (fun l => if startswith l "light." then [dim_call a l] else []) lights).

(** The adaptation targets [_turn_on] would use are absent or values
    [int] accepts, so that [_turn_on] runs to its end. *)
Definition al_targets_usable `{!PyFloatParser} (cfg : Config) (w : World) : bool :=
  if str_truthy (_al_switch cfg) && _al_use_targets cfg then
    match _al_current_targets cfg w with
    | Some (bri, ct, _, _) =>
        (is_none bri || bool_decide (is_Some (py_int bri)))
        && (is_none ct || bool_decide (is_Some (py_int ct)))
    | None => false
    end
  else true.

(** A button press this controller accepts as its re-automate request. *)
Definition press_accepted (cfg : Config) (data : button_data) : Prop :=
  bd_domain data = Some "button" /\ bd_service data = Some "press" /\
  In (_reauto_button cfg) (_as_list (bd_entity_id data)).

(** What a timer-driven re-automation leaves behind, from state [s] to the
    handler's answer [r]. *)
Definition timer_reautomation_outcome `{!PyFloatParser} (cfg : Config) (w : World)
    (s : Ctl) (r : result unit * Ctl) : Prop :=
  _mode (snd r) = Auto /\
  (_presence s && _is_dark_enough cfg w = true ->
   _automation_allowed cfg w "on" = true ->
   al_targets_usable cfg w = true ->
   fst r = Ok tt /\
   calls_of (trace (snd r)) = (calls_of (trace s) ++ on_calls cfg)%list) /\
  (_presence s && _is_dark_enough cfg w = true ->
   _automation_allowed cfg w "on" = false ->
   fst r = Ok tt /\ calls_of (trace (snd r)) = calls_of (trace s)) /\
  (_presence s && _is_dark_enough cfg w = false ->
   fst r = Ok tt /\
   calls_of (trace (snd r)) = (calls_of (trace s) ++ off_calls cfg)%list).

(** What an accepted button request leaves behind; the case of presence
    and darkness with ON blocked is left open. *)
Definition button_reautomation_outcome `{!PyFloatParser} (cfg : Config) (w : World)
    (s : Ctl) (r : result unit * Ctl) : Prop :=
  _mode (snd r) = Auto /\
  (_presence s && _is_dark_enough cfg w = true ->
   _automation_allowed cfg w "on" = true ->
   al_targets_usable cfg w = true ->
   fst r = Ok tt /\
   calls_of (trace (snd r)) = (calls_of (trace s) ++ on_calls cfg)%list) /\
  (_presence s && _is_dark_enough cfg w = false ->
   fst r = Ok tt /\
   calls_of (trace (snd r)) = (calls_of (trace s) ++ off_calls cfg)%list).

(** [d.get(l)] for an insertion-ordered dict. *)
Fixpoint dict_get {V} (l : string) (d : list (string * V)) : option V :=
  match d with
  | [] => None
  | (k, x) :: rest => if String.eqb k l then Some x else dict_get l rest
  end.

(** The pending timers that run a given callback. *)
Definition pending (cb : callback -> bool) (s : Ctl) : list timer :=
  List.filter (fun t => cb (t_cb t)) (timers s).

Definition is_auto_off_cb (cb : callback) : bool :=
  match cb with
  | CbAutoOff => true
  | _ => false
  end.

Definition is_motion_reauto_cb (cb : callback) : bool :=
  match cb with
  | CbMotionReauto => true
  | _ => false
  end.

Definition is_manual_off_reauto_cb (cb : callback) : bool :=
  match cb with
  | CbManualOffReauto => true
  | _ => false
  end.

Definition is_al_reset_cb (entity : string) (cb : callback) : bool :=
  match cb with
  | CbAlReset e => String.eqb e entity
  | _ => false
  end.

(** [m] never changes the observation [f] of the state, whether it returns
    or raises. *)
Definition preserves {X A} (f : Ctl -> X) (m : M A) : Prop :=
  forall s, f (snd (m s)) = f s.

(** [m] always returns, and the on/off commands it adds to the trace are
    exactly [cs]. *)
Definition sends {A} (m : M A) (cs : list (string * string)) : Prop :=
  forall s, (exists a, fst (m s) = Ok a) /\
            calls_of (trace (snd (m s))) = (calls_of (trace s) ++ cs)%list.

(** From any state that satisfies [P], the state [m] ends in, returning or
    raising, satisfies [Q]. *)
Definition hoare {A} (P : Ctl -> Prop) (m : M A) (Q : Ctl -> Prop) : Prop :=
  forall s, P s -> Q (snd (m s)).

(** The part of the state the timer discipline is about. *)
Definition timer_view (s : Ctl)
  : list timer * nat * option nat * option nat * gmap string nat :=
  (timers s, next_handle s, _off_timer s, _motion_reauto_timer s, _al_manual_timers s).

(** Every pending timer has its own handle, older than the next fresh one,
    and every pending auto-off, quick re-automate and manual-hold timer is
    the one remembered for that purpose. *)
Record tracked (ts : list timer) (next : nat) (off motion : option nat)
    (al : gmap string nat) : Prop := {
  handles_distinct : List.NoDup (map t_handle ts);
  handles_issued : forall t, In t ts -> (t_handle t < next)%nat;
  auto_off_tracked :
    forall t, In t ts -> t_cb t = CbAutoOff -> off = Some (t_handle t);
  motion_reauto_tracked :
    forall t, In t ts -> t_cb t = CbMotionReauto -> motion = Some (t_handle t);
  al_reset_tracked :
    forall t e, In t ts -> t_cb t = CbAlReset e -> al !! e = Some (t_handle t)
}.

Definition timers_tracked (s : Ctl) : Prop :=
  tracked (timers s) (next_handle s) (_off_timer s) (_motion_reauto_timer s)
    (_al_manual_timers s).

(** No pending timer runs a callback that [cb] selects. *)
Definition none_pending (cb : callback -> bool) (s : Ctl) : Prop :=
  forall t, In t (timers s) -> cb (t_cb t) = false.

(** The callbacks that share a purpose with [c]. *)
Definition same_purpose (c : callback) : callback -> bool :=
  match c with
  | CbAutoOff => is_auto_off_cb
  | CbMotionReauto => is_motion_reauto_cb
  | CbManualOffReauto => fun _ => false
  | CbAlReset e => is_al_reset_cb e
  end.

(** ** Scenarios *)

(** A configuration with the defaults of [initialize]. *)
Definition demo_config (lights motion : list string) (windows : list window)
    (lux_sensor : option string) (lux_threshold : option Q)
    (media_dim auto_brightness : option Z) (al_switch : option string) : Config :=
  {| _app_name := "den"; _lights := lights; _motion_entities := motion;
     _lux_sensor := lux_sensor; _lux_threshold := lux_threshold;
     _only_when_dark := true; _delay_off := 60; _manual_off_reauto_delay := 3600;
     _motion_reauto_seconds := 5; _boot_grace := 60; _echo_window := 3;
     _echo_max_window := 60; _media_players := [];
     _media_dim_brightness_pct := media_dim; _auto_brightness_pct := auto_brightness;
     _al_switch := al_switch; _al_use_targets := true; _al_take_over_on_manual := true;
     _al_manual_reset_seconds := Some 900; _al_adapt_brightness := None;
     _al_adapt_color := None; _quiet_start := None; _quiet_end := None;
     _block_windows := windows; block_actions := ANone |}.

(** A world at the given clock readings with listed entity states and
    attributes. *)
Definition demo_world (now : Q) (hour minute : Z)
    (states : list (string * string)) (attrs : list (string * list (string * pyval))) : World :=
  {| now_ts := now; dt_hour := hour; dt_minute := minute; dt_day_abbr := "Mon";
     get_state := fun e => dict_get e states;
     get_attr := fun e k => a ← dict_get e attrs; dict_get k a |}.

(** The controller long after start-up, in a given mode and presence. *)
Definition demo_state (m : mode) (presence : bool) : Ctl :=
  {| _mode := m; _presence := presence; _off_timer := None;
     _motion_reauto_timer := None; _started_ts := 0; _expected_echo := ∅;
     _last_cmd_by_entity := ∅; _media_playing := false;
     _before_media_brightness_pct := []; _al_manual_timers := ∅; timers := [];
     next_handle := 0%nat; trace := [] |}.

Definition night_window (actions : string) : window :=
  {| w_start := Some "22:00"; w_end := Some "07:00"; w_days := SLNone;
     w_actions := AStr actions |}.

Definition broken_window : window :=
  {| w_start := Some "22h00"; w_end := Some "07:00"; w_days := SLNone;
     w_actions := AStr "on_off" |}.

(** One light, quiet hours for the given actions, no lux sensor. *)
Definition night_config (actions : string) : Config :=
  demo_config ["light.a"] ["binary_sensor.m1"] [night_window actions]
    None None None None None.

Definition world_2330 : World := demo_world 1000 23 30 [("light.a", "on")] [].

(** A lux sensor with threshold 10 that reports no number. *)
Definition lux_config : Config :=
  demo_config ["light.a"] ["binary_sensor.m1"] [] (Some "sensor.lux") (Some 10%Q)
    None None None.

Definition world_lux_unavailable : World :=
  demo_world 1000 12 0 [("sensor.lux", "unavailable"); ("light.a", "on")] [].

(** An adaptation switch whose targets are 40 percent and 3000 K. *)
Definition al_config : Config :=
  demo_config ["light.a"] ["binary_sensor.m1"] [] None None None None (Some "switch.al").

Definition world_al : World :=
  demo_world 1000 12 0 [("light.a", "on")]
    [("switch.al", [("brightness_pct", PInt 40); ("color_temp_kelvin", PInt 3000)])].

(** One light, nothing else configured; noon, the light is on. *)
Definition plain_config : Config :=
  demo_config ["light.a"] ["binary_sensor.m1"] [] None None None None None.

Definition world_noon : World := demo_world 1000 12 0 [("light.a", "on")] [].

(** Two presence sensors; the first still reads on when the second clears. *)
Definition two_sensor_config : Config :=
  demo_config ["light.a"] ["binary_sensor.m1"; "binary_sensor.m2"] [] None None
    None None None.

Definition world_one_sensor_on : World :=
  demo_world 1000 12 0
    [("binary_sensor.m1", "on"); ("binary_sensor.m2", "off"); ("light.a", "on")] [].


Definition world_echo : World := demo_world 1001 12 0 [("light.a", "on")] [].

(** Two lights at 80 and 60 percent, dimmed to 20 while media plays. *)
Definition media_config (auto_brightness : option Z) : Config :=
  demo_config ["light.a"; "light.b"] ["binary_sensor.m1"] [] None None
    (Some 20) auto_brightness None.

Definition world_media : World :=
  demo_world 1000 21 0 [("light.a", "on"); ("light.b", "on")]
    [("light.a", [("brightness", PInt 204)]); ("light.b", [("brightness", PInt 153)])].

(** Manual mode with the quick re-automate timer pending. *)
Definition motion_timer_state (presence : bool) : Ctl :=
  set_motion_reauto_timer (Some 0%nat)
    (set_next_handle 1%nat
       (set_timers [{| t_handle := 0%nat; t_cb := CbMotionReauto; t_delay := 5 |}]
          (demo_state ManualOn presence))).

Definition reauto_press : button_data :=
  {| bd_domain := Some "button"; bd_service := Some "press";
     bd_entity_id := SLStr "button.reautomate_den" |}.

(** A person switches light.a off, on and off again by hand. *)
Definition off_on_off : list (World * event) :=
  [(world_noon, EvLightPower "light.a" (Some "on") (Some "off"));
   (world_noon, EvLightPower "light.a" (Some "off") (Some "on"));
   (world_noon, EvLightPower "light.a" (Some "on") (Some "off"))].

(** ** Further observations *)

(** The expectation [_mark_expected_echo(state)] stores for every light. *)
Definition marked_echo (cfg : Config) (w : World) (state : string) : echo :=
  {| until := Qmin (now_ts w + _echo_window cfg) (now_ts w + _echo_max_window cfg);
     expected := state; logged := false |}.

(** The body of the loop of [_mark_expected_echo] for one light. *)
Definition mark_light (cfg : Config) (w : World) (state l : string) : M unit :=
  modify (fun s =>
    set_expected_echo (<[l := marked_echo cfg w state]> (_expected_echo s)) s) >>
  modify (fun s =>
    set_last_cmd_by_entity (<[l := (state, now_ts w)]> (_last_cmd_by_entity s)) s).

(** The action set a window blocks: its own [actions] when recognised,
    else the default. *)
Definition window_actions (cfg : Config) (w0 : window) : string :=
  default (_block_actions_default cfg) (_norm_actions (w_actions w0)).

(** A captured entry: a [light.] entity with either no brightness known
    or a percentage from 1 to 100. *)
Definition capture_ok (kv : string * option Z) : Prop :=
  startswith (fst kv) "light." = true /\
  match snd kv with
  | Some p => 1 <= p <= 100
  | None => True
  end.

(** Every entry of [_before_media_brightness_pct] is such an entry. *)
Definition captures_ok (s : Ctl) : Prop :=
  List.Forall capture_ok (_before_media_brightness_pct s).

(** ** The status entity and [LightAutomationManager] *)

(** What [get_state(entity, attribute="all")] answers for an entity the
    host knows: its [state] entry (absent, or a text or None) and its
    [attributes] entry. Attribute values range over None, bool, int, float
    and str. *)
Record entity_all := {
  ea_state : option (option string);
  ea_attributes : option (list (string * pyval))
}.

(** [self._status_sensor] *)
Definition _status_sensor (cfg : Config) : string :=
  String.append "sensor.light_status_" (_app_name cfg).

(** The arguments of the [set_state] of [_publish_status], as the entity
    the host then holds. The list-valued [media_players] attribute is left
    out; nothing below reads it. *)
Definition published_status (cfg : Config) (s : Ctl) : entity_all :=
  {| ea_state := Some (Some (mode_name (_mode s)));
     ea_attributes :=
       Some [("manual_state", PStr (mode_name (_mode s)));
             ("presence", PBool (_presence s));
             ("only_when_dark", PBool (_only_when_dark cfg));
             ("lux_sensor", from_option PStr PNone (_lux_sensor cfg));
             ("media_playing", PBool (_media_playing s));
             ("reautomate_button", PStr (_reauto_button cfg));
             ("adaptive_lighting_switch", from_option PStr PNone (_al_switch cfg))] |}.

(** [v.lower()]: only a [str] has the method; [None] is the
    [AttributeError]. *)
Definition py_lower (v : pyval) : option string :=
  match v with
  | PStr s => Some (lower s)
  | _ => None
  end.

Module LightAutomationManager.

(** The body of the loop of [_refresh] for one managed app: the new value
    of [buttons], or [None] when [.lower()] raises. *)
Definition refresh_one (get_all : string -> option entity_all) (buttons : list pyval)
    (app : string) : option (list pyval) :=
  match get_all (String.append "sensor.light_status_" app) with
  | None => Some buttons
  | Some st =>
      match ea_state st with
      | None => Some buttons
      | Some st_state =>
          let state := lower (or_empty st_state) in
          let attrs := default [] (ea_attributes st) in
          let btn := default PNone (dict_get "reautomate_button" attrs) in
          let ms := default PNone (dict_get "manual_state" attrs) in
          manual_state ← (if py_truthy ms then py_lower ms else Some (lower state));
          if (String.eqb manual_state "manual_on" || String.eqb manual_state "manual_off")
             && py_truthy btn
          then Some (buttons ++ [btn])%list
          else Some buttons
      end
  end.

Fixpoint refresh_loop (get_all : string -> option entity_all) (apps : list string)
    (buttons : list pyval) : option (list pyval) :=
  match apps with
  | [] => Some buttons
  | app :: rest =>
      buttons' ← refresh_one get_all buttons app;
      refresh_loop get_all rest buttons'
  end.

(** [_refresh]: the state and the [reautomate_buttons] attribute it sets
    on the manager's sensor; [None] when it raises before. *)
Definition _refresh (_managed : list string) (get_all : string -> option entity_all)
  : option (string * list pyval) :=
  buttons ← refresh_loop get_all _managed [];
  Some (if negb (Nat.eqb (List.length buttons) 0) then "on" else "off", buttons).

End LightAutomationManager.

(** A zone is in manual control. *)
Definition in_manual (z : Config * Ctl) : bool := negb (is_auto (_mode (snd z))).

(** The smallest difference [_changed_meaningfully] counts for an
    attribute it knows; [None] for any other attribute. *)
Definition attr_threshold (attribute : string) : option Q :=
  if is_brightness_attr attribute then Some 5%Q
  else if is_color_attr attribute then
    if endswith attribute "kelvin" then Some 100%Q else Some 5%Q
  else None.

(** The mode the status sensor shows after the effects [tr], when it
    showed [shown] before: each [_publish_status] overwrites it. *)
Fixpoint shown_mode (tr : list effect) (shown : mode) : mode :=
  match tr with
  | [] => shown
  | SetStatus m _ _ :: rest => shown_mode rest m
  | _ :: rest => shown_mode rest shown
  end.

(** The status sensor shows the mode the controller is in. [initialize]
    creates the sensor with the initial mode, auto. *)
Definition in_sync (s : Ctl) : Prop := shown_mode (trace s) Auto = _mode s.

(** The two sides of [in_sync]. *)
Definition sync_view (s : Ctl) : mode * mode := (shown_mode (trace s) Auto, _mode s).

(** Every handler of the run returned. *)
Fixpoint run_returns `{!PyFloatParser} (cfg : Config) (evs : list (World * event)) (s : Ctl)
  : Prop :=
  match evs with
  | [] => True
  | (w, ev) :: rest => fst (handle cfg w ev s) = Ok tt /\ run_returns cfg rest (step cfg w ev s)
  end.

(** [m] leaves the sensor in sync when it starts in sync and returns. *)
Definition keeps_sync {A} (m : M A) : Prop :=
  forall s, in_sync s -> (exists a, fst (m s) = Ok a) -> in_sync (snd (m s)).

(** [m] leaves the sensor in sync whenever it returns. *)
Definition ends_synced {A} (m : M A) : Prop :=
  forall s, (exists a, fst (m s) = Ok a) -> in_sync (snd (m s)).

(** ** Further scenarios *)

(** Evening, the light is off. *)
Definition world_dark : World := demo_world 1000 21 0 [("light.a", "off")] [].

(** Long after start-up, the light is on. *)
Definition world_later : World := demo_world 2000 12 0 [("light.a", "on")] [].

(** The state [initialize] builds at time 1000. *)
Definition boot_state : Ctl :=
  {| _mode := Auto; _presence := false; _off_timer := None;
     _motion_reauto_timer := None; _started_ts := 1000; _expected_echo := ∅;
     _last_cmd_by_entity := ∅; _media_playing := false;
     _before_media_brightness_pct := []; _al_manual_timers := ∅; timers := [];
     next_handle := 0%nat; trace := [Log "INFO" MsgInitialized] |}.

(** A window whose [actions] entry is not one of the three known. *)
Definition vague_window : window :=
  {| w_start := Some "22:00"; w_end := Some "07:00"; w_days := SLNone;
     w_actions := AStr "sometimes" |}.

(** A malformed window, then one for off, then one for on_off. *)
Definition three_windows_config : Config :=
  set_block_windows [broken_window; night_window "off"; night_window "on_off"] plain_config.

(** A media player starts playing while both lights are on. *)
Definition media_started : list (World * event) :=
  [(world_media, EvMedia "media_player.tv" (Some "idle") (Some "playing"))].

(** A person switches light.a off by hand, long after start-up. *)
Definition switched_off_later : list (World * event) :=
  [(world_later, EvLightPower "light.a" (Some "on") (Some "off"))].

(** A host that knows only the status entity of the zone "den". *)
Definition den_status (s : Ctl) (entity : string) : option entity_all :=
  if String.eqb entity "sensor.light_status_den"
  then Some (published_status plain_config s)
  else None.

(** The lux sensor of [lux_config] shows the given reading. *)
Definition lux_world (reading : string) : World :=
  demo_world 1000 21 0 [("sensor.lux", reading); ("light.a", "off")] [].

(** The adaptation switch shows no [brightness_pct], only a raw
    [brightness] of 128 (of 255), that is 50 percent. *)
Definition world_al_raw : World :=
  demo_world 2000 12 0 [("light.a", "on")] [("switch.al", [("brightness", PInt 128)])].

(** The configuration with another list of presence sensors. *)
Definition set_motion_entities (ms : list string) (cfg : Config) : Config :=
  {| _app_name := _app_name cfg; _lights := _lights cfg;
     _motion_entities := ms; _lux_sensor := _lux_sensor cfg;
     _lux_threshold := _lux_threshold cfg; _only_when_dark := _only_when_dark cfg;
     _delay_off := _delay_off cfg;
     _manual_off_reauto_delay := _manual_off_reauto_delay cfg;
     _motion_reauto_seconds := _motion_reauto_seconds cfg;
     _boot_grace := _boot_grace cfg; _echo_window := _echo_window cfg;
     _echo_max_window := _echo_max_window cfg; _media_players := _media_players cfg;
     _media_dim_brightness_pct := _media_dim_brightness_pct cfg;
     _auto_brightness_pct := _auto_brightness_pct cfg; _al_switch := _al_switch cfg;
     _al_use_targets := _al_use_targets cfg;
     _al_take_over_on_manual := _al_take_over_on_manual cfg;
     _al_manual_reset_seconds := _al_manual_reset_seconds cfg;
     _al_adapt_brightness := _al_adapt_brightness cfg;
     _al_adapt_color := _al_adapt_color cfg; _quiet_start := _quiet_start cfg;
     _quiet_end := _quiet_end cfg; _block_windows := _block_windows cfg;
     block_actions := block_actions cfg |}.

(** One of the three action sets [_norm_actions] recognises. *)
Definition known_actions (v : string) : Prop := v = "on" \/ v = "off" \/ v = "on_off".

(** A window whose [actions] entry needs stripping and lowering. *)
Definition padded_window : window :=
  {| w_start := Some "22:00"; w_end := Some "07:00"; w_days := SLNone;
     w_actions := AStr " Off " |}.

(** ** Block windows *)

(** [int] skips blanks around the digits, but not the separator
    characters that [str.strip] drops as well. *)
Example int_of_string_white_space :
  int_of_string " 7 " = Some 7 /\
  int_of_string (String (ascii_of_nat 31) "7") = None /\
  strip (String (ascii_of_nat 31) "7") = "7".
Proof. repeat split; vm_compute; reflexivity. Qed.

Lemma within_window_unparsed_start (e : option Z) (now : Z) :
  _within_window None e now = false.
Proof. reflexivity. Qed.

Lemma within_window_unparsed_end (s : option Z) (now : Z) :
  _within_window s None now = false.
Proof. destruct s; reflexivity. Qed.

Lemma within_window_iff (s e now : Z) :
  _within_window (Some s) (Some e) now = true <->
  (s < e /\ s <= now < e) \/ (e < s /\ (s <= now \/ now < e)).
Proof.
  unfold _within_window.
  destruct (Z.eqb_spec s e) as [->|Hne].
  - split; [discriminate | lia].
  - destruct (Z.ltb_spec s e) as [Hlt|Hge].
    + rewrite andb_true_iff, Z.leb_le, Z.ltb_lt. lia.
    + rewrite orb_true_iff, Z.geb_le, Z.ltb_lt. lia.
Qed.

(** C6: a window whose start equals its end contains no time; in general
    the window is the half-open interval from start to end, wrapping past
    midnight when start is after end; and the window 22:00-07:00 contains
    23:30, 00:00 and 06:59 but neither 07:00 nor 21:59. *)
Theorem within_window_half_open :
  (forall s now, _within_window (Some s) (Some s) now = false) /\
  (forall s e now,
     _within_window (Some s) (Some e) now = true <->
     (s < e /\ s <= now < e) \/ (e < s /\ (s <= now \/ now < e))) /\
  _parse_hhmm (Some "22:00") = Some 1320 /\
  _parse_hhmm (Some "07:00") = Some 420 /\
  _within_window (_parse_hhmm (Some "22:00")) (_parse_hhmm (Some "07:00")) (23 * 60 + 30) = true /\
  _within_window (_parse_hhmm (Some "22:00")) (_parse_hhmm (Some "07:00")) (0 * 60 + 0) = true /\
  _within_window (_parse_hhmm (Some "22:00")) (_parse_hhmm (Some "07:00")) (6 * 60 + 59) = true /\
  _within_window (_parse_hhmm (Some "22:00")) (_parse_hhmm (Some "07:00")) (7 * 60 + 0) = false /\
  _within_window (_parse_hhmm (Some "22:00")) (_parse_hhmm (Some "07:00")) (21 * 60 + 59) = false.
Proof.
  split.
  { intros s now. unfold _within_window. now rewrite Z.eqb_refl. }
  split; [exact within_window_iff|].
  repeat split; reflexivity.
Qed.

Section BlockWindows.
Context (cfg : Config) (w : World).

Lemma blocked_by_windows_skip_malformed (w0 : window) (pre post : list window)
    (now_min : Z) (day : string) :
  _parse_hhmm (w_start w0) = None \/ _parse_hhmm (w_end w0) = None ->
  blocked_by_windows cfg (pre ++ w0 :: post) now_min day =
  blocked_by_windows cfg (pre ++ post) now_min day.
Proof.
  intros Hbad. induction pre as [|p pre IH]; simpl.
  - destruct Hbad as [-> | ->].
    + now rewrite within_window_unparsed_start.
    + now rewrite within_window_unparsed_end.
  - now rewrite IH.
Qed.

Lemma blocked_by_windows_set (ws ws' : list window) (now_min : Z) (day : string) :
  blocked_by_windows (set_block_windows ws' cfg) ws now_min day =
  blocked_by_windows cfg ws now_min day.
Proof. induction ws as [|w0 ws IH]; simpl; [reflexivity|]. now rewrite IH. Qed.

Lemma automation_allowed_unblocked (action : string) :
  fst (_blocked_now cfg w) = false -> _automation_allowed cfg w action = true.
Proof.
  unfold _automation_allowed. destruct (_blocked_now cfg w) as [b why]; simpl.
  now intros ->.
Qed.

Lemma automation_allowed_on_off (action why : string) :
  _blocked_now cfg w = (true, Some why) -> contains "on_off" why = true ->
  _automation_allowed cfg w action = false.
Proof.
  unfold _automation_allowed. intros -> Hc; simpl. now rewrite Hc.
Qed.

End BlockWindows.

(** C1, evaluated where it fails: at 23:30 the window 22:00-07:00 with
    actions [on] is the active block, its reason text is
    ["on 22:00-07:00"], and the check for [on] still answers true because
    the text holds no [" on"]; the same for [off]. *)
Theorem automation_allowed_single_action_window :
  _blocked_now (night_config "on") world_2330 = (true, Some "on 22:00-07:00") /\
  _automation_allowed (night_config "on") world_2330 "on" = true /\
  _blocked_now (night_config "off") world_2330 = (true, Some "off 22:00-07:00") /\
  _automation_allowed (night_config "off") world_2330 "off" = true.
Proof. repeat split; vm_compute; reflexivity. Qed.

(** What does hold of the check: an [on_off] window blocks both actions. *)
Example automation_allowed_on_off_window :
  _automation_allowed (night_config "on_off") world_2330 "on" = false /\
  _automation_allowed (night_config "on_off") world_2330 "off" = false.
Proof. split; vm_compute; reflexivity. Qed.

(** ** Malformed readings *)

Section Permissive.
Context `{!PyFloatParser} (cfg : Config) (w : World).

Lemma blocked_by_windows_misses (pre rest : list window) (now_min : Z) (day : string) :
  List.Forall
    (fun p => _within_window (_parse_hhmm (w_start p)) (_parse_hhmm (w_end p)) now_min = false)
    pre ->
  blocked_by_windows cfg (pre ++ rest) now_min day = blocked_by_windows cfg rest now_min day.
Proof.
  intros Hpre. induction Hpre as [|p pre Hp Hpre IH]; simpl; [reflexivity|].
  rewrite Hp. exact IH.
Qed.

(** C9: a lux reading that is missing or that [float] rejects makes the
    darkness check answer true; a block window whose start or end does
    not parse is skipped wherever it stands in the list, the other windows
    being evaluated in their order as if it were not there; and the
    window that follows a malformed one is still evaluated: when no
    window before them contains the time and it contains the time and
    admits the weekday, it blocks, with its own action set and bounds as
    the reason. *)
Theorem malformed_readings_are_permissive :
  (get_state w (or_empty (_lux_sensor cfg)) = None \/
   (exists v, get_state w (or_empty (_lux_sensor cfg)) = Some v /\ float_of_string v = None) ->
   _is_dark_enough cfg w = true) /\
  (forall (w0 : window) (pre post : list window),
     _parse_hhmm (w_start w0) = None \/ _parse_hhmm (w_end w0) = None ->
     _blocked_now (set_block_windows (pre ++ w0 :: post) cfg) w =
     _blocked_now (set_block_windows (pre ++ post) cfg) w) /\
  (forall (w0 w1 : window) (pre post : list window),
     _parse_hhmm (w_start w0) = None \/ _parse_hhmm (w_end w0) = None ->
     List.Forall
       (fun p => _within_window (_parse_hhmm (w_start p)) (_parse_hhmm (w_end p))
                   (fst (_now_minutes_and_day w)) = false)
       pre ->
     _within_window (_parse_hhmm (w_start w1)) (_parse_hhmm (w_end w1))
       (fst (_now_minutes_and_day w)) = true ->
     day_excluded
       (if sl_truthy (w_days w1)
        then Some (map (fun d => slice_to 3 (lower d)) (_as_list (w_days w1)))
        else None)
       (snd (_now_minutes_and_day w)) = false ->
     _blocked_now (set_block_windows (pre ++ w0 :: w1 :: post) cfg) w
     = (true,
        Some (String.append (window_actions cfg w1) (String.append " "
               (String.append (str_of (w_start w1))
                  (String.append "-" (str_of (w_end w1)))))))).
Proof.
  split; [|split].
  - intros Hbad. unfold _is_dark_enough.
    destruct (negb (_only_when_dark cfg) || negb (str_truthy (_lux_sensor cfg)));
      [reflexivity|].
    destruct Hbad as [-> | (v & -> & ->)]; reflexivity.
  - intros w0 pre post Hbad. unfold _blocked_now. simpl.
    rewrite !blocked_by_windows_set.
    now rewrite (blocked_by_windows_skip_malformed cfg w0 pre post _ _ Hbad).
  - intros w0 w1 pre post Hbad Hpre Hin Hday. unfold _blocked_now.
    destruct (_now_minutes_and_day w) as [now_min day]. cbn [fst snd] in Hpre, Hin, Hday.
    cbn [_block_windows set_block_windows].
    rewrite blocked_by_windows_set,
      (blocked_by_windows_skip_malformed cfg w0 pre (w1 :: post) _ _ Hbad),
      (blocked_by_windows_misses pre (w1 :: post) now_min day Hpre).
    cbn [blocked_by_windows]. rewrite Hin. cbn [negb]. rewrite Hday. reflexivity.
Qed.

End Permissive.

(** ** Adaptive Lighting reconciliation *)

Lemma round_half_even_nearest (q : Q) :
  (Qabs (inject_Z (round_half_even q) - q) <= 1 # 2)%Q.
Proof.
  unfold round_half_even.
  pose proof (Qfloor_le q) as Hlo. pose proof (Qlt_floor q) as Hhi.
  rewrite inject_Z_plus in Hhi. change (inject_Z 1) with 1%Q in Hhi.
  apply Qabs_Qle_condition.
  destruct (Qcompare_spec (q - inject_Z (Qfloor q)) (1 # 2)) as [He|Hl|Hg];
    [destruct (Z.even (Qfloor q))| |];
    rewrite ?inject_Z_plus; change (inject_Z 1) with 1%Q; split; lra.
Qed.

Lemma Qtrunc_within (q : Q) (v k : Z) :
  (Qabs (q - inject_Z v) <= inject_Z k)%Q -> Z.abs (Qtrunc q - v) <= k.
Proof.
  intros H. apply Qabs_Qle_condition in H. destruct H as [Hlo Hhi].
  assert (Hl : (inject_Z (v - k) <= q)%Q).
  { unfold Z.sub. rewrite inject_Z_plus, inject_Z_opp. lra. }
  assert (Hh : (q <= inject_Z (v + k))%Q).
  { rewrite inject_Z_plus. lra. }
  clear Hlo Hhi.
  unfold Qtrunc. destruct (Qle_bool 0 q).
  - apply Qfloor_resp_le in Hl, Hh. rewrite Qfloor_Z in Hl, Hh. lia.
  - apply Qceiling_resp_le in Hl, Hh. rewrite Qceiling_Z in Hl, Hh. lia.
Qed.

Lemma Qtrunc_inject_Z (z : Z) : Qtrunc (inject_Z z) = z.
Proof. unfold Qtrunc. destruct (Qle_bool 0 (inject_Z z)); [apply Qfloor_Z | apply Qceiling_Z]. Qed.

(** A numeric target that is within [k] of an integer value as a real
    number is also within [k] of it after [int] has truncated the target. *)
Lemma numeric_target_within (t : pyval) (q : Q) (v k : Z) :
  number_value t = Some (Fin q) ->
  (Qabs (q - inject_Z v) <= inject_Z k)%Q ->
  exists n, py_int t = Some n /\ Z.abs (n - v) <= k.
Proof.
  intros Hnum Hclose.
  assert (Hint : py_int t = Some (Qtrunc q)).
  { destruct t as [|b|z|f|s0]; simpl in Hnum; try discriminate.
    - injection Hnum as <-. now destruct b.
    - injection Hnum as <-. simpl. now rewrite Qtrunc_inject_Z.
    - injection Hnum as ->. reflexivity. }
  exists (Qtrunc q). split; [exact Hint | now apply Qtrunc_within].
Qed.

Lemma py_int_not_none (v : pyval) (t : Z) : py_int v = Some t -> is_none v = false.
Proof. destruct v; simpl; congruence. Qed.

Lemma color_attr_not_brightness (attr : string) :
  is_color_attr attr = true -> is_brightness_attr attr = false.
Proof.
  unfold is_color_attr, is_brightness_attr. rewrite orb_true_iff.
  intros [H|H]; apply String.eqb_eq in H; subst; reflexivity.
Qed.

Section Reconciler.
Context `{!PyFloatParser} (cfg : Config) (w : World).

Lemma al_targets_without_switch :
  str_truthy (_al_switch cfg) = false ->
  exists ab ac, _al_current_targets cfg w = Some (PNone, PNone, ab, ac).
Proof.
  intros Hsw. unfold _al_current_targets, al_attr. rewrite Hsw. simpl. eauto.
Qed.

Lemma mireds_to_kelvin_finite (m : pyval) (q : Q) :
  py_float m = Some (Fin q) ->
  ((q <= 0)%Q -> _mireds_to_kelvin m = None) /\
  ((0 < q)%Q -> _mireds_to_kelvin m = Some (round_half_even (1000000 / q))).
Proof.
  intros Hm. unfold _mireds_to_kelvin. rewrite Hm. simpl. split; intros Hq.
  - apply Qle_bool_iff in Hq. now rewrite Hq.
  - destruct (Qle_bool q 0) eqn:E; [|reflexivity].
    apply Qle_bool_iff in E. lra.
Qed.

(** What does hold of the classification, for the targets as
    [_al_current_targets] returns them: with a brightness target that
    [int] accepts, a brightness change whose value, converted to a
    percentage as the code converts it, is within 3 of the target is
    classified as the adaptation service's own change; with a
    colour-temperature target, a colour-temperature change whose value in
    Kelvin is within 150 of the target is classified likewise; and a mired
    value converts to the integer nearest to 1000000 / mireds when it is
    positive and to nothing when it is not. *)
Theorem change_within_tolerance_is_own_adaptation
    (entity attr : string) (old new bri_t ct_k_t : pyval) (adapt_b adapt_c : bool) :
  _al_current_targets cfg w = Some (bri_t, ct_k_t, adapt_b, adapt_c) ->
  (forall target v : Z,
     is_brightness_attr attr = true ->
     py_int bri_t = Some target ->
     brightness_val attr new = Some (Some v) ->
     Z.abs (target - v) <= 3 ->
     _al_is_change_like_al cfg w entity attr old new = Some true) /\
  (forall target v : Z,
     is_color_attr attr = true ->
     py_int ct_k_t = Some target ->
     kelvin_val attr new = Some (Some v) ->
     Z.abs (target - v) <= 150 ->
     _al_is_change_like_al cfg w entity attr old new = Some true) /\
  (forall (m : pyval) (q : Q),
     py_float m = Some (Fin q) ->
     kelvin_val "color_temp" m = Some (_mireds_to_kelvin m) /\
     ((q <= 0)%Q -> _mireds_to_kelvin m = None) /\
     ((0 < q)%Q ->
      _mireds_to_kelvin m = Some (round_half_even (1000000 / q)) /\
      (Qabs (inject_Z (round_half_even (1000000 / q)) - 1000000 / q) <= 1 # 2)%Q)).
Proof.
  intros Ht. split; [|split].
  - intros target v Hattr Hint Hval Hclose.
    unfold _al_is_change_like_al. rewrite Ht, Hattr. simpl.
    destruct (str_truthy (_al_switch cfg)) eqn:Hsw; simpl.
    + unfold al_brightness_match.
      rewrite Hattr, Hval, (py_int_not_none _ _ Hint), Hint. simpl.
      apply Z.leb_le in Hclose. now rewrite Hclose.
    + destruct (al_targets_without_switch Hsw) as (ab & ac & Hnone).
      rewrite Hnone in Ht. inversion Ht; subst. discriminate.
  - intros target v Hattr Hint Hval Hclose.
    unfold _al_is_change_like_al. rewrite Ht, Hattr, orb_true_r. simpl.
    destruct (str_truthy (_al_switch cfg)) eqn:Hsw; simpl.
    + unfold al_brightness_match. rewrite (color_attr_not_brightness _ Hattr). simpl.
      unfold al_color_match.
      rewrite Hattr, Hval, (py_int_not_none _ _ Hint), Hint. simpl.
      apply Z.leb_le in Hclose. now rewrite Hclose.
    + destruct (al_targets_without_switch Hsw) as (ab & ac & Hnone).
      rewrite Hnone in Ht. inversion Ht; subst. discriminate.
  - intros m q Hm. split; [reflexivity|].
    destruct (mireds_to_kelvin_finite m q Hm) as [Hle Hgt].
    split; [exact Hle|]. intros Hq. split; [now apply Hgt|].
    apply round_half_even_nearest.
Qed.

(** A target read from [brightness_pct] is the percentage the switch
    shows. *)
Lemma brightness_pct_target_is_kept (v : pyval) :
  al_attr cfg w "brightness_pct" = Some v -> is_none v = false ->
  exists bri ct ab ac,
    _al_current_targets cfg w = Some (bri, ct, ab, ac) /\ bri = v.
Proof.
  intros Hv Hsome. unfold _al_current_targets. rewrite Hv. cbn [default from_option].
  unfold id. rewrite Hsome. cbn [mbind option_bind]. eauto 8.
Qed.

End Reconciler.

(** C7, evaluated where it fails: the switch shows only a raw brightness
    of 128, which is 50 percent. [_al_current_targets] hands out 128 as
    the percentage target, the light's report of that very brightness
    converts to 50, and the change is not classified as the adaptation
    service's own although it is 0 percentage points from the target;
    the same for a report of 50 in [brightness_pct]. *)
Theorem raw_brightness_target_is_read_as_percentage `{!PyFloatParser} :
  _al_current_targets al_config world_al_raw = Some (PInt 128, PNone, true, true) /\
  brightness_val "brightness" (PInt 128) = Some (Some 50) /\
  _al_is_change_like_al al_config world_al_raw "light.a" "brightness" (PInt 120) (PInt 128)
  = Some false /\
  _al_is_change_like_al al_config world_al_raw "light.a" "brightness_pct" (PInt 47) (PInt 50)
  = Some false.
Proof. repeat split; vm_compute; reflexivity. Qed.

(** The same target reaches the light: [_turn_on] sends 128 as
    [brightness_pct]. *)
Example raw_brightness_target_is_sent_as_percentage `{!PyFloatParser} :
  trace (snd (_turn_on al_config world_al_raw "motion" (demo_state Auto true)))
  = [Call "light/turn_on" "light.a" (Some 128) None; Log "INFO" (Msg "Turn ON (motion).")].
Proof. vm_compute. reflexivity. Qed.

(** ** Reasoning about handlers: what a computation leaves alone *)

Section Frame.
Context {X : Type} (f : Ctl -> X).

Lemma preserves_ret {A} (a : A) : preserves f (ret a).
Proof. intros s. reflexivity. Qed.

Lemma preserves_raise {A} : preserves f (@raise A).
Proof. intros s. reflexivity. Qed.

Lemma preserves_gets {A} (g : Ctl -> A) : preserves f (gets g).
Proof. intros s. reflexivity. Qed.

Lemma preserves_lift_opt {A} (o : option A) : preserves f (lift_opt o).
Proof. destruct o; intros s; reflexivity. Qed.

Lemma preserves_modify (g : Ctl -> Ctl) :
  (forall s, f (g s) = f s) -> preserves f (modify g).
Proof. intros Hg s. apply Hg. Qed.

Lemma preserves_bind {A B} (m : M A) (k : A -> M B) :
  preserves f m -> (forall a, preserves f (k a)) -> preserves f (bind m k).
Proof.
  intros Hm Hk s. unfold bind. specialize (Hm s).
  destruct (m s) as [[a|] s']; simpl in *.
  - now rewrite Hk.
  - exact Hm.
Qed.

Lemma preserves_when (b : bool) (m : M unit) : preserves f m -> preserves f (when b m).
Proof. destruct b; simpl; [trivial | intros _; apply preserves_ret]. Qed.

Lemma preserves_for_each {A} (xs : list A) (body : A -> M unit) :
  (forall x, preserves f (body x)) -> preserves f (for_each xs body).
Proof.
  intros Hb. induction xs as [|x xs IH]; simpl.
  - apply preserves_ret.
  - apply preserves_bind; [apply Hb | intros _; exact IH].
Qed.

Lemma preserves_for_fold {A B} (xs : list A) (acc : B) (body : B -> A -> M B) :
  (forall b x, preserves f (body b x)) -> preserves f (for_fold xs acc body).
Proof.
  intros Hb. revert acc. induction xs as [|x xs IH]; intros acc; simpl.
  - apply preserves_ret.
  - apply preserves_bind; [apply Hb | intros acc'; apply IH].
Qed.

Lemma preserves_run_in (cb : callback) (delay : Q) :
  (forall v1 v2 s, f (set_next_handle v1 (set_timers v2 s)) = f s) ->
  preserves f (run_in cb delay).
Proof. intros Hf s. apply Hf. Qed.

End Frame.

Lemma bind_preserved {X A B} (f : Ctl -> X) (m : M A) (k : A -> M B) (s : Ctl) :
  (forall a, preserves f (k a)) -> f (snd (bind m k s)) = f (snd (m s)).
Proof.
  intros Hk. unfold bind. destruct (m s) as [[a|] s']; simpl; [apply Hk | reflexivity].
Qed.

Lemma bind_gets {A B} (g : Ctl -> A) (k : A -> M B) (s : Ctl) :
  bind (gets g) k s = k (g s) s.
Proof. reflexivity. Qed.

Lemma bind_modify {B} (g : Ctl -> Ctl) (k : unit -> M B) (s : Ctl) :
  bind (modify g) k s = k tt (g s).
Proof. reflexivity. Qed.

Lemma bind_ret {A B} (a : A) (k : A -> M B) (s : Ctl) : bind (ret a) k s = k a s.
Proof. reflexivity. Qed.

Lemma bind_returns {A B} (m : M A) (k : A -> M B) (s s' : Ctl) (a : A) :
  m s = (Ok a, s') -> bind m k s = k a s'.
Proof. intros Hm. unfold bind. now rewrite Hm. Qed.

Lemma bind_raises {A B} (m : M A) (k : A -> M B) (s s' : Ctl) :
  m s = (Raised, s') -> bind m k s = (Raised, s').
Proof. intros Hm. unfold bind. now rewrite Hm. Qed.

Lemma bind_lift_opt {A B} (o : option A) (a : A) (k : A -> M B) (s : Ctl) :
  o = Some a -> bind (lift_opt o) k s = k a s.
Proof. intros ->. reflexivity. Qed.

Create HintDb methods.

#[local] Hint Unfold _logx _publish_status _publish_debug_state publish emit
  cancel_timer _cancel_timer_safe _mark_expected_echo _al_set_manual_control
  _al_reset _al_schedule_reset_for _al_reset_timer_cb _turn_on _turn_off
  _schedule_off _auto_off_elapsed dim_one _apply_media_dimming
  _restore_from_media _ignore_if_expected_echo : methods.

(** One structural step of a proof that a computation preserves an
    observation. *)
Ltac frame_step :=
  lazymatch goal with
  | |- preserves _ (bind _ _) => apply preserves_bind; [|intros ?]
  | |- preserves _ (ret _) => apply preserves_ret
  | |- preserves _ raise => apply preserves_raise
  | |- preserves _ (gets _) => apply preserves_gets
  | |- preserves _ (lift_opt _) => apply preserves_lift_opt
  | |- preserves _ (modify _) => apply preserves_modify; intros ?; reflexivity
  | |- preserves _ (when _ _) => apply preserves_when
  | |- preserves _ (for_each _ _) => apply preserves_for_each; intros ?
  | |- preserves _ (for_fold _ _ _) => apply preserves_for_fold; intros ? ?
  | |- preserves _ (run_in _ _) => apply preserves_run_in; intros ? ? ?; reflexivity
  | |- preserves _ (if ?b then _ else _) => destruct b
  | |- preserves _ (match ?x with _ => _ end) => destruct x
  | |- preserves _ _ => progress autounfold with methods
  end.

Ltac frame := repeat frame_step.

Section Handlers.
Context `{!PyFloatParser} (cfg : Config).

(** After a presence-sensor event the presence state is whether the new
    value of that event is an occupied value (on, home, occupied, true or
    1, in any letter case), whatever the other sensors read. *)
Lemma on_motion_sets_presence
    (w : World) (entity : string) (old new : option string) (s : Ctl) :
  _presence (step cfg w (EvMotion entity old new) s) = is_occupied new.
Proof.
  unfold step, handle, _on_motion.
  change (bind (modify (set_presence (is_occupied new))) ?k s)
    with (k tt (set_presence (is_occupied new) s)).
  match goal with
  | |- _presence (snd (?m ?s0)) = _ =>
      transitivity (_presence s0); [|reflexivity];
      enough (Hp : preserves _presence m) by apply Hp
  end.
  frame.
Qed.

Lemma changed_meaningfully_unconvertible (attribute : string) (old new : pyval) :
  py_float (or_zero old) = None \/ py_float (or_zero new) = None ->
  _changed_meaningfully attribute old new = true.
Proof.
  intros Hbad.
  assert (Hc : forall th, change_at_least th old new = None).
  { intros th. unfold change_at_least. destruct Hbad as [-> | ->]; [reflexivity|].
    destruct (py_float (or_zero old)); reflexivity. }
  unfold _changed_meaningfully.
  destruct (is_brightness_attr attribute); [now rewrite Hc|].
  destruct (is_color_attr attribute); [|reflexivity].
  destruct (endswith attribute "kelvin"); now rewrite Hc.
Qed.

(** C10: when [float] rejects the old or the new value of an attribute
    change, the meaningful-change check answers true; so such a change on a
    light that is on, past the boot grace, outside the recency window of
    the last command and not classified as the adaptation service's own,
    leaves the controller in manual_on. *)
Theorem unconvertible_attribute_enters_manual_on
    (w : World) (entity attribute : string) (old new : pyval) (s : Ctl) :
  py_float (or_zero old) = None \/ py_float (or_zero new) = None ->
  _changed_meaningfully attribute old new = true /\
  (Qlt_bool (now_ts w - _started_ts s) (_boot_grace cfg) = false ->
   _recent_app_change cfg w entity None s = false ->
   _al_is_change_like_al cfg w entity attribute old new = Some false ->
   is_on (get_state w entity) = true ->
   _mode (step cfg w (EvLightAttr entity attribute old new) s) = ManualOn).
Proof.
  intros Hbad.
  pose proof (changed_meaningfully_unconvertible attribute old new Hbad) as Hch.
  split; [exact Hch|]. intros Hgrace Hrecent Hlike Hon.
  unfold step, handle, _on_light_attr.
  rewrite bind_gets, Hgrace, bind_gets, Hrecent, (bind_lift_opt _ _ _ _ Hlike).
  rewrite Hch, Hon. unfold negb at 1 2. cbv iota.
  rewrite bind_gets, bind_preserved by (intros ?; frame).
  destruct (_mode s) eqn:Hm; simpl when.
  - rewrite bind_modify, bind_preserved by (intros ?; frame). reflexivity.
  - simpl. exact Hm.
  - rewrite bind_modify, bind_preserved by (intros ?; frame). reflexivity.
Qed.

(** *** Echo suppression *)

Lemma ignore_expected_echo_match
    (w : World) (entity : string) (old new : option string) (s : Ctl) (exp : echo) :
  _expected_echo s !! entity = Some exp ->
  Qgt_bool (now_ts w) (until exp) = false ->
  echo_matches exp old new = true ->
  _ignore_if_expected_echo w entity old new s =
  (Ok true,
   if logged exp then s else set_logged entity (set_trace (trace s ++ [echo_log]) s)).
Proof.
  intros Hexp Hfresh Hmatch. unfold _ignore_if_expected_echo.
  rewrite bind_gets, Hexp, Hfresh. unfold echo_matches in Hmatch.
  destruct (String.eqb (expected exp) "on" && negb (is_on old) && is_on new);
    [|simpl in Hmatch; rewrite Hmatch]; destruct (logged exp); reflexivity.
Qed.

Lemma light_power_expected_echo
    (w : World) (entity : string) (old new : option string) (s : Ctl) (exp : echo) :
  _expected_echo s !! entity = Some exp ->
  Qgt_bool (now_ts w) (until exp) = false ->
  echo_matches exp old new = true ->
  step cfg w (EvLightPower entity old new) s =
  if Qlt_bool (now_ts w - _started_ts s) (_boot_grace cfg) then s
  else if logged exp then s
  else set_logged entity (set_trace (trace s ++ [echo_log]) s).
Proof.
  intros Hexp Hfresh Hmatch. unfold step, handle, _on_light_power.
  rewrite bind_gets.
  destruct (Qlt_bool (now_ts w - _started_ts s) (_boot_grace cfg)); [reflexivity|].
  rewrite (bind_returns _ _ _ _ _
             (ignore_expected_echo_match w entity old new s exp Hexp Hfresh Hmatch)).
  destruct (logged exp); reflexivity.
Qed.


End Handlers.

(** ** Media dimming *)

Lemma set_trace_same (s : Ctl) : set_trace (trace s) s = s.
Proof. destruct s; reflexivity. Qed.

Lemma set_trace_twice (v1 v2 : list effect) (s : Ctl) :
  set_trace v2 (set_trace v1 s) = set_trace v2 s.
Proof. reflexivity. Qed.

(** A loop whose body only emits. *)
Lemma for_each_emits {A} (xs : list A) (body : A -> M unit) (g : A -> list effect) (s : Ctl) :
  (forall x s0, body x s0 = (Ok tt, set_trace (trace s0 ++ g x) s0)) ->
  for_each xs body s = (Ok tt, set_trace (trace s ++ concat (map g xs)) s).
Proof.
  intros Hbody. revert s. induction xs as [|x xs IH]; intros s; simpl.
  - unfold ret. now rewrite app_nil_r, set_trace_same.
  - rewrite (bind_returns _ _ _ _ _ (Hbody x s)), IH. simpl.
    now rewrite set_trace_twice, app_assoc.
Qed.

Lemma dict_mem_get {V} (l : string) (d : list (string * V)) :
  dict_mem l d = true <-> is_Some (dict_get l d).
Proof.
  induction d as [|[k x] d IH]; simpl.
  - split; [discriminate | intros [? ?]; discriminate].
  - destruct (String.eqb k l); simpl; [split; eauto | exact IH].
Qed.

Lemma dict_get_set_fresh {V} (l l' : string) (v v' : V) (d : list (string * V)) :
  dict_mem l d = false -> dict_get l' d = Some v' ->
  dict_get l' (dict_set l v d) = Some v'.
Proof.
  induction d as [|[k x] d IH]; simpl; [discriminate|].
  destruct (String.eqb_spec k l) as [->|Hkl]; simpl; [discriminate|].
  intros Hmem. destruct (String.eqb k l'); simpl; [trivial | now apply IH].
Qed.

Lemma dict_mem_set {V} (l l' : string) (v : V) (d : list (string * V)) :
  dict_mem l' (dict_set l v d) = dict_mem l' d || String.eqb l l'.
Proof.
  induction d as [|[k x] d IH]; simpl.
  - now rewrite orb_false_r.
  - destruct (String.eqb_spec k l) as [->|Hkl]; simpl.
    + destruct (String.eqb l l'); simpl; [reflexivity|].
      now rewrite orb_false_r.
    + rewrite IH. now rewrite orb_assoc.
Qed.

Section MediaDim.
Context (cfg : Config).

(** What one round of the dimming loop can do. *)
Lemma dim_one_cases (w : World) (target : Z) (changed : bool) (l : string) (s : Ctl) :
  (startswith l "light." = false /\ dim_one w target changed l s = (Ok changed, s)) \/
  (startswith l "light." = true /\
   dict_mem l (_before_media_brightness_pct s) = true /\
   dim_one w target changed l s = (Ok true, set_trace (trace s ++ [dim_call target l]) s)) \/
  (startswith l "light." = true /\
   dict_mem l (_before_media_brightness_pct s) = false /\
   ((exists pct,
       dim_one w target changed l s =
       (Ok true,
        set_trace (trace s ++ [dim_call target l])
          (set_before_media (dict_set l pct (_before_media_brightness_pct s)) s))) \/
    dim_one w target changed l s = (Raised, s))).
Proof.
  unfold dim_one. destruct (startswith l "light."); simpl; [|left; auto].
  right. rewrite bind_gets.
  destruct (dict_mem l (_before_media_brightness_pct s)) eqn:Hmem; simpl.
  - left. auto.
  - right. split; [reflexivity|]. split; [reflexivity|].
    destruct (is_number (default PNone (get_attr w l "brightness"))).
    + destruct (pct_clamped (default PNone (get_attr w l "brightness"))) as [p|];
        simpl; [left; exists (Some p) | right]; reflexivity.
    + left. exists None. reflexivity.
Qed.

Lemma dim_loop_keeps (w : World) (target : Z) (lights : list string) :
  forall (changed : bool) (s : Ctl) (l : string) (v : option Z),
    dict_get l (_before_media_brightness_pct s) = Some v ->
    dict_get l
      (_before_media_brightness_pct (snd (for_fold lights changed (dim_one w target) s)))
    = Some v.
Proof.
  induction lights as [|x lights IH]; intros changed s l v Hget; simpl; [exact Hget|].
  destruct (dim_one_cases w target changed x s)
    as [[_ Hr] | [(_ & _ & Hr) | (_ & Hfresh & [[pct Hr] | Hr])]].
  - rewrite (bind_returns _ _ _ _ _ Hr). now apply IH.
  - rewrite (bind_returns _ _ _ _ _ Hr). now apply IH.
  - rewrite (bind_returns _ _ _ _ _ Hr). apply IH. simpl.
    now apply dict_get_set_fresh.
  - rewrite (bind_raises _ _ _ _ Hr). exact Hget.
Qed.

Lemma dim_loop_keeps_mem (w : World) (target : Z) (lights : list string)
    (changed : bool) (s : Ctl) (l : string) :
  dict_mem l (_before_media_brightness_pct s) = true ->
  dict_mem l
    (_before_media_brightness_pct (snd (for_fold lights changed (dim_one w target) s)))
  = true.
Proof.
  rewrite !dict_mem_get. intros [v Hv]. exists v. now apply dim_loop_keeps.
Qed.

Lemma dim_loop_captures (w : World) (target : Z) (lights : list string) :
  forall (changed : bool) (s : Ctl),
    (exists c, fst (for_fold lights changed (dim_one w target) s) = Ok c) ->
    forall l, In l lights -> startswith l "light." = true ->
      dict_mem l
        (_before_media_brightness_pct (snd (for_fold lights changed (dim_one w target) s)))
      = true.
Proof.
  induction lights as [|x lights IH]; intros changed s Hok l Hin Hlight; [destruct Hin|].
  simpl in *.
  destruct (dim_one_cases w target changed x s)
    as [[Hx Hr] | [(_ & Hmem & Hr) | (_ & Hfresh & [[pct Hr] | Hr])]].
  - rewrite (bind_returns _ _ _ _ _ Hr) in *.
    destruct Hin as [->|Hin]; [congruence | now apply IH].
  - rewrite (bind_returns _ _ _ _ _ Hr) in *.
    destruct Hin as [->|Hin]; [now apply dim_loop_keeps_mem | now apply IH].
  - rewrite (bind_returns _ _ _ _ _ Hr) in *.
    destruct Hin as [->|Hin]; [|now apply IH].
    apply dim_loop_keeps_mem. simpl. rewrite dict_mem_set, String.eqb_refl.
    apply orb_true_r.
  - rewrite (bind_raises _ _ _ _ Hr) in Hok. destruct Hok as [c Hc]. discriminate.
Qed.

Lemma dim_loop_settled (w : World) (target : Z) (lights : list string) :
  forall (changed : bool) (s : Ctl),
    (forall l, In l lights -> startswith l "light." = true ->
       dict_mem l (_before_media_brightness_pct s) = true) ->
    (exists c, fst (for_fold lights changed (dim_one w target) s) = Ok c) /\
    _before_media_brightness_pct (snd (for_fold lights changed (dim_one w target) s))
    = _before_media_brightness_pct s.
Proof.
  induction lights as [|x lights IH]; intros changed s Hall; simpl; [eauto|].
  assert (Hrest : forall s0,
             _before_media_brightness_pct s0 = _before_media_brightness_pct s ->
             forall l, In l lights -> startswith l "light." = true ->
               dict_mem l (_before_media_brightness_pct s0) = true).
  { intros s0 Hs0 l Hin Hl. rewrite Hs0. apply Hall; simpl; auto. }
  destruct (dim_one_cases w target changed x s)
    as [[Hx Hr] | [(_ & Hmem & Hr) | (Hx & Hfresh & _)]].
  - rewrite (bind_returns _ _ _ _ _ Hr). now apply IH, Hrest.
  - rewrite (bind_returns _ _ _ _ _ Hr).
    destruct (IH true (set_trace (trace s ++ [dim_call target x]) s)) as [Hok Hsame];
      [now apply Hrest|]. split; [exact Hok | exact Hsame].
  - rewrite Hall in Hfresh; simpl; auto. discriminate.
Qed.

Lemma apply_media_dimming_loop (w : World) (s : Ctl) :
  match _media_dim_brightness_pct cfg with
  | None => _apply_media_dimming cfg w s = (Ok tt, s)
  | Some target =>
      _before_media_brightness_pct (snd (_apply_media_dimming cfg w s)) =
      _before_media_brightness_pct
        (snd (for_fold (_lights cfg) false (dim_one w target) s)) /\
      (fst (_apply_media_dimming cfg w s) = Ok tt <->
       exists c, fst (for_fold (_lights cfg) false (dim_one w target) s) = Ok c)
  end.
Proof.
  unfold _apply_media_dimming.
  destruct (_media_dim_brightness_pct cfg) as [target|]; [|reflexivity].
  unfold bind. destruct (for_fold (_lights cfg) false (dim_one w target) s) as [[c|] s'].
  - destruct c; simpl; (split; [reflexivity|]); split; eauto.
  - simpl. split; [reflexivity|]. split; [discriminate | intros [c Hc]; discriminate].
Qed.

(** The dimming half of C8: applying the media dimming a second time, in
    whatever world, changes no captured brightness; and when the first
    application returned, the second returns too and the captured map is
    exactly what the first left. *)
Lemma apply_media_dimming_twice (w1 w2 : World) (s : Ctl) :
  (forall l v,
     dict_get l (_before_media_brightness_pct (snd (_apply_media_dimming cfg w1 s))) = Some v ->
     dict_get l
       (_before_media_brightness_pct
          (snd (_apply_media_dimming cfg w2 (snd (_apply_media_dimming cfg w1 s)))))
     = Some v) /\
  (fst (_apply_media_dimming cfg w1 s) = Ok tt ->
   fst (_apply_media_dimming cfg w2 (snd (_apply_media_dimming cfg w1 s))) = Ok tt /\
   _before_media_brightness_pct
     (snd (_apply_media_dimming cfg w2 (snd (_apply_media_dimming cfg w1 s)))) =
   _before_media_brightness_pct (snd (_apply_media_dimming cfg w1 s))).
Proof.
  pose proof (apply_media_dimming_loop w1 s) as H1.
  pose proof (apply_media_dimming_loop w2 (snd (_apply_media_dimming cfg w1 s))) as H2.
  destruct (_media_dim_brightness_pct cfg) as [target|].
  - destruct H1 as [Hb1 Hok1], H2 as [Hb2 Hok2]. split.
    + intros l v Hget. rewrite Hb2. now apply dim_loop_keeps.
    + intros Hfirst. apply Hok1 in Hfirst.
      destruct (dim_loop_settled w2 target (_lights cfg) false
                  (snd (_apply_media_dimming cfg w1 s))) as [Hok Hsame].
      { intros l Hin Hl. rewrite Hb1. now apply dim_loop_captures. }
      split; [now apply Hok2 | now rewrite Hb2].
  - rewrite H1 in *. simpl in *. rewrite H2. simpl. auto.
Qed.

Lemma restore_from_media_eq (s : Ctl) :
  _restore_from_media cfg s =
  (Ok tt,
   match _before_media_brightness_pct s with
   | [] =>
       match _auto_brightness_pct cfg with
       | Some a =>
           set_trace
             (trace s ++ auto_calls a (_lights cfg) ++
              [Log "INFO" (Msg "Media stopped -> setting lights to auto brightness.")]) s
       | None => s
       end
   | d =>
       set_trace
         (trace s ++ restore_calls d ++
          [Log "INFO" (Msg "Media stopped -> restoring brightness.")])
         (set_before_media [] s)
   end).
Proof.
  unfold _restore_from_media. rewrite bind_gets.
  destruct (_before_media_brightness_pct s) as [|kv d] eqn:Hd.
  - destruct (_auto_brightness_pct cfg) as [a|]; [|reflexivity].
    assert (Hbody : forall l s0,
               when (startswith l "light.") (emit (Call "light/turn_on" l (Some a) None)) s0 =
               (Ok tt,
                set_trace
                  (trace s0 ++ (if startswith l "light." then [dim_call a l] else [])) s0)).
    { intros l s0. destruct (startswith l "light."); simpl; [reflexivity|].
      unfold ret. now rewrite app_nil_r, set_trace_same. }
    rewrite (bind_returns _ _ _ _ _ (for_each_emits (_lights cfg) _ _ s Hbody)).
    unfold _logx, emit, modify. simpl. now rewrite <- app_assoc.
  - set (g := fun kv : string * option Z =>
                if startswith (fst kv) "light." then
                  match snd kv with
                  | Some pct => [dim_call pct (fst kv)]
                  | None => []
                  end
                else []).
    assert (Hbody : forall (kv0 : string * option Z) s0,
               (if negb (startswith (fst kv0) "light.") then ret tt
                else
                  match snd kv0 with
                  | None => ret tt
                  | Some pct => emit (Call "light/turn_on" (fst kv0) (Some pct) None)
                  end) s0 =
               (Ok tt, set_trace (trace s0 ++ g kv0) s0)).
    { intros [l pct] s0. unfold g. simpl. destruct (startswith l "light."); simpl.
      - destruct pct; [reflexivity|]. unfold ret. now rewrite app_nil_r, set_trace_same.
      - unfold ret. now rewrite app_nil_r, set_trace_same. }
    rewrite (bind_returns _ _ _ _ _ (for_each_emits (kv :: d) _ g s Hbody)).
    unfold _logx, emit, modify, bind. simpl. unfold restore_calls. fold g. simpl.
    now rewrite <- !app_assoc.
Qed.

(** C8, as the code has it: a second application of the media dimming
    changes no captured brightness and, when the first application
    returned, leaves the captured map exactly as it was; a restoration
    always returns and leaves the captured map empty; a second restoration
    keeps it empty, does nothing at all when no default automatic
    brightness is configured, and otherwise sends the default brightness to
    every [light.] entity and logs it. *)
Theorem media_dim_capture_and_restore (w1 w2 : World) (s : Ctl) :
  (forall l v,
     dict_get l (_before_media_brightness_pct (snd (_apply_media_dimming cfg w1 s))) = Some v ->
     dict_get l
       (_before_media_brightness_pct
          (snd (_apply_media_dimming cfg w2 (snd (_apply_media_dimming cfg w1 s)))))
     = Some v) /\
  (fst (_apply_media_dimming cfg w1 s) = Ok tt ->
   fst (_apply_media_dimming cfg w2 (snd (_apply_media_dimming cfg w1 s))) = Ok tt /\
   _before_media_brightness_pct
     (snd (_apply_media_dimming cfg w2 (snd (_apply_media_dimming cfg w1 s)))) =
   _before_media_brightness_pct (snd (_apply_media_dimming cfg w1 s))) /\
  fst (_restore_from_media cfg s) = Ok tt /\
  _before_media_brightness_pct (snd (_restore_from_media cfg s)) = [] /\
  _before_media_brightness_pct
    (snd (_restore_from_media cfg (snd (_restore_from_media cfg s)))) = [] /\
  (_auto_brightness_pct cfg = None ->
   _restore_from_media cfg (snd (_restore_from_media cfg s)) =
   (Ok tt, snd (_restore_from_media cfg s))) /\
  (forall a, _auto_brightness_pct cfg = Some a ->
   _restore_from_media cfg (snd (_restore_from_media cfg s)) =
   (Ok tt,
    set_trace
      (trace (snd (_restore_from_media cfg s)) ++ auto_calls a (_lights cfg) ++
       [Log "INFO" (Msg "Media stopped -> setting lights to auto brightness.")])
      (snd (_restore_from_media cfg s)))).
Proof.
  destruct (apply_media_dimming_twice w1 w2 s) as [Hkeep Hsame].
  split; [exact Hkeep|]. split; [exact Hsame|].
  assert (Hempty : _before_media_brightness_pct (snd (_restore_from_media cfg s)) = []).
  { rewrite restore_from_media_eq. simpl.
    destruct (_before_media_brightness_pct s) eqn:Hd; [|reflexivity].
    now destruct (_auto_brightness_pct cfg). }
  split; [now rewrite restore_from_media_eq|]. split; [exact Hempty|].
  rewrite (restore_from_media_eq (snd (_restore_from_media cfg s))), Hempty.
  split; [|split].
  - simpl. now destruct (_auto_brightness_pct cfg).
  - now intros ->.
  - now intros a ->.
Qed.

End MediaDim.

(** ** Reasoning about handlers: the commands a computation sends *)

Lemma calls_of_app (t1 t2 : list effect) :
  calls_of (t1 ++ t2) = (calls_of t1 ++ calls_of t2)%list.
Proof.
  induction t1 as [|e t1 IH]; simpl; [reflexivity|].
  destruct e; simpl; now rewrite IH.
Qed.

Lemma sends_ret {A} (a : A) : sends (ret a) [].
Proof. intros s. simpl. rewrite app_nil_r. eauto. Qed.

Lemma sends_gets {A} (g : Ctl -> A) : sends (gets g) [].
Proof. intros s. simpl. rewrite app_nil_r. eauto. Qed.

Lemma sends_modify (g : Ctl -> Ctl) :
  (forall s, trace (g s) = trace s) -> sends (modify g) [].
Proof. intros Hg s. simpl. rewrite Hg, app_nil_r. eauto. Qed.

Lemma sends_emit (e : effect) : sends (emit e) (calls_of [e]).
Proof. intros s. simpl. rewrite calls_of_app. eauto. Qed.

Lemma sends_lift_opt {A} (o : option A) : is_Some o -> sends (lift_opt o) [].
Proof. intros [a ->]. apply sends_ret. Qed.

Lemma sends_bind {A B} (m : M A) (k : A -> M B) (c1 c2 : list (string * string)) :
  sends m c1 -> (forall a, sends (k a) c2) -> sends (bind m k) (c1 ++ c2)%list.
Proof.
  intros Hm Hk s. unfold bind. destruct (Hm s) as [[a Ha] Hc].
  destruct (m s) as [r s']. simpl in *. subst r.
  destruct (Hk a s') as [Hok Hc']. split; [exact Hok|].
  now rewrite Hc', Hc, app_assoc.
Qed.

Lemma sends_quiet_then {A B} (m : M A) (k : A -> M B) (cs : list (string * string)) :
  sends m [] -> (forall a, sends (k a) cs) -> sends (bind m k) cs.
Proof. intros Hm Hk. exact (sends_bind m k [] cs Hm Hk). Qed.

Lemma sends_then_quiet {A B} (m : M A) (k : A -> M B) (cs : list (string * string)) :
  sends m cs -> (forall a, sends (k a) []) -> sends (bind m k) cs.
Proof.
  intros Hm Hk. rewrite <- (app_nil_r cs). exact (sends_bind m k cs [] Hm Hk).
Qed.

Lemma sends_when_quiet (b : bool) (m : M unit) : sends m [] -> sends (when b m) [].
Proof. destruct b; simpl; [trivial | intros _; apply sends_ret]. Qed.

Lemma sends_for_each_quiet {A} (xs : list A) (body : A -> M unit) :
  (forall x, sends (body x) []) -> sends (for_each xs body) [].
Proof.
  intros Hb. induction xs as [|x xs IH]; simpl.
  - apply sends_ret.
  - apply sends_quiet_then; [apply Hb | intros _; exact IH].
Qed.

Lemma sends_for_each_one {A} (xs : list A) (body : A -> M unit) (g : A -> string * string) :
  (forall x, sends (body x) [g x]) -> sends (for_each xs body) (map g xs).
Proof.
  intros Hb. induction xs as [|x xs IH]; simpl.
  - apply sends_ret.
  - exact (sends_bind (body x) _ [g x] (map g xs) (Hb x) (fun _ => IH)).
Qed.

Create HintDb senders.

#[local] Hint Unfold _logx _publish_status _publish_debug_state publish
  cancel_timer _cancel_timer_safe _mark_expected_echo : senders.

(** One structural step of a proof that a computation sends no command. *)
Ltac quiet_step :=
  lazymatch goal with
  | |- sends (bind _ _) [] => apply sends_quiet_then; [|intros ?]
  | |- sends (ret _) [] => apply sends_ret
  | |- sends (gets _) [] => apply sends_gets
  | |- sends (modify _) [] => apply sends_modify; intros ?; reflexivity
  | |- sends (emit (Log _ _)) [] => apply (sends_emit (Log _ _))
  | |- sends (emit (SetStatus _ _ _)) [] => apply (sends_emit (SetStatus _ _ _))
  | |- sends (emit (SetDebug _ _ _ _ _)) [] => apply (sends_emit (SetDebug _ _ _ _ _))
  | |- sends (when _ _) [] => apply sends_when_quiet
  | |- sends (for_each _ _) [] => apply sends_for_each_quiet; intros ?
  | |- sends (if ?b then _ else _) [] => destruct b
  | |- sends (match ?x with _ => _ end) [] => destruct x
  | |- sends _ [] => progress autounfold with senders
  end.

Ltac quiet := repeat quiet_step.

Section Reautomation.
Context `{!PyFloatParser} (cfg : Config) (w : World).

Lemma mark_expected_echo_quiet (state : string) : sends (_mark_expected_echo cfg w state) [].
Proof. quiet. Qed.

Lemma publish_quiet : sends (publish w) [].
Proof. quiet. Qed.

Lemma turn_off_sends (reason : string) : sends (_turn_off cfg w reason) (off_calls cfg).
Proof.
  unfold _turn_off.
  apply sends_quiet_then; [apply mark_expected_echo_quiet | intros _].
  apply sends_then_quiet; [|intros _; quiet].
  apply sends_for_each_one. intros l.
  destruct (startswith l "switch."); apply (sends_emit (Call _ _ _ _)).
Qed.

Lemma sends_bind_ret {A B} (a : A) (k : A -> M B) (cs : list (string * string)) :
  sends (k a) cs -> sends (bind (ret a) k) cs.
Proof. intros Hk s. exact (Hk s). Qed.

Lemma usable_int (v : pyval) :
  is_none v || bool_decide (is_Some (py_int v)) = true ->
  negb (is_none v) = true -> is_Some (py_int v).
Proof.
  destruct (is_none v); simpl; [discriminate|]. intros Hd _.
  now apply bool_decide_eq_true in Hd.
Qed.

Lemma turn_on_sends (reason : string) :
  al_targets_usable cfg w = true -> sends (_turn_on cfg w reason) (on_calls cfg).
Proof.
  unfold al_targets_usable, _turn_on. intros Husable.
  apply sends_quiet_then; [apply mark_expected_echo_quiet | intros _].
  assert (Htail : forall bri ct ab ac,
             is_none bri || bool_decide (is_Some (py_int bri)) = true ->
             is_none ct || bool_decide (is_Some (py_int ct)) = true ->
             sends
               (let '(bri_target, ct_kelvin, adapt_b, adapt_c) := (bri, ct, ab, ac) in
                let* playing := gets _media_playing in
                let bp0 :=
                  if playing && bool_decide (is_Some (_media_dim_brightness_pct cfg))
                  then _media_dim_brightness_pct cfg
                  else _auto_brightness_pct cfg in
                let* bp := (match bp0 with
                            | None =>
                                if negb (is_none bri_target) && adapt_b
                                then let* b := lift_opt (py_int bri_target) in ret (Some b)
                                else ret None
                            | Some b => ret (Some b)
                            end) in
                for_each (_lights cfg) (fun l =>
                  if startswith l "switch." then emit (Call "switch/turn_on" l None None)
                  else
                    let* ct := (if negb (is_none ct_kelvin) && adapt_c
                                then let* k := lift_opt (py_int ct_kelvin) in ret (Some k)
                                else ret None) in
                    emit (Call "light/turn_on" l bp ct)) >>
                _logx (Msg (String.append "Turn ON (" (String.append reason ")."))) "INFO")
               (on_calls cfg)).
  { intros bri ct ab ac Hb Hc. cbv iota beta.
    apply sends_quiet_then; [apply sends_gets | intros playing]. cbv zeta.
    apply sends_quiet_then.
    { destruct (if playing && bool_decide (is_Some (_media_dim_brightness_pct cfg))
                then _media_dim_brightness_pct cfg else _auto_brightness_pct cfg);
        [apply sends_ret|].
      destruct (negb (is_none bri)) eqn:Hn; simpl; [|apply sends_ret].
      destruct ab; [|apply sends_ret].
      apply sends_quiet_then;
        [apply sends_lift_opt, usable_int; assumption | intros b; apply sends_ret]. }
    intros bp. apply sends_then_quiet; [|intros _; quiet].
    apply sends_for_each_one. intros l.
    destruct (startswith l "switch."); [apply (sends_emit (Call _ _ _ _))|].
    apply sends_quiet_then; [|intros k; apply (sends_emit (Call _ _ _ _))].
    destruct (negb (is_none ct)) eqn:Hn; simpl; [|apply sends_ret].
    destruct ac; [|apply sends_ret].
    apply sends_quiet_then;
      [apply sends_lift_opt, usable_int; assumption | intros b; apply sends_ret]. }
  destruct (str_truthy (_al_switch cfg) && _al_use_targets cfg).
  - destruct (_al_current_targets cfg w) as [[[[bri ct] ab] ac]|]; [|discriminate].
    apply andb_true_iff in Husable. destruct Husable as [Hb Hc].
    apply sends_bind_ret. now apply Htail.
  - apply sends_bind_ret. now apply Htail.
Qed.

Lemma sends_from (m : M unit) (cs : list (string * string)) (s : Ctl) :
  sends m cs ->
  fst (m s) = Ok tt /\ calls_of (trace (snd (m s))) = (calls_of (trace s) ++ cs)%list.
Proof. intros Hm. destruct (Hm s) as [[[] Hok] Hc]. auto. Qed.

Lemma sends_nothing_from (m : M unit) (s : Ctl) :
  sends m [] -> fst (m s) = Ok tt /\ calls_of (trace (snd (m s))) = calls_of (trace s).
Proof. intros Hm. destruct (sends_from m [] s Hm) as [Hok Hc]. now rewrite app_nil_r in Hc. Qed.

Lemma reautomate_from_motion_outcome (s : Ctl) :
  timer_reautomation_outcome cfg w s (_reautomate_from_motion cfg w s).
Proof.
  unfold timer_reautomation_outcome, _reautomate_from_motion.
  rewrite !bind_modify, bind_gets.
  change (_presence (set_mode Auto (set_motion_reauto_timer None s))) with (_presence s).
  set (s2 := set_mode Auto (set_motion_reauto_timer None s)).
  change (trace s) with (trace s2). split; [|split; [|split]].
  - rewrite bind_preserved by (intros ?; frame).
    transitivity (_mode s2); [|reflexivity].
    match goal with |- _mode (snd (?m s2)) = _ => enough (Hp : preserves _mode m) by apply Hp end.
    frame.
  - intros -> -> Husable. apply sends_from.
    apply sends_then_quiet; [|intros _; apply publish_quiet].
    apply sends_quiet_then; [quiet | intros _; now apply turn_on_sends].
  - intros -> ->. apply sends_nothing_from.
    apply sends_quiet_then; [quiet | intros _; apply publish_quiet].
  - intros ->. apply sends_from.
    apply sends_then_quiet; [|intros _; apply publish_quiet].
    apply sends_quiet_then; [quiet | intros _; apply turn_off_sends].
Qed.

Lemma reautomate_from_manual_off_outcome (s : Ctl) :
  timer_reautomation_outcome cfg w s (_reautomate_from_manual_off cfg w s).
Proof.
  unfold timer_reautomation_outcome, _reautomate_from_manual_off.
  rewrite !bind_modify, bind_gets.
  change (_presence (set_mode Auto s)) with (_presence s).
  set (s2 := set_mode Auto s).
  change (trace s) with (trace s2). split; [|split; [|split]].
  - rewrite bind_preserved by (intros ?; frame).
    transitivity (_mode s2); [|reflexivity].
    match goal with |- _mode (snd (?m s2)) = _ => enough (Hp : preserves _mode m) by apply Hp end.
    frame.
  - intros -> -> Husable. apply sends_from.
    apply sends_then_quiet; [|intros _; apply publish_quiet].
    apply sends_quiet_then; [quiet | intros _; now apply turn_on_sends].
  - intros -> ->. apply sends_nothing_from.
    apply sends_quiet_then; [quiet | intros _; apply publish_quiet].
  - intros ->. apply sends_from.
    apply sends_then_quiet; [|intros _; apply publish_quiet].
    apply sends_quiet_then; [quiet | intros _; apply turn_off_sends].
Qed.

Lemma reauto_button_truthy (ent : str_or_list) :
  In (_reauto_button cfg) (_as_list ent) -> sl_truthy ent = true.
Proof.
  destruct ent as [|b|l]; simpl.
  - intros [].
  - intros [->|[]]. reflexivity.
  - destruct l; [intros [] | reflexivity].
Qed.

Lemma button_press_outcome (data : button_data) (s : Ctl) :
  press_accepted cfg data ->
  button_reautomation_outcome cfg w s (_on_button_press cfg w data s).
Proof.
  intros (Hdom & Hsvc & Hent). unfold button_reautomation_outcome.
  assert (Hex : existsb (String.eqb (_reauto_button cfg)) (_as_list (bd_entity_id data)) = true).
  { apply existsb_exists. exists (_reauto_button cfg). split; [exact Hent|].
    apply String.eqb_refl. }
  remember (_on_button_press cfg w data s) as r eqn:Hr.
  unfold _on_button_press in Hr.
  rewrite !bool_decide_eq_true_2, (reauto_button_truthy _ Hent), Hex in Hr by assumption.
  unfold negb, orb in Hr. cbv iota in Hr.
  unfold _logx at 1 in Hr. unfold emit at 1 in Hr.
  rewrite !bind_modify, bind_gets in Hr. subst r.
  set (s2 := set_mode Auto _).
  change (_presence s2) with (_presence s).
  assert (Htr : calls_of (trace s2) = calls_of (trace s)).
  { unfold s2. simpl. rewrite calls_of_app. simpl. apply app_nil_r. }
  rewrite <- Htr. split; [|split].
  - rewrite bind_preserved by (intros ?; frame).
    transitivity (_mode s2); [|reflexivity].
    match goal with |- _mode (snd (?m s2)) = _ => enough (Hp : preserves _mode m) by apply Hp end.
    frame.
  - intros -> _ Husable. apply sends_from.
    apply sends_then_quiet; [|intros _; apply publish_quiet].
    apply sends_quiet_then; [quiet | intros _; now apply turn_on_sends].
  - intros ->. apply sends_from.
    apply sends_then_quiet; [|intros _; apply publish_quiet].
    apply sends_quiet_then; [quiet | intros _; apply turn_off_sends].
Qed.

(** C2, as the code has it: each of the two timer-driven re-automations
    returns the controller to auto, turns every light on when presence is
    true, the darkness condition holds, ON is not blocked and the
    adaptation targets [_turn_on] would use are absent or values [int]
    accepts ([al_targets_usable]; otherwise [_turn_on] raises part-way),
    sends no command when presence and darkness hold but ON is blocked,
    and turns every light off when presence is false or it is not dark,
    whether or not OFF is blocked; an accepted button request returns the
    controller to auto, turns every light off when presence is false or
    it is not dark, and turns every light on when presence is true,
    darkness holds, ON is not blocked and the adaptation targets are
    usable in the same sense. *)
Theorem reautomation_outcomes (data : button_data) (s : Ctl) :
  timer_reautomation_outcome cfg w s (_reautomate_from_motion cfg w s) /\
  timer_reautomation_outcome cfg w s (_reautomate_from_manual_off cfg w s) /\
  (press_accepted cfg data ->
   button_reautomation_outcome cfg w s (_on_button_press cfg w data s)).
Proof.
  split; [apply reautomate_from_motion_outcome|].
  split; [apply reautomate_from_manual_off_outcome|].
  apply button_press_outcome.
Qed.

End Reautomation.

(** ** Timer discipline *)

Lemma NoDup_map_filter {A B} (f : A -> B) (P : A -> bool) (l : list A) :
  List.NoDup (map f l) -> List.NoDup (map f (List.filter P l)).
Proof.
  induction l as [|a l IH]; simpl; intros Hnd; [constructor|].
  apply List.NoDup_cons_iff in Hnd. destruct Hnd as [Hnotin Hnd].
  destruct (P a); simpl; [|auto].
  constructor; [|auto]. intros Hin. apply Hnotin.
  apply List.in_map_iff in Hin. destruct Hin as (x & Hx & Hin).
  apply List.filter_In in Hin. destruct Hin as [Hin _].
  apply List.in_map_iff. eauto.
Qed.

Lemma at_most_one_with_handle (l : list timer) (P : timer -> bool) (h : nat) :
  List.NoDup (map t_handle l) ->
  (forall t, In t l -> P t = true -> t_handle t = h) ->
  (List.length (List.filter P l) <= 1)%nat.
Proof.
  induction l as [|a l IH]; simpl; intros Hnd Hall; [lia|].
  apply List.NoDup_cons_iff in Hnd. destruct Hnd as [Hnotin Hnd].
  destruct (P a) eqn:Pa; simpl; [|apply IH; auto].
  assert (Hnone : List.filter P l = []).
  { destruct (List.filter P l) as [|b r] eqn:E; [reflexivity|]. exfalso.
    assert (Hb : In b (List.filter P l)) by (rewrite E; left; reflexivity).
    apply List.filter_In in Hb. destruct Hb as [Hb Pb].
    apply Hnotin, List.in_map_iff. exists b. split; [|exact Hb].
    rewrite (Hall a), (Hall b); auto. }
  rewrite Hnone. simpl. lia.
Qed.

Lemma al_reset_cb_eq (e : string) (c : callback) :
  is_al_reset_cb e c = true -> c = CbAlReset e.
Proof. destruct c; simpl; try discriminate. intros He. apply String.eqb_eq in He. now subst. Qed.

Lemma auto_off_cb_eq (c : callback) : is_auto_off_cb c = true -> c = CbAutoOff.
Proof. destruct c; simpl; congruence. Qed.

Lemma motion_reauto_cb_eq (c : callback) : is_motion_reauto_cb c = true -> c = CbMotionReauto.
Proof. destruct c; simpl; congruence. Qed.

(** What the invariant buys: at most one pending timer for each tracked
    purpose. *)
Lemma tracked_at_most_one (s : Ctl) :
  timers_tracked s ->
  (List.length (pending is_auto_off_cb s) <= 1)%nat /\
  (List.length (pending is_motion_reauto_cb s) <= 1)%nat /\
  (forall e, (List.length (pending (is_al_reset_cb e) s) <= 1)%nat).
Proof.
  intros [Hnd _ Hoff Hmo Hal]. unfold pending. split; [|split].
  - apply (at_most_one_with_handle _ _ (default 0%nat (_off_timer s)) Hnd).
    intros t Hin Hcb. now rewrite (Hoff t Hin (auto_off_cb_eq _ Hcb)).
  - apply (at_most_one_with_handle _ _ (default 0%nat (_motion_reauto_timer s)) Hnd).
    intros t Hin Hcb. now rewrite (Hmo t Hin (motion_reauto_cb_eq _ Hcb)).
  - intros e.
    apply (at_most_one_with_handle _ _ (default 0%nat (_al_manual_timers s !! e)) Hnd).
    intros t Hin Hcb. now rewrite (Hal t e Hin (al_reset_cb_eq _ _ Hcb)).
Qed.

Section TrackedSteps.
Context (ts : list timer) (next : nat) (off motion : option nat) (al : gmap string nat).
Context (Htracked : tracked ts next off motion al).

Lemma tracked_filter (P : timer -> bool) : tracked (List.filter P ts) next off motion al.
Proof using Htracked.
  destruct Htracked as [Hnd Hlt Hoff Hmo Hal].
  constructor.
  - now apply NoDup_map_filter.
  - intros t Hin. apply List.filter_In in Hin. apply Hlt, Hin.
  - intros t Hin. apply List.filter_In in Hin. apply Hoff, Hin.
  - intros t Hin. apply List.filter_In in Hin. apply Hmo, Hin.
  - intros t e Hin. apply List.filter_In in Hin. apply Hal, Hin.
Qed.

Lemma fresh_handle_distinct (cb : callback) (d : Q) :
  List.NoDup (map t_handle (ts ++ [{| t_handle := next; t_cb := cb; t_delay := d |}])).
Proof using Htracked.
  destruct Htracked as [Hnd Hlt _ _ _].
  rewrite map_app. simpl. apply List.NoDup_app; [exact Hnd | |].
  - repeat constructor. intros [].
  - intros h Hin [<-|[]]. apply List.in_map_iff in Hin.
    destruct Hin as (t & Ht & Hin). specialize (Hlt t Hin). lia.
Qed.

Lemma tracked_add_auto_off (d : Q) :
  (forall t, In t ts -> is_auto_off_cb (t_cb t) = false) ->
  tracked (ts ++ [{| t_handle := next; t_cb := CbAutoOff; t_delay := d |}]) (S next)
    (Some next) motion al.
Proof using Htracked.
  intros Hnone. pose proof (fresh_handle_distinct CbAutoOff d) as Hnd'.
  destruct Htracked as [Hnd Hlt Hoff Hmo Hal].
  constructor; [exact Hnd' | | | |].
  - intros t Hin. apply List.in_app_iff in Hin. destruct Hin as [Hin|[<-|[]]]; simpl.
    + specialize (Hlt t Hin). lia.
    + lia.
  - intros t Hin Hcb. apply List.in_app_iff in Hin. destruct Hin as [Hin|[<-|[]]].
    + specialize (Hnone t Hin). rewrite Hcb in Hnone. discriminate.
    + reflexivity.
  - intros t Hin Hcb. apply List.in_app_iff in Hin. destruct Hin as [Hin|[<-|[]]].
    + now apply Hmo.
    + discriminate.
  - intros t e Hin Hcb. apply List.in_app_iff in Hin. destruct Hin as [Hin|[<-|[]]].
    + now apply Hal.
    + discriminate.
Qed.

Lemma tracked_add_motion (d : Q) :
  (forall t, In t ts -> is_motion_reauto_cb (t_cb t) = false) ->
  tracked (ts ++ [{| t_handle := next; t_cb := CbMotionReauto; t_delay := d |}]) (S next)
    off (Some next) al.
Proof using Htracked.
  intros Hnone. pose proof (fresh_handle_distinct CbMotionReauto d) as Hnd'.
  destruct Htracked as [Hnd Hlt Hoff Hmo Hal].
  constructor; [exact Hnd' | | | |].
  - intros t Hin. apply List.in_app_iff in Hin. destruct Hin as [Hin|[<-|[]]]; simpl.
    + specialize (Hlt t Hin). lia.
    + lia.
  - intros t Hin Hcb. apply List.in_app_iff in Hin. destruct Hin as [Hin|[<-|[]]].
    + now apply Hoff.
    + discriminate.
  - intros t Hin Hcb. apply List.in_app_iff in Hin. destruct Hin as [Hin|[<-|[]]].
    + specialize (Hnone t Hin). rewrite Hcb in Hnone. discriminate.
    + reflexivity.
  - intros t e Hin Hcb. apply List.in_app_iff in Hin. destruct Hin as [Hin|[<-|[]]].
    + now apply Hal.
    + discriminate.
Qed.

Lemma tracked_add_al_reset (e : string) (d : Q) :
  (forall t, In t ts -> is_al_reset_cb e (t_cb t) = false) ->
  tracked (ts ++ [{| t_handle := next; t_cb := CbAlReset e; t_delay := d |}]) (S next)
    off motion (<[e := next]> al).
Proof using Htracked.
  intros Hnone. pose proof (fresh_handle_distinct (CbAlReset e) d) as Hnd'.
  destruct Htracked as [Hnd Hlt Hoff Hmo Hal].
  constructor; [exact Hnd' | | | |].
  - intros t Hin. apply List.in_app_iff in Hin. destruct Hin as [Hin|[<-|[]]]; simpl.
    + specialize (Hlt t Hin). lia.
    + lia.
  - intros t Hin Hcb. apply List.in_app_iff in Hin. destruct Hin as [Hin|[<-|[]]].
    + now apply Hoff.
    + discriminate.
  - intros t Hin Hcb. apply List.in_app_iff in Hin. destruct Hin as [Hin|[<-|[]]].
    + now apply Hmo.
    + discriminate.
  - intros t e' Hin Hcb. apply List.in_app_iff in Hin. destruct Hin as [Hin|[<-|[]]].
    + destruct (decide (e = e')) as [<-|Hne].
      * specialize (Hnone t Hin). rewrite Hcb in Hnone. simpl in Hnone.
        rewrite String.eqb_refl in Hnone. discriminate.
      * rewrite lookup_insert_ne by exact Hne. now apply Hal.
    + simpl in Hcb. injection Hcb as <-. simpl. apply lookup_insert_eq.
Qed.

Lemma tracked_add_manual_off (d : Q) :
  tracked (ts ++ [{| t_handle := next; t_cb := CbManualOffReauto; t_delay := d |}]) (S next)
    off motion al.
Proof using Htracked.
  pose proof (fresh_handle_distinct CbManualOffReauto d) as Hnd'.
  destruct Htracked as [Hnd Hlt Hoff Hmo Hal].
  constructor; [exact Hnd' | | | |].
  - intros t Hin. apply List.in_app_iff in Hin. destruct Hin as [Hin|[<-|[]]]; simpl.
    + specialize (Hlt t Hin). lia.
    + lia.
  - intros t Hin Hcb. apply List.in_app_iff in Hin. destruct Hin as [Hin|[<-|[]]].
    + now apply Hoff.
    + discriminate.
  - intros t Hin Hcb. apply List.in_app_iff in Hin. destruct Hin as [Hin|[<-|[]]].
    + now apply Hmo.
    + discriminate.
  - intros t e Hin Hcb. apply List.in_app_iff in Hin. destruct Hin as [Hin|[<-|[]]].
    + now apply Hal.
    + discriminate.
Qed.

Lemma tracked_forget_auto_off (off' : option nat) :
  (forall t, In t ts -> is_auto_off_cb (t_cb t) = false) ->
  tracked ts next off' motion al.
Proof using Htracked.
  intros Hnone. destruct Htracked as [Hnd Hlt Hoff Hmo Hal].
  constructor; auto.
  intros t Hin Hcb. specialize (Hnone t Hin). rewrite Hcb in Hnone. discriminate.
Qed.

Lemma tracked_forget_motion (motion' : option nat) :
  (forall t, In t ts -> is_motion_reauto_cb (t_cb t) = false) ->
  tracked ts next off motion' al.
Proof using Htracked.
  intros Hnone. destruct Htracked as [Hnd Hlt Hoff Hmo Hal].
  constructor; auto.
  intros t Hin Hcb. specialize (Hnone t Hin). rewrite Hcb in Hnone. discriminate.
Qed.

Lemma tracked_forget_al_reset (e : string) :
  (forall t, In t ts -> is_al_reset_cb e (t_cb t) = false) ->
  tracked ts next off motion (delete e al).
Proof using Htracked.
  intros Hnone. destruct Htracked as [Hnd Hlt Hoff Hmo Hal].
  constructor; auto.
  intros t e' Hin Hcb. destruct (decide (e = e')) as [<-|Hne].
  - specialize (Hnone t Hin). rewrite Hcb in Hnone. simpl in Hnone.
    rewrite String.eqb_refl in Hnone. discriminate.
  - rewrite lookup_delete_ne by exact Hne. now apply Hal.
Qed.

(** Cancelling the remembered handle leaves no pending timer of that
    purpose. *)
Lemma cancelled_auto_off (t : timer) :
  In t (match off with
        | Some h => List.filter (fun t => negb (Nat.eqb (t_handle t) h)) ts
        | None => ts
        end) ->
  is_auto_off_cb (t_cb t) = false.
Proof using Htracked.
  destruct Htracked as [_ _ Hoff _ _]. intros Hin.
  destruct (is_auto_off_cb (t_cb t)) eqn:Hcb; [exfalso|reflexivity].
  apply auto_off_cb_eq in Hcb. destruct off as [h|].
  - apply List.filter_In in Hin. destruct Hin as [Hin Hne].
    specialize (Hoff t Hin Hcb). injection Hoff as ->.
    rewrite Nat.eqb_refl in Hne. discriminate.
  - specialize (Hoff t Hin Hcb). discriminate.
Qed.

Lemma cancelled_motion (t : timer) :
  In t (match motion with
        | Some h => List.filter (fun t => negb (Nat.eqb (t_handle t) h)) ts
        | None => ts
        end) ->
  is_motion_reauto_cb (t_cb t) = false.
Proof using Htracked.
  destruct Htracked as [_ _ _ Hmo _]. intros Hin.
  destruct (is_motion_reauto_cb (t_cb t)) eqn:Hcb; [exfalso|reflexivity].
  apply motion_reauto_cb_eq in Hcb. destruct motion as [h|].
  - apply List.filter_In in Hin. destruct Hin as [Hin Hne].
    specialize (Hmo t Hin Hcb). injection Hmo as ->.
    rewrite Nat.eqb_refl in Hne. discriminate.
  - specialize (Hmo t Hin Hcb). discriminate.
Qed.

Lemma cancelled_al_reset (e : string) (t : timer) :
  In t (match al !! e with
        | Some h => List.filter (fun t => negb (Nat.eqb (t_handle t) h)) ts
        | None => ts
        end) ->
  is_al_reset_cb e (t_cb t) = false.
Proof using Htracked.
  destruct Htracked as [_ _ _ _ Hal]. intros Hin.
  destruct (is_al_reset_cb e (t_cb t)) eqn:Hcb; [exfalso|reflexivity].
  apply al_reset_cb_eq in Hcb. destruct (al !! e) as [h|] eqn:He.
  - apply List.filter_In in Hin. destruct Hin as [Hin Hne].
    specialize (Hal t e Hin Hcb). rewrite He in Hal. injection Hal as ->.
    rewrite Nat.eqb_refl in Hne. discriminate.
  - specialize (Hal t e Hin Hcb). rewrite He in Hal. discriminate.
Qed.

(** Once a pending timer has fired and left the list, no pending timer of
    its purpose is left. *)
Lemma fired_purpose_gone (t t' : timer) :
  In t ts ->
  In t' (List.filter (fun x => negb (Nat.eqb (t_handle x) (t_handle t))) ts) ->
  same_purpose (t_cb t) (t_cb t') = false.
Proof using Htracked.
  destruct Htracked as [_ _ Hoff Hmo Hal]. intros Hin Hin'.
  apply List.filter_In in Hin'. destruct Hin' as [Hin' Hne].
  destruct (same_purpose (t_cb t) (t_cb t')) eqn:Hsame; [exfalso|reflexivity].
  assert (Heq : t_handle t' = t_handle t).
  { destruct (t_cb t) as [| | |e] eqn:Hcb; simpl in Hsame.
    - apply auto_off_cb_eq in Hsame.
      pose proof (Hoff t Hin Hcb) as H1. pose proof (Hoff t' Hin' Hsame) as H2. congruence.
    - apply motion_reauto_cb_eq in Hsame.
      pose proof (Hmo t Hin Hcb) as H1. pose proof (Hmo t' Hin' Hsame) as H2. congruence.
    - discriminate.
    - apply al_reset_cb_eq in Hsame.
      pose proof (Hal t e Hin Hcb) as H1. pose proof (Hal t' e Hin' Hsame) as H2. congruence. }
  rewrite Heq, Nat.eqb_refl in Hne. discriminate.
Qed.

End TrackedSteps.

Lemma hoare_bind {A B} (P R Q : Ctl -> Prop) (m : M A) (k : A -> M B) :
  hoare P m R -> (forall s, R s -> Q s) -> (forall a, hoare R (k a) Q) ->
  hoare P (bind m k) Q.
Proof.
  intros Hm Hweak Hk s HP. specialize (Hm s HP). unfold bind.
  destruct (m s) as [[a|] s']; simpl in *; [now apply Hk | now apply Hweak].
Qed.

Lemma hoare_invariant_bind {A B} (P : Ctl -> Prop) (m : M A) (k : A -> M B) :
  hoare P m P -> (forall a, hoare P (k a) P) -> hoare P (bind m k) P.
Proof. intros Hm Hk. apply (hoare_bind P P P); auto. Qed.

Lemma hoare_when (P : Ctl -> Prop) (b : bool) (m : M unit) :
  hoare P m P -> hoare P (when b m) P.
Proof. destruct b; simpl; [trivial | intros _ s HP; exact HP]. Qed.

Lemma hoare_weaken {A} (P Q Q' : Ctl -> Prop) (m : M A) :
  hoare P m Q -> (forall s, Q s -> Q' s) -> hoare P m Q'.
Proof. intros Hm Hq s HP. apply Hq, Hm, HP. Qed.

(** A predicate that only looks at the timer view is kept by whatever
    preserves that view. *)
Lemma hoare_timer_view {A} (P : Ctl -> Prop) (m : M A) :
  (forall s s', timer_view s' = timer_view s -> P s -> P s') ->
  preserves timer_view m -> hoare P m P.
Proof. intros Hview Hm s HP. exact (Hview s _ (Hm s) HP). Qed.

Lemma timers_tracked_view (s s' : Ctl) :
  timer_view s' = timer_view s -> timers_tracked s -> timers_tracked s'.
Proof.
  unfold timer_view, timers_tracked. intros Hv. injection Hv as -> -> -> -> ->. trivial.
Qed.

Lemma none_pending_view (cb : callback -> bool) (s s' : Ctl) :
  timer_view s' = timer_view s -> none_pending cb s -> none_pending cb s'.
Proof.
  unfold timer_view, none_pending. intros Hv. injection Hv as -> _ _ _ _. trivial.
Qed.

Lemma hoare_tracked_preserves {A} (m : M A) :
  preserves timer_view m -> hoare timers_tracked m timers_tracked.
Proof. apply hoare_timer_view. exact timers_tracked_view. Qed.

Lemma bind_run_in {B} (cb : callback) (d : Q) (k : nat -> M B) (s : Ctl) :
  bind (run_in cb d) k s =
  k (next_handle s)
    (set_next_handle (S (next_handle s))
       (set_timers (timers s ++ [{| t_handle := next_handle s; t_cb := cb; t_delay := d |}]) s)).
Proof. reflexivity. Qed.

Lemma cancel_timer_safe_state (h : option nat) (s : Ctl) :
  _cancel_timer_safe h s =
  (Ok tt,
   set_timers
     (match h with
      | Some h => List.filter (fun t => negb (Nat.eqb (t_handle t) h)) (timers s)
      | None => timers s
      end) s).
Proof. destruct h; [reflexivity|]. destruct s; reflexivity. Qed.

Section TimerHandlers.
Context `{!PyFloatParser} (cfg : Config) (w : World).

Lemma cancel_timer_safe_tracked (h : option nat) :
  hoare timers_tracked (_cancel_timer_safe h) timers_tracked.
Proof.
  intros s Hs. rewrite cancel_timer_safe_state. unfold timers_tracked in *. simpl.
  destruct h; [now apply tracked_filter | exact Hs].
Qed.

Lemma run_in_manual_off_tracked (d : Q) :
  hoare timers_tracked (run_in CbManualOffReauto d) timers_tracked.
Proof.
  intros s Hs. unfold timers_tracked in *. simpl.
  exact (tracked_add_manual_off _ _ _ _ _ Hs d).
Qed.

Lemma schedule_off_tracked : hoare timers_tracked (_schedule_off cfg) timers_tracked.
Proof.
  intros s Hs. unfold _schedule_off.
  rewrite bind_gets, (bind_returns _ _ _ _ _ (cancel_timer_safe_state _ s)), bind_run_in.
  unfold timers_tracked in *. simpl.
  refine (tracked_add_auto_off _ _ (_off_timer s) _ _ _ _ _).
  - destruct (_off_timer s); [now apply tracked_filter | exact Hs].
  - intros t. now apply (cancelled_auto_off _ _ _ _ _ Hs).
Qed.

Lemma motion_reauto_block_tracked :
  hoare timers_tracked
    (let* h := gets _motion_reauto_timer in
     _cancel_timer_safe h >>
     let* h' := run_in CbMotionReauto (_motion_reauto_seconds cfg) in
     modify (set_motion_reauto_timer (Some h')) >>
     _logx (Msg "Motion during manual_on; scheduling quick re-automate.") "INFO")
    timers_tracked.
Proof.
  intros s Hs.
  rewrite bind_gets, (bind_returns _ _ _ _ _ (cancel_timer_safe_state _ s)), bind_run_in.
  unfold timers_tracked in *. simpl.
  refine (tracked_add_motion _ _ _ (_motion_reauto_timer s) _ _ _ _).
  - destruct (_motion_reauto_timer s); [now apply tracked_filter | exact Hs].
  - intros t. now apply (cancelled_motion _ _ _ _ _ Hs).
Qed.

Lemma al_schedule_reset_tracked (entity : string) :
  hoare timers_tracked (_al_schedule_reset_for cfg entity) timers_tracked.
Proof.
  intros s Hs. unfold _al_schedule_reset_for.
  rewrite bind_gets, bind_modify, (bind_returns _ _ _ _ _ (cancel_timer_safe_state _ _)).
  unfold timers_tracked in *.
  assert (Hnone : forall t,
             In t (match _al_manual_timers s !! entity with
                   | Some h => List.filter (fun t => negb (Nat.eqb (t_handle t) h)) (timers s)
                   | None => timers s
                   end) ->
             is_al_reset_cb entity (t_cb t) = false)
    by (intros t; now apply (cancelled_al_reset _ _ _ _ _ Hs)).
  assert (Hcancelled :
            tracked (match _al_manual_timers s !! entity with
                     | Some h => List.filter (fun t => negb (Nat.eqb (t_handle t) h)) (timers s)
                     | None => timers s
                     end)
              (next_handle s) (_off_timer s) (_motion_reauto_timer s)
              (delete entity (_al_manual_timers s))).
  { apply tracked_forget_al_reset; [|exact Hnone].
    destruct (_al_manual_timers s !! entity); [now apply tracked_filter | exact Hs]. }
  destruct (no_reset_seconds cfg); simpl; [exact Hcancelled|].
  assert (Hnone' : forall t,
             In t (match _al_manual_timers s !! entity with
                   | Some h => List.filter (fun t => negb (Nat.eqb (t_handle t) h)) (timers s)
                   | None => timers s
                   end) ->
             is_al_reset_cb entity (t_cb t) = false) by exact Hnone.
  exact (tracked_add_al_reset _ _ _ _ _ Hcancelled entity _ Hnone').
Qed.

Ltac tracked_step :=
  first
    [ solve [apply hoare_tracked_preserves; frame]
    | apply schedule_off_tracked
    | apply al_schedule_reset_tracked
    | apply cancel_timer_safe_tracked
    | apply run_in_manual_off_tracked
    | apply motion_reauto_block_tracked
    | lazymatch goal with
      | |- hoare _ (bind _ _) _ => apply hoare_invariant_bind; [|intros ?]
      | |- hoare _ (when _ _) _ => apply hoare_when
      | |- hoare _ (if ?b then _ else _) _ => destruct b
      | |- hoare _ (match ?x with _ => _ end) _ => destruct x
      end ].

Ltac tracked := repeat tracked_step.

Lemma on_motion_tracked (entity attribute : string) (old new : option string) :
  hoare timers_tracked (_on_motion cfg w entity attribute old new) timers_tracked.
Proof. unfold _on_motion. tracked. Qed.

Lemma on_light_power_tracked (entity attribute : string) (old new : option string) :
  hoare timers_tracked (_on_light_power cfg w entity attribute old new) timers_tracked.
Proof. unfold _on_light_power. tracked. Qed.

Lemma on_light_attr_tracked (entity attribute : string) (old new : pyval) :
  hoare timers_tracked (_on_light_attr cfg w entity attribute old new) timers_tracked.
Proof. unfold _on_light_attr. tracked. Qed.

Lemma on_lux_changed_tracked (entity attribute : string) (old new : option string) :
  hoare timers_tracked (_on_lux_changed cfg w entity attribute old new) timers_tracked.
Proof. unfold _on_lux_changed. tracked. Qed.

Lemma on_media_state_tracked (entity attribute : string) (old new : option string) :
  hoare timers_tracked (_on_media_state cfg w entity attribute old new) timers_tracked.
Proof. unfold _on_media_state. tracked. Qed.

Lemma on_button_press_tracked (data : button_data) :
  hoare timers_tracked (_on_button_press cfg w data) timers_tracked.
Proof. unfold _on_button_press. tracked. Qed.

Lemma tracked_and_none_view (cb : callback -> bool) (s s' : Ctl) :
  timer_view s' = timer_view s ->
  timers_tracked s /\ none_pending cb s -> timers_tracked s' /\ none_pending cb s'.
Proof.
  intros Hv [Hs Hn]. split; [exact (timers_tracked_view s s' Hv Hs)|].
  exact (none_pending_view cb s s' Hv Hn).
Qed.

(** A callback runs after its timer has left the pending list, so no timer
    of its purpose is pending when it forgets the remembered handle. *)
Lemma run_callback_tracked (cb : callback) :
  hoare (fun s => timers_tracked s /\ none_pending (same_purpose cb) s)
    (run_callback cfg w cb) timers_tracked.
Proof.
  destruct cb as [| | |e]; simpl.
  - unfold _auto_off_elapsed.
    apply (hoare_bind _ (fun s => timers_tracked s /\ none_pending is_auto_off_cb s));
      [intros s HP; exact HP | intros s [Hs _]; exact Hs | intros s0].
    apply (hoare_bind _ (fun s => timers_tracked s /\ none_pending is_auto_off_cb s)).
    + apply hoare_timer_view; [apply tracked_and_none_view | frame].
    + intros s [Hs _]. exact Hs.
    + intros _ s [Hs Hn]. unfold timers_tracked in *. simpl.
      exact (tracked_forget_auto_off _ _ _ _ _ Hs None Hn).
  - unfold _reautomate_from_motion.
    apply (hoare_bind _ timers_tracked); [|trivial|intros _; tracked].
    intros s [Hs Hn]. unfold timers_tracked in *. simpl.
    exact (tracked_forget_motion _ _ _ _ _ Hs None Hn).
  - intros s [Hs _]. revert s Hs. unfold _reautomate_from_manual_off. tracked.
  - unfold _al_reset_timer_cb.
    apply (hoare_bind _ timers_tracked); [|trivial|intros _; tracked].
    intros s [Hs Hn]. unfold timers_tracked in *. simpl.
    exact (tracked_forget_al_reset _ _ _ _ _ Hs e Hn).
Qed.

Lemma fire_timer_tracked (h : nat) : hoare timers_tracked (fire_timer cfg w h) timers_tracked.
Proof.
  intros s Hs. unfold fire_timer. rewrite bind_gets.
  destruct (List.find (fun t => Nat.eqb (t_handle t) h) (timers s)) as [t|] eqn:Hfind;
    [|exact Hs].
  apply List.find_some in Hfind. destruct Hfind as [Hin Hh].
  apply Nat.eqb_eq in Hh. subst h.
  unfold cancel_timer. rewrite bind_modify.
  apply run_callback_tracked. split.
  - unfold timers_tracked in *. simpl. now apply tracked_filter.
  - intros t' Hin'. simpl in Hin'.
    exact (fired_purpose_gone _ _ _ _ _ Hs t t' Hin Hin').
Qed.

Lemma step_tracked (ev : event) (s : Ctl) :
  timers_tracked s -> timers_tracked (step cfg w ev s).
Proof.
  intros Hs. unfold step. destruct ev; simpl.
  - now apply on_motion_tracked.
  - now apply on_light_power_tracked.
  - now apply on_light_attr_tracked.
  - now apply on_lux_changed_tracked.
  - now apply on_media_state_tracked.
  - now apply on_button_press_tracked.
  - now apply fire_timer_tracked.
Qed.

Lemma initialize_tracked (s : Ctl) : initialize cfg w = Some s -> timers_tracked s.
Proof.
  unfold initialize. destruct (_lights cfg); [discriminate|].
  intros Hs. injection Hs as <-. unfold timers_tracked. simpl.
  constructor; simpl;
    [constructor | intros ? [] | intros ? [] | intros ? [] | intros ? ? []].
Qed.

End TimerHandlers.

Lemma run_tracked `{!PyFloatParser} (cfg : Config) (evs : list (World * event)) :
  forall s, timers_tracked s -> timers_tracked (run cfg evs s).
Proof.
  induction evs as [|[w ev] evs IH]; intros s Hs; simpl; [exact Hs|].
  apply IH. now apply step_tracked.
Qed.

(** The three purposes whose handle the controller remembers: from
    start-up on, whatever the events and whatever the host shows, at most
    one auto-off timer, one quick re-automate timer and one manual-hold
    timer per light are pending. *)
Theorem remembered_timers_are_unique `{!PyFloatParser}
    (cfg : Config) (w0 : World) (s0 : Ctl) (evs : list (World * event)) :
  initialize cfg w0 = Some s0 ->
  (List.length (pending is_auto_off_cb (run cfg evs s0)) <= 1)%nat /\
  (List.length (pending is_motion_reauto_cb (run cfg evs s0)) <= 1)%nat /\
  (forall e, (List.length (pending (is_al_reset_cb e) (run cfg evs s0)) <= 1)%nat).
Proof.
  intros Hinit. apply tracked_at_most_one, run_tracked.
  exact (initialize_tracked cfg w0 s0 Hinit).
Qed.

(** ** The scenarios, evaluated *)

Section Scenarios.
#[local] Existing Instance decimal_parser.

Lemma malformed_readings_are_permissive_witness :
  _is_dark_enough lux_config world_lux_unavailable = true /\
  _blocked_now
    (set_block_windows ([] ++ broken_window :: [night_window "on_off"]) plain_config)
    world_2330 =
  _blocked_now (set_block_windows ([] ++ [night_window "on_off"]) plain_config) world_2330 /\
  _blocked_now
    (set_block_windows ([] ++ broken_window :: night_window "on_off" :: []) plain_config)
    world_2330 = (true, Some "on_off 22:00-07:00").
Proof.
  split; [|split].
  - apply (proj1 (malformed_readings_are_permissive lux_config world_lux_unavailable)).
    right. exists "unavailable". split; reflexivity.
  - apply (proj1 (proj2 (malformed_readings_are_permissive plain_config world_2330))).
    left. reflexivity.
  - apply (proj2 (proj2 (malformed_readings_are_permissive plain_config world_2330))
             broken_window (night_window "on_off") [] []).
    + left. reflexivity.
    + constructor.
    + reflexivity.
    + reflexivity.
Defined.

Lemma change_within_tolerance_is_own_adaptation_witness :
  _al_is_change_like_al al_config world_al "light.a" "brightness_pct" (PInt 50) (PInt 42)
  = Some true /\
  _al_is_change_like_al al_config world_al "light.a" "color_temp" (PInt 300) (PInt 340)
  = Some true /\
  _mireds_to_kelvin (PInt 340) = Some (round_half_even (1000000 / inject_Z 340)).
Proof.
  assert (Ht : _al_current_targets al_config world_al
               = Some (PInt 40, PInt 3000, true, true)) by reflexivity.
  split; [|split].
  - apply (proj1 (change_within_tolerance_is_own_adaptation al_config world_al
                    "light.a" "brightness_pct" (PInt 50) (PInt 42) _ _ _ _ Ht) 40 42);
      [reflexivity | reflexivity | reflexivity | vm_compute; discriminate].
  - apply (proj1 (proj2 (change_within_tolerance_is_own_adaptation al_config world_al
                    "light.a" "color_temp" (PInt 300) (PInt 340) _ _ _ _ Ht)) 3000 2941);
      [reflexivity | reflexivity | reflexivity | vm_compute; discriminate].
  - apply (proj2 (proj2 (change_within_tolerance_is_own_adaptation al_config world_al
                    "light.a" "color_temp" (PInt 300) (PInt 340) _ _ _ _ Ht))
             (PInt 340) (inject_Z 340) eq_refl).
    reflexivity.
Defined.

Lemma unconvertible_attribute_enters_manual_on_witness :
  _changed_meaningfully "brightness" (PInt 100) (PStr "unavailable") = true /\
  _mode (step plain_config world_noon
           (EvLightAttr "light.a" "brightness" (PInt 100) (PStr "unavailable"))
           (demo_state Auto true)) = ManualOn.
Proof.
  assert (Hbad : py_float (or_zero (PInt 100)) = None \/
                 py_float (or_zero (PStr "unavailable")) = None)
    by (right; reflexivity).
  split.
  - exact (proj1 (unconvertible_attribute_enters_manual_on plain_config world_noon
                    "light.a" "brightness" _ _ (demo_state Auto true) Hbad)).
  - apply (proj2 (unconvertible_attribute_enters_manual_on plain_config world_noon
                    "light.a" "brightness" _ _ (demo_state Auto true) Hbad));
      reflexivity.
Defined.

(** C3 fails as stated: the second sensor clears while the first still
    reads on; the presence state becomes false although the OR over the
    sensors is true. *)
Lemma presence_is_not_the_or_of_sensors :
  _presence (step two_sensor_config world_one_sensor_on
               (EvMotion "binary_sensor.m2" (Some "on") (Some "off"))
               (demo_state Auto true))
  <> _any_motion_on two_sensor_config world_one_sensor_on.
Proof. vm_compute. discriminate. Qed.


(** C8 fails as stated: with a default automatic brightness configured the
    second restoration in a row is not a no-op; it sends that brightness to
    the lights again. *)
Lemma second_restore_is_not_a_noop :
  snd (_restore_from_media (media_config (Some 50))
         (snd (_restore_from_media (media_config (Some 50))
                 (snd (_apply_media_dimming (media_config (Some 50)) world_media
                         (demo_state Auto true))))))
  <> snd (_restore_from_media (media_config (Some 50))
            (snd (_apply_media_dimming (media_config (Some 50)) world_media
                    (demo_state Auto true)))).
Proof.
  intros Heq. apply (f_equal (fun s => List.length (trace s))) in Heq.
  vm_compute in Heq. discriminate.
Qed.

Lemma media_dim_capture_and_restore_witness :
  _before_media_brightness_pct
    (snd (_apply_media_dimming (media_config None) world_media
            (snd (_apply_media_dimming (media_config None) world_media
                    (demo_state Auto true)))))
  = [("light.a", Some 80); ("light.b", Some 60)] /\
  _restore_from_media (media_config None)
    (snd (_restore_from_media (media_config None) (demo_state Auto true)))
  = (Ok tt, snd (_restore_from_media (media_config None) (demo_state Auto true))).
Proof.
  pose proof (media_dim_capture_and_restore (media_config None) world_media world_media
                (demo_state Auto true)) as (_ & Hsame & _ & _ & _ & Hnoop & _).
  split.
  - destruct (Hsame eq_refl) as [_ Hmap]. rewrite Hmap. reflexivity.
  - exact (Hnoop eq_refl).
Defined.

(** C2 fails as stated: at 23:30 an [on_off] window blocks OFF, nobody is
    present, and the quick re-automate timer still turns the light off. *)
Lemma reautomation_ignores_off_block :
  ~ (_presence (motion_timer_state false) = false ->
     _automation_allowed (night_config "on_off") world_2330 "off" = false ->
     calls_of (trace (step (night_config "on_off") world_2330 (EvTimer 0)
                        (motion_timer_state false)))
     = calls_of (trace (motion_timer_state false))).
Proof.
  intros Hclaim. specialize (Hclaim eq_refl eq_refl).
  vm_compute in Hclaim. discriminate.
Qed.

Lemma reautomation_outcomes_witness :
  calls_of (trace (snd (_reautomate_from_motion plain_config world_noon
                          (motion_timer_state true))))
  = [("light/turn_on", "light.a")] /\
  calls_of (trace (snd (_reautomate_from_manual_off (night_config "on_off") world_2330
                          (demo_state ManualOff true))))
  = [] /\
  calls_of (trace (snd (_on_button_press plain_config world_noon reauto_press
                          (demo_state ManualOn false))))
  = [("light/turn_off", "light.a")].
Proof.
  split; [|split].
  - pose proof (reautomation_outcomes plain_config world_noon reauto_press
                  (motion_timer_state true)) as ((_ & Hon & _) & _).
    exact (proj2 (Hon eq_refl eq_refl eq_refl)).
  - pose proof (reautomation_outcomes (night_config "on_off") world_2330 reauto_press
                  (demo_state ManualOff true)) as (_ & (_ & _ & Hblocked & _) & _).
    exact (proj2 (Hblocked eq_refl eq_refl)).
  - pose proof (reautomation_outcomes plain_config world_noon reauto_press
                  (demo_state ManualOn false)) as (_ & _ & Hbutton).
    destruct (Hbutton (conj eq_refl (conj eq_refl (or_introl eq_refl)))) as (_ & _ & Hoff).
    exact (proj2 (Hoff eq_refl)).
Defined.

(** C4, evaluated where it fails: after a manual off, a manual on and a
    second manual off, two manual-off re-automation timers are pending. *)
Theorem manual_off_timers_pile_up :
  map t_handle
    (pending is_manual_off_reauto_cb (run plain_config off_on_off (demo_state Auto false)))
  = [0%nat; 2%nat].
Proof. vm_compute. reflexivity. Qed.

End Scenarios.

(** ** Echo guard and own commands *)

Section OwnCommands.
Context `{!PyFloatParser} (cfg : Config) (w : World).

Lemma mark_light_state (state l : string) (s : Ctl) :
  mark_light cfg w state l s =
  (Ok tt,
   set_last_cmd_by_entity (<[l := (state, now_ts w)]> (_last_cmd_by_entity s))
     (set_expected_echo (<[l := marked_echo cfg w state]> (_expected_echo s)) s)).
Proof. reflexivity. Qed.

Lemma mark_loop_outside (state : string) (l : string) (ls : list string) :
  forall s, ~ In l ls ->
    _expected_echo (snd (for_each ls (mark_light cfg w state) s)) !! l
    = _expected_echo s !! l /\
    _last_cmd_by_entity (snd (for_each ls (mark_light cfg w state) s)) !! l
    = _last_cmd_by_entity s !! l.
Proof.
  induction ls as [|x ls IH]; intros s Hnotin; [auto|].
  cbn [for_each]. rewrite (bind_returns _ _ _ _ _ (mark_light_state state x s)).
  destruct (IH (set_last_cmd_by_entity (<[x := (state, now_ts w)]> (_last_cmd_by_entity s))
                  (set_expected_echo (<[x := marked_echo cfg w state]> (_expected_echo s)) s)))
    as [He Hl].
  { intros Hin. apply Hnotin. now right. }
  rewrite He, Hl. simpl.
  assert (Hne : x <> l) by (intros ->; apply Hnotin; now left).
  now rewrite !lookup_insert_ne by exact Hne.
Qed.

Lemma mark_loop_inside (state : string) (l : string) (ls : list string) :
  forall s, In l ls ->
    _expected_echo (snd (for_each ls (mark_light cfg w state) s)) !! l
    = Some (marked_echo cfg w state) /\
    _last_cmd_by_entity (snd (for_each ls (mark_light cfg w state) s)) !! l
    = Some (state, now_ts w).
Proof.
  induction ls as [|x ls IH]; intros s Hin; [destruct Hin|].
  cbn [for_each]. rewrite (bind_returns _ _ _ _ _ (mark_light_state state x s)).
  destruct (in_dec string_dec l ls) as [Hlater|Hnot].
  - now apply IH.
  - destruct Hin as [->|Hin]; [|contradiction].
    destruct (mark_loop_outside state l ls
                (set_last_cmd_by_entity (<[l := (state, now_ts w)]> (_last_cmd_by_entity s))
                   (set_expected_echo (<[l := marked_echo cfg w state]> (_expected_echo s)) s))
                Hnot) as [He Hl].
    rewrite He, Hl. simpl. now rewrite !lookup_insert_eq.
Qed.

Lemma mark_expected_echo_lookup (state l : string) (s : Ctl) :
  In l (_lights cfg) ->
  _expected_echo (snd (_mark_expected_echo cfg w state s)) !! l
  = Some (marked_echo cfg w state) /\
  _last_cmd_by_entity (snd (_mark_expected_echo cfg w state s)) !! l
  = Some (state, now_ts w).
Proof. intros Hin. exact (mark_loop_inside state l (_lights cfg) s Hin). Qed.

Lemma mark_expected_echo_returns (state : string) (s : Ctl) :
  fst (_mark_expected_echo cfg w state s) = Ok tt.
Proof.
  change (_mark_expected_echo cfg w state)
    with (for_each (_lights cfg) (mark_light cfg w state)).
  generalize (_lights cfg) as ls. intros ls. revert s.
  induction ls as [|x ls IH]; intros s; [reflexivity|].
  cbn [for_each]. rewrite (bind_returns _ _ _ _ _ (mark_light_state state x s)). apply IH.
Qed.

Lemma turn_off_marks (reason l : string) (s : Ctl) :
  In l (_lights cfg) ->
  _expected_echo (snd (_turn_off cfg w reason s)) !! l = Some (marked_echo cfg w "off") /\
  _last_cmd_by_entity (snd (_turn_off cfg w reason s)) !! l = Some ("off", now_ts w).
Proof.
  intros Hin. unfold _turn_off.
  rewrite (bind_preserved _expected_echo) by (intros ?; frame).
  rewrite (bind_preserved _last_cmd_by_entity) by (intros ?; frame).
  now apply mark_expected_echo_lookup.
Qed.

Lemma turn_on_marks (reason l : string) (s : Ctl) :
  In l (_lights cfg) ->
  _expected_echo (snd (_turn_on cfg w reason s)) !! l = Some (marked_echo cfg w "on") /\
  _last_cmd_by_entity (snd (_turn_on cfg w reason s)) !! l = Some ("on", now_ts w).
Proof.
  intros Hin. unfold _turn_on.
  rewrite (bind_preserved _expected_echo) by (intros ?; frame).
  rewrite (bind_preserved _last_cmd_by_entity) by (intros ?; frame).
  now apply mark_expected_echo_lookup.
Qed.

(** X1: whether [_turn_on] returns or raises part-way, and after
    [_turn_off], every light of the group holds a fresh, unacknowledged
    echo expectation for the commanded state and the command is recorded
    as its last command at the current time; the expectation expires no
    later than the echo window and no later than the maximal window. *)
Theorem commands_mark_every_light (reason l : string) (s : Ctl) :
  In l (_lights cfg) ->
  _expected_echo (snd (_turn_on cfg w reason s)) !! l = Some (marked_echo cfg w "on") /\
  _last_cmd_by_entity (snd (_turn_on cfg w reason s)) !! l = Some ("on", now_ts w) /\
  _expected_echo (snd (_turn_off cfg w reason s)) !! l = Some (marked_echo cfg w "off") /\
  _last_cmd_by_entity (snd (_turn_off cfg w reason s)) !! l = Some ("off", now_ts w) /\
  (forall state,
     (until (marked_echo cfg w state) <= now_ts w + _echo_window cfg)%Q /\
     (until (marked_echo cfg w state) <= now_ts w + _echo_max_window cfg)%Q).
Proof.
  intros Hin.
  destruct (turn_on_marks reason l s Hin) as [H1 H2].
  destruct (turn_off_marks reason l s Hin) as [H3 H4].
  repeat (split; [assumption|]).
  intros state. simpl. split; [apply Q.le_min_l | apply Q.le_min_r].
Qed.

End OwnCommands.

Section OwnEchoes.
Context `{!PyFloatParser} (cfg : Config).

Lemma turn_off_keeps_mode (w : World) (reason : string) :
  preserves _mode (_turn_off cfg w reason).
Proof. unfold _turn_off. frame. Qed.

Lemma turn_on_keeps_mode (w : World) (reason : string) :
  preserves _mode (_turn_on cfg w reason).
Proof. unfold _turn_on. frame. Qed.

Lemma marked_report_is_ignored (w' : World) (l state : string) (old new : option string)
    (until0 : Q) (s1 : Ctl) :
  _expected_echo s1 !! l = Some {| until := until0; expected := state; logged := false |} ->
  Qgt_bool (now_ts w') until0 = false ->
  echo_matches {| until := until0; expected := state; logged := false |} old new = true ->
  _mode (step cfg w' (EvLightPower l old new) s1) = _mode s1 /\
  calls_of (trace (step cfg w' (EvLightPower l old new) s1)) = calls_of (trace s1).
Proof.
  intros Hexp Hfresh Hmatch.
  rewrite (light_power_expected_echo cfg w' l old new s1 _ Hexp Hfresh Hmatch).
  destruct (Qlt_bool (now_ts w' - _started_ts s1) (_boot_grace cfg)); [auto|].
  simpl. split; [reflexivity|]. rewrite calls_of_app. simpl. apply app_nil_r.
Qed.

(** X2: the state report that answers the controller's own command is not
    taken for a manual action: after [_turn_off], an on-to-off report for
    any light of the group that arrives before the expectation expires
    leaves the mode as it was and sends no command; likewise an off-to-on
    report after [_turn_on]. *)
Theorem own_echo_is_not_manual
    (w w' : World) (reason l : string) (old new : option string) (s : Ctl) :
  In l (_lights cfg) ->
  Qgt_bool (now_ts w') (until (marked_echo cfg w "off")) = false ->
  (is_on old = true -> is_on new = false ->
   _mode (step cfg w' (EvLightPower l old new) (snd (_turn_off cfg w reason s))) = _mode s /\
   calls_of (trace (step cfg w' (EvLightPower l old new) (snd (_turn_off cfg w reason s))))
   = calls_of (trace (snd (_turn_off cfg w reason s)))) /\
  (is_on old = false -> is_on new = true ->
   _mode (step cfg w' (EvLightPower l old new) (snd (_turn_on cfg w reason s))) = _mode s /\
   calls_of (trace (step cfg w' (EvLightPower l old new) (snd (_turn_on cfg w reason s))))
   = calls_of (trace (snd (_turn_on cfg w reason s)))).
Proof.
  intros Hin Hfresh. split; intros Hold Hnew.
  - destruct (turn_off_marks cfg w reason l s Hin) as [Hexp _].
    rewrite <- (turn_off_keeps_mode w reason s).
    apply (marked_report_is_ignored w' l "off" old new _ _ Hexp Hfresh).
    unfold echo_matches. simpl. now rewrite Hold, Hnew.
  - destruct (turn_on_marks cfg w reason l s Hin) as [Hexp _].
    rewrite <- (turn_on_keeps_mode w reason s).
    apply (marked_report_is_ignored w' l "on" old new _ _ Hexp Hfresh).
    unfold echo_matches. simpl. now rewrite Hold, Hnew.
Qed.

Lemma recent_command_ignores_attr (w' : World) (l attribute state : string)
    (old new : pyval) (ts : Q) (s1 : Ctl) :
  _last_cmd_by_entity s1 !! l = Some (state, ts) ->
  Qle_bool (now_ts w' - ts) (Qmax (_echo_window cfg) 3) = true ->
  step cfg w' (EvLightAttr l attribute old new) s1 = s1.
Proof.
  intros Hlast Hrecent. unfold step, handle, _on_light_attr. rewrite bind_gets.
  destruct (Qlt_bool (now_ts w' - _started_ts s1) (_boot_grace cfg)); [reflexivity|].
  rewrite bind_gets. unfold _recent_app_change. rewrite Hlast. simpl.
  now rewrite Hrecent.
Qed.

(** X3: brightness and colour reports that land right after the
    controller's own command are dropped: after [_turn_on] or [_turn_off]
    at time t, an attribute report for any light of the group at a time no
    later than t + max(echo_window, 3) leaves the whole state as it is. *)
Theorem attribute_jitter_after_command_is_dropped
    (w w' : World) (reason l attribute : string) (old new : pyval) (s : Ctl) :
  In l (_lights cfg) ->
  Qle_bool (now_ts w' - now_ts w) (Qmax (_echo_window cfg) 3) = true ->
  step cfg w' (EvLightAttr l attribute old new) (snd (_turn_on cfg w reason s))
  = snd (_turn_on cfg w reason s) /\
  step cfg w' (EvLightAttr l attribute old new) (snd (_turn_off cfg w reason s))
  = snd (_turn_off cfg w reason s).
Proof.
  intros Hin Hrecent. split.
  - destruct (turn_on_marks cfg w reason l s Hin) as [_ Hlast].
    exact (recent_command_ignores_attr w' l attribute "on" old new _ _ Hlast Hrecent).
  - destruct (turn_off_marks cfg w reason l s Hin) as [_ Hlast].
    exact (recent_command_ignores_attr w' l attribute "off" old new _ _ Hlast Hrecent).
Qed.

Lemma ignore_without_live_echo (w : World) (entity : string) (old new : option string)
    (s : Ctl) :
  _expected_echo s !! entity = None \/
  (exists exp, _expected_echo s !! entity = Some exp /\
               Qgt_bool (now_ts w) (until exp) = true) ->
  _ignore_if_expected_echo w entity old new s =
  (Ok false, set_expected_echo (delete entity (_expected_echo s)) s).
Proof.
  intros Hdead. unfold _ignore_if_expected_echo. rewrite bind_gets.
  destruct Hdead as [Hnone | (exp & Hsome & Hstale)].
  - rewrite Hnone. unfold ret. f_equal.
    rewrite (delete_id _ _ Hnone). now destruct s.
  - rewrite Hsome, Hstale. reflexivity.
Qed.

(** X4: reports of a light's power during the boot grace change nothing;
    after it, a report that no live echo expectation covers (none stored,
    or one past its expiry, which is evicted) is read as a manual action:
    off-to-on leaves the controller in manual_on, on-to-off in manual_off,
    and a report that does not cross between on and off leaves the mode
    as it was. *)
Theorem uncovered_power_report_is_manual
    (w : World) (entity : string) (old new : option string) (s : Ctl) :
  (Qlt_bool (now_ts w - _started_ts s) (_boot_grace cfg) = true ->
   step cfg w (EvLightPower entity old new) s = s) /\
  (Qlt_bool (now_ts w - _started_ts s) (_boot_grace cfg) = false ->
   (_expected_echo s !! entity = None \/
    (exists exp, _expected_echo s !! entity = Some exp /\
                 Qgt_bool (now_ts w) (until exp) = true)) ->
   _expected_echo (step cfg w (EvLightPower entity old new) s) !! entity = None /\
   (is_on old = false -> is_on new = true ->
    _mode (step cfg w (EvLightPower entity old new) s) = ManualOn) /\
   (is_on old = true -> is_on new = false ->
    _mode (step cfg w (EvLightPower entity old new) s) = ManualOff) /\
   (is_on old = is_on new ->
    _mode (step cfg w (EvLightPower entity old new) s) = _mode s)).
Proof.
  split.
  - intros Hgrace. unfold step, handle, _on_light_power. rewrite bind_gets, Hgrace.
    reflexivity.
  - intros Hgrace Hdead.
    remember (step cfg w (EvLightPower entity old new) s) as s' eqn:Hs'.
    unfold step, handle, _on_light_power in Hs'.
    rewrite bind_gets, Hgrace,
      (bind_returns _ _ _ _ _ (ignore_without_live_echo w entity old new s Hdead)) in Hs'.
    cbv iota in Hs'.
    set (s0 := set_expected_echo (delete entity (_expected_echo s)) s) in *.
    split; [|split; [|split]].
    + subst s'.
      match goal with
      | |- _expected_echo (snd (?m s0)) !! _ = _ =>
          assert (Hp : preserves _expected_echo m) by frame; rewrite (Hp s0)
      end.
      unfold s0. simpl. apply lookup_delete_eq.
    + intros Hold Hnew. subst s'. rewrite Hold, Hnew. simpl.
      rewrite bind_preserved by (intros ?; frame). rewrite bind_gets.
      destruct (_mode s0) eqn:Hm; simpl when.
      * rewrite bind_modify, bind_preserved by (intros ?; frame). reflexivity.
      * simpl. exact Hm.
      * rewrite bind_modify, bind_preserved by (intros ?; frame). reflexivity.
    + intros Hold Hnew. subst s'. rewrite Hold, Hnew. simpl.
      rewrite bind_preserved by (intros ?; frame). rewrite bind_gets.
      destruct (_mode s0) eqn:Hm; simpl when.
      * rewrite bind_modify, bind_preserved by (intros ?; frame). reflexivity.
      * rewrite bind_modify, bind_preserved by (intros ?; frame). reflexivity.
      * simpl. exact Hm.
    + intros Hsame. subst s'. rewrite Hsame.
      rewrite bind_preserved by (intros ?; frame).
      destruct (is_on new); simpl; reflexivity.
Qed.

End OwnEchoes.

(** ** More on block windows *)

Lemma prefix_append (p r : string) : String.prefix p (String.append p r) = true.
Proof.
  induction p as [|c p IH]; simpl; [now destruct r|].
  destruct (ascii_dec c c) as [_|Hne]; [exact IH | contradiction].
Qed.

Lemma contains_append (p r : string) : contains p (String.append p r) = true.
Proof.
  pose proof (prefix_append p r) as Hp.
  destruct (String.append p r); cbn [contains]; now rewrite Hp.
Qed.

Lemma norm_actions_range (val : actions_cfg) (v : string) :
  _norm_actions val = Some v -> v = "on" \/ v = "off" \/ v = "on_off".
Proof.
  destruct val as [|b|s]; simpl; [discriminate | destruct b; [|discriminate] |].
  - intros Hv. injection Hv as <-. auto.
  - destruct (String.eqb_spec (lower (strip s)) "on") as [->|_]; simpl.
    { intros Hv. injection Hv as <-. auto. }
    destruct (String.eqb_spec (lower (strip s)) "off") as [->|_]; simpl.
    { intros Hv. injection Hv as <-. auto. }
    destruct (String.eqb_spec (lower (strip s)) "on_off") as [->|_]; simpl.
    { intros Hv. injection Hv as <-. auto. }
    discriminate.
Qed.

Section FirstMatch.
Context (cfg : Config).

Lemma blocked_by_windows_app (a b : list window) (now_min : Z) (day : string) :
  blocked_by_windows cfg (a ++ b) now_min day =
  match blocked_by_windows cfg a now_min day with
  | Some r => Some r
  | None => blocked_by_windows cfg b now_min day
  end.
Proof.
  induction a as [|w0 a IH]; simpl; [reflexivity|].
  destruct (negb (_within_window (_parse_hhmm (w_start w0)) (_parse_hhmm (w_end w0)) now_min));
    [exact IH|].
  destruct (day_excluded _ day); [exact IH | reflexivity].
Qed.

Lemma blocked_by_single (w0 : window) (now_min : Z) (day : string) (r : bool * option string) :
  blocked_by_windows cfg [w0] now_min day = Some r ->
  r = (true,
       Some (String.append (window_actions cfg w0) (String.append " "
              (String.append (str_of (w_start w0))
                 (String.append "-" (str_of (w_end w0))))))).
Proof.
  simpl.
  destruct (negb (_within_window (_parse_hhmm (w_start w0)) (_parse_hhmm (w_end w0)) now_min));
    [discriminate|].
  destruct (day_excluded _ day); [discriminate|].
  intros Hr. injection Hr as <-. reflexivity.
Qed.

Lemma norm_actions_known (a : string) :
  known_actions (lower (strip a)) -> _norm_actions (AStr a) = Some (lower (strip a)).
Proof.
  unfold known_actions. simpl. intros [-> | [-> | ->]]; reflexivity.
Qed.

Lemma norm_actions_unknown (a : string) :
  ~ known_actions (lower (strip a)) -> _norm_actions (AStr a) = None.
Proof.
  unfold known_actions. intros Hno. simpl.
  destruct (String.eqb_spec (lower (strip a)) "on") as [He|_]; [tauto|].
  destruct (String.eqb_spec (lower (strip a)) "off") as [He|_]; [tauto|].
  destruct (String.eqb_spec (lower (strip a)) "on_off") as [He|_]; [tauto|].
  reflexivity.
Qed.

Lemma norm_actions_unset (val : actions_cfg) :
  val = ANone \/ val = ABool false \/
  (exists a, val = AStr a /\ ~ known_actions (lower (strip a))) ->
  _norm_actions val = None.
Proof.
  intros [-> | [-> | (a & -> & Hno)]]; [reflexivity | reflexivity |].
  now apply norm_actions_unknown.
Qed.

(** X5: the action set under which anything is blocked is always one of
    on, off and on_off. A window's own [actions] entry is kept, stripped
    and lowered, when that gives one of the three, and [True] stands for
    on_off; any other entry ([False], absent, another text) falls back to
    [block_actions], which is read the same way and falls back to on_off. *)
Theorem block_actions_are_normalised (w0 : window) :
  (known_actions (_block_actions_default cfg) /\ known_actions (window_actions cfg w0)) /\
  ((forall a, w_actions w0 = AStr a -> known_actions (lower (strip a)) ->
      window_actions cfg w0 = lower (strip a)) /\
   (w_actions w0 = ABool true -> window_actions cfg w0 = "on_off") /\
   (w_actions w0 = ANone \/ w_actions w0 = ABool false \/
    (exists a, w_actions w0 = AStr a /\ ~ known_actions (lower (strip a))) ->
    window_actions cfg w0 = _block_actions_default cfg)) /\
  ((forall a, block_actions cfg = AStr a -> known_actions (lower (strip a)) ->
      _block_actions_default cfg = lower (strip a)) /\
   (block_actions cfg = ABool true -> _block_actions_default cfg = "on_off") /\
   (block_actions cfg = ANone \/ block_actions cfg = ABool false \/
    (exists a, block_actions cfg = AStr a /\ ~ known_actions (lower (strip a))) ->
    _block_actions_default cfg = "on_off")).
Proof.
  assert (Hdef : known_actions (_block_actions_default cfg)).
  { unfold _block_actions_default.
    destruct (_norm_actions (block_actions cfg)) as [v|] eqn:Hv; simpl.
    - exact (norm_actions_range _ _ Hv).
    - right. right. reflexivity. }
  split; [split; [exact Hdef|]|split].
  - unfold window_actions.
    destruct (_norm_actions (w_actions w0)) as [v|] eqn:Hv; simpl; [|exact Hdef].
    exact (norm_actions_range _ _ Hv).
  - unfold window_actions. split; [|split].
    + intros a -> Hknown. now rewrite (norm_actions_known a Hknown).
    + now intros ->.
    + intros Hunset. now rewrite (norm_actions_unset _ Hunset).
  - unfold _block_actions_default. split; [|split].
    + intros a -> Hknown. now rewrite (norm_actions_known a Hknown).
    + now intros ->.
    + intros Hunset. now rewrite (norm_actions_unset _ Hunset).
Qed.

Lemma blocked_now_at_match
    (w : World) (pre post : list window) (w0 : window) (r : bool * option string) :
  _block_windows cfg = (pre ++ w0 :: post)%list ->
  blocked_by_windows cfg pre (fst (_now_minutes_and_day w)) (snd (_now_minutes_and_day w))
  = None ->
  blocked_by_windows cfg [w0] (fst (_now_minutes_and_day w)) (snd (_now_minutes_and_day w))
  = Some r ->
  _blocked_now cfg w = r.
Proof.
  intros Hws Hpre Hw0. unfold _blocked_now.
  destruct (_now_minutes_and_day w) as [now_min day] eqn:Hnow. cbn [fst snd] in Hpre, Hw0.
  rewrite Hws, blocked_by_windows_app, Hpre.
  change (w0 :: post) with ([w0] ++ post)%list.
  now rewrite blocked_by_windows_app, Hw0.
Qed.

(** X6: the windows are tried in their configured order and the first one
    that contains the time and admits the weekday decides: the windows
    before it count for nothing, the windows after it and the legacy
    quiet pair are not consulted, and its action set opens the reason
    text. The legacy pair decides only when no window matches. *)
Theorem first_matching_window_decides
    (w : World) (pre post : list window) (w0 : window) (r : bool * option string) :
  _block_windows cfg = (pre ++ w0 :: post)%list ->
  blocked_by_windows cfg pre (fst (_now_minutes_and_day w)) (snd (_now_minutes_and_day w))
  = None ->
  blocked_by_windows cfg [w0] (fst (_now_minutes_and_day w)) (snd (_now_minutes_and_day w))
  = Some r ->
  _blocked_now cfg w = r /\
  r = (true,
       Some (String.append (window_actions cfg w0) (String.append " "
              (String.append (str_of (w_start w0))
                 (String.append "-" (str_of (w_end w0))))))).
Proof.
  intros Hws Hpre Hw0. split.
  - exact (blocked_now_at_match w pre post w0 r Hws Hpre Hw0).
  - exact (blocked_by_single w0 _ _ r Hw0).
Qed.

(** X7: when the deciding window blocks on_off, the automation-allowed
    check refuses both actions, whatever else is configured. *)
Theorem on_off_window_blocks_both
    (w : World) (pre post : list window) (w0 : window) (r : bool * option string)
    (action : string) :
  _block_windows cfg = (pre ++ w0 :: post)%list ->
  blocked_by_windows cfg pre (fst (_now_minutes_and_day w)) (snd (_now_minutes_and_day w))
  = None ->
  blocked_by_windows cfg [w0] (fst (_now_minutes_and_day w)) (snd (_now_minutes_and_day w))
  = Some r ->
  window_actions cfg w0 = "on_off" ->
  _automation_allowed cfg w action = false.
Proof.
  intros Hws Hpre Hw0 Hact.
  pose proof (blocked_now_at_match w pre post w0 r Hws Hpre Hw0) as Hnow.
  rewrite (blocked_by_single w0 _ _ r Hw0) in Hnow.
  apply (automation_allowed_on_off cfg w action _ Hnow).
  rewrite Hact. apply contains_append.
Qed.

End FirstMatch.

(** X8: two windows with swapped bounds split the day: for different
    start and end, a time is in the window from start to end exactly when
    it is not in the window from end to start. *)
Theorem swapped_window_is_the_complement (s e now : Z) :
  s <> e ->
  _within_window (Some s) (Some e) now = negb (_within_window (Some e) (Some s) now).
Proof.
  intros Hne.
  destruct (_within_window (Some s) (Some e) now) eqn:H1;
    destruct (_within_window (Some e) (Some s) now) eqn:H2; try reflexivity; exfalso.
  - apply within_window_iff in H1. apply within_window_iff in H2. lia.
  - assert (N1 : ~ ((s < e /\ s <= now < e) \/ (e < s /\ (s <= now \/ now < e))))
      by (rewrite <- within_window_iff; congruence).
    assert (N2 : ~ ((e < s /\ e <= now < s) \/ (s < e /\ (e <= now \/ now < s))))
      by (rewrite <- within_window_iff; congruence).
    lia.
Qed.

(** ** What each kind of event leaves alone *)

Section EventFrames.
Context `{!PyFloatParser} (cfg : Config) (w : World).

Lemma run_callback_keeps_presence (cb : callback) :
  preserves _presence (run_callback cfg w cb).
Proof.
  destruct cb; simpl;
    unfold _reautomate_from_motion, _reautomate_from_manual_off; frame.
Qed.

Lemma run_callback_keeps_media_playing (cb : callback) :
  preserves _media_playing (run_callback cfg w cb).
Proof.
  destruct cb; simpl;
    unfold _reautomate_from_motion, _reautomate_from_manual_off; frame.
Qed.

Lemma fire_timer_keeps_presence (h : nat) : preserves _presence (fire_timer cfg w h).
Proof.
  unfold fire_timer. apply preserves_bind; [frame | intros ts].
  destruct (List.find _ ts); [|frame].
  apply preserves_bind; [frame | intros _; apply run_callback_keeps_presence].
Qed.

Lemma fire_timer_keeps_media_playing (h : nat) :
  preserves _media_playing (fire_timer cfg w h).
Proof.
  unfold fire_timer. apply preserves_bind; [frame | intros ts].
  destruct (List.find _ ts); [|frame].
  apply preserves_bind; [frame | intros _; apply run_callback_keeps_media_playing].
Qed.

(** X9: each kind of event touches only its own part of the controller:
    presence, lux and media reports never change the mode; only a
    presence report changes the presence state; only a media report
    changes the media-playing flag; and nothing ever changes the start
    time the boot grace is counted from. *)
Theorem events_touch_only_their_own_state (ev : event) (s : Ctl) :
  (match ev with
   | EvMotion _ _ _ | EvLux _ _ _ | EvMedia _ _ _ => _mode (step cfg w ev s) = _mode s
   | _ => True
   end) /\
  (match ev with
   | EvMotion _ _ _ => True
   | _ => _presence (step cfg w ev s) = _presence s
   end) /\
  (match ev with
   | EvMedia _ _ _ => True
   | _ => _media_playing (step cfg w ev s) = _media_playing s
   end) /\
  _started_ts (step cfg w ev s) = _started_ts s.
Proof.
  unfold step.
  split; [|split; [|split]].
  - destruct ev; simpl; trivial;
      match goal with
      | |- _mode (snd (?m s)) = _ => enough (Hp : preserves _mode m) by apply Hp
      end;
      unfold _on_motion, _on_lux_changed, _on_media_state; frame.
  - destruct ev; simpl; trivial;
      match goal with
      | |- _presence (snd (?m s)) = _ => enough (Hp : preserves _presence m) by apply Hp
      end;
      try apply fire_timer_keeps_presence;
      unfold _on_light_power, _on_light_attr, _on_lux_changed, _on_media_state,
        _on_button_press; frame.
  - destruct ev; simpl; trivial;
      match goal with
      | |- _media_playing (snd (?m s)) = _ =>
          enough (Hp : preserves _media_playing m) by apply Hp
      end;
      try apply fire_timer_keeps_media_playing;
      unfold _on_motion, _on_light_power, _on_light_attr, _on_lux_changed,
        _on_button_press; frame.
  - match goal with
    | |- _started_ts (snd (?m s)) = _ => enough (Hp : preserves _started_ts m) by apply Hp
    end.
    destruct ev; simpl;
      unfold _on_motion, _on_light_power, _on_light_attr, _on_lux_changed,
        _on_media_state, _on_button_press, fire_timer; frame;
      match goal with
      | |- preserves _ (run_callback _ _ ?cb) =>
          destruct cb; simpl;
          unfold _reautomate_from_motion, _reautomate_from_manual_off; frame
      end.
Qed.

End EventFrames.

(** ** Handlers and the commands they send *)

Lemma bind_then_modify (m : M unit) (g : Ctl -> Ctl) (s : Ctl) :
  fst (m s) = Ok tt -> bind m (fun _ => modify g) s = (Ok tt, g (snd (m s))).
Proof.
  intros Hok. unfold bind.
  destruct (m s) as [[[]|] s1]; simpl in *; [reflexivity | discriminate].
Qed.

Lemma sends_run_in (cb : callback) (d : Q) : sends (run_in cb d) [].
Proof. intros s. simpl. rewrite app_nil_r. eauto. Qed.

Ltac quiet_timers := repeat first [quiet_step | apply sends_run_in].

Section HandlerCommands.
Context `{!PyFloatParser} (cfg : Config) (w : World).

Lemma auto_off_elapsed_sends (s : Ctl) :
  fst (_auto_off_elapsed cfg w s) = Ok tt /\
  _off_timer (snd (_auto_off_elapsed cfg w s)) = None /\
  calls_of (trace (snd (_auto_off_elapsed cfg w s)))
  = (calls_of (trace s) ++
     if is_auto (_mode s) && negb (_presence s) && _automation_allowed cfg w "off"
     then off_calls cfg else [])%list.
Proof.
  unfold _auto_off_elapsed. rewrite bind_gets. cbv beta. unfold id.
  set (body := when (is_auto (_mode s) && negb (_presence s))
                 (if _automation_allowed cfg w "off"
                  then _logx (Msg "Auto-off timer elapsed; turning light off.") "INFO" >>
                       _turn_off cfg w "auto_off"
                  else _logx (Msg "Auto-off elapsed but OFF is blocked; keeping lights as-is.")
                         "INFO")).
  assert (Hsends : sends body
            (if is_auto (_mode s) && negb (_presence s) && _automation_allowed cfg w "off"
             then off_calls cfg else [])).
  { unfold body. destruct (is_auto (_mode s) && negb (_presence s)); simpl.
    - destruct (_automation_allowed cfg w "off").
      + apply sends_quiet_then; [quiet | intros _; apply turn_off_sends].
      + quiet.
    - apply sends_ret. }
  destruct (sends_from body _ s Hsends) as [Hok Hcalls].
  rewrite (bind_then_modify body _ s Hok). simpl.
  split; [reflexivity|]. split; [reflexivity | exact Hcalls].
Qed.

(** X10: when the auto-off timer fires, the lights are turned off only if
    the controller is still in auto, nobody is present and OFF is not
    blocked; in every other case nothing is sent. Either way the handler
    returns, keeps the mode and forgets the timer handle. *)
Theorem auto_off_fires_only_when_idle (s : Ctl) :
  fst (_auto_off_elapsed cfg w s) = Ok tt /\
  _off_timer (snd (_auto_off_elapsed cfg w s)) = None /\
  _mode (snd (_auto_off_elapsed cfg w s)) = _mode s /\
  (is_auto (_mode s) && negb (_presence s) && _automation_allowed cfg w "off" = true ->
   calls_of (trace (snd (_auto_off_elapsed cfg w s)))
   = (calls_of (trace s) ++ off_calls cfg)%list) /\
  (is_auto (_mode s) && negb (_presence s) && _automation_allowed cfg w "off" = false ->
   calls_of (trace (snd (_auto_off_elapsed cfg w s))) = calls_of (trace s)).
Proof.
  destruct (auto_off_elapsed_sends s) as (Hok & Hoff & Hcalls).
  assert (Hmode : preserves _mode (_auto_off_elapsed cfg w)) by frame.
  split; [exact Hok|]. split; [exact Hoff|]. split; [apply Hmode|].
  split; intros Hc; rewrite Hc in Hcalls; [exact Hcalls|].
  now rewrite app_nil_r in Hcalls.
Qed.

Lemma bind_ok {A B} (m : M A) (k : A -> M B) (a : A) (s : Ctl) :
  fst (m s) = Ok a -> bind m k s = k a (snd (m s)).
Proof. intros Hok. unfold bind. destruct (m s) as [r s1]. simpl in *. now subst r. Qed.

(** A step that always returns and sends nothing can be skipped when
    counting commands. *)
Lemma quiet_prefix {B} (m : M unit) (k : unit -> M B) (s : Ctl) :
  sends m [] ->
  bind m k s = k tt (snd (m s)) /\ calls_of (trace (snd (m s))) = calls_of (trace s).
Proof.
  intros Hm. destruct (sends_nothing_from m s Hm) as [Hok Hc].
  split; [now apply bind_ok | exact Hc].
Qed.

Lemma on_motion_manual (entity attribute : string) (old new : option string) (s : Ctl) :
  is_auto (_mode s) = false ->
  fst (_on_motion cfg w entity attribute old new s) = Ok tt /\
  calls_of (trace (snd (_on_motion cfg w entity attribute old new s))) = calls_of (trace s).
Proof.
  intros Hmanual. unfold _on_motion. rewrite bind_modify, bind_gets.
  set (s1 := set_presence (is_occupied new) s).
  match goal with
  | |- context [bind (when ?c ?blk) ?k s1] =>
      destruct (quiet_prefix (when c blk) k s1) as [Hbind Hcalls];
      [quiet_timers|];
      assert (Hmode : _mode (snd (when c blk s1)) = _mode s1)
        by (assert (Hp : preserves _mode (when c blk)) by frame; apply Hp);
      rewrite Hbind
  end.
  rewrite bind_gets, Hmode.
  change (is_auto (_mode s1)) with (is_auto (_mode s)). rewrite Hmanual.
  unfold negb. cbv iota.
  match goal with
  | |- context [publish w ?s2] =>
      destruct (sends_nothing_from (publish w) s2 (publish_quiet w)) as [Hok Hc]
  end.
  split; [exact Hok|]. rewrite Hc, Hcalls. reflexivity.
Qed.

Lemma on_lux_changed_manual (entity attribute : string) (old new : option string) (s : Ctl) :
  is_auto (_mode s) = false ->
  fst (_on_lux_changed cfg w entity attribute old new s) = Ok tt /\
  calls_of (trace (snd (_on_lux_changed cfg w entity attribute old new s)))
  = calls_of (trace s).
Proof.
  intros Hmanual.
  remember (_on_lux_changed cfg w entity attribute old new s) as r eqn:Hr.
  unfold _on_lux_changed in Hr. unfold _logx at 1 in Hr. unfold emit at 1 in Hr.
  rewrite bind_modify, bind_gets in Hr. unfold id in Hr.
  match type of Hr with
  | context [is_auto (_mode ?s1)] =>
      change (is_auto (_mode s1)) with (is_auto (_mode s)) in Hr
  end.
  rewrite Hmanual in Hr. simpl andb in Hr. simpl when in Hr.
  match type of Hr with
  | context [bind (ret tt) ?k ?s1] => change (bind (ret tt) k s1) with (k tt s1) in Hr
  end.
  cbv beta in Hr. subst r.
  match goal with
  | |- context [publish w ?s2] =>
      destruct (sends_nothing_from (publish w) s2 (publish_quiet w)) as [Hok Hc]
  end.
  split; [exact Hok|]. rewrite Hc. simpl. rewrite calls_of_app. simpl. apply app_nil_r.
Qed.

Lemma on_media_state_manual (entity attribute : string) (old new : option string) (s : Ctl) :
  is_auto (_mode s) = false ->
  fst (_on_media_state cfg w entity attribute old new s) = Ok tt /\
  calls_of (trace (snd (_on_media_state cfg w entity attribute old new s)))
  = calls_of (trace s).
Proof.
  intros Hmanual.
  remember (_on_media_state cfg w entity attribute old new s) as r eqn:Hr.
  unfold _on_media_state in Hr. unfold _logx at 1 in Hr. unfold emit at 1 in Hr.
  rewrite !bind_modify, bind_gets in Hr.
  match type of Hr with
  | context [is_auto (_mode ?s1)] =>
      change (is_auto (_mode s1)) with (is_auto (_mode s)) in Hr
  end.
  rewrite Hmanual in Hr. unfold negb in Hr. cbv iota in Hr. subst r.
  match goal with
  | |- context [publish w ?s2] =>
      destruct (sends_nothing_from (publish w) s2 (publish_quiet w)) as [Hok Hc]
  end.
  split; [exact Hok|]. rewrite Hc. simpl. rewrite calls_of_app. simpl. apply app_nil_r.
Qed.

(** X11: while the controller is in manual_on or manual_off, presence,
    lux and media-player reports are handled to the end without sending
    any command to a light. *)
Theorem manual_mode_sends_no_command (ev : event) (s : Ctl) :
  is_auto (_mode s) = false ->
  match ev with
  | EvMotion _ _ _ | EvLux _ _ _ | EvMedia _ _ _ =>
      fst (handle cfg w ev s) = Ok tt /\
      calls_of (trace (step cfg w ev s)) = calls_of (trace s)
  | _ => True
  end.
Proof.
  intros Hmanual. unfold step. destruct ev; simpl; trivial.
  - now apply on_motion_manual.
  - now apply on_lux_changed_manual.
  - now apply on_media_state_manual.
Qed.

End HandlerCommands.

(** ** Presence reports while in auto *)

Lemma filter_none {A} (P : A -> bool) (l : list A) :
  (forall x, In x l -> P x = false) -> List.filter P l = [].
Proof.
  induction l as [|a l IH]; simpl; intros Hnone; [reflexivity|].
  rewrite (Hnone a) by now left. apply IH. intros x Hin. apply Hnone. now right.
Qed.

Lemma find_fresh_handle (ts : list timer) (t : timer) :
  (forall x, In x ts -> t_handle x <> t_handle t) ->
  List.find (fun x => Nat.eqb (t_handle x) (t_handle t)) (ts ++ [t]) = Some t.
Proof.
  induction ts as [|a ts IH]; simpl; intros Hfresh.
  - now rewrite Nat.eqb_refl.
  - destruct (Nat.eqb_spec (t_handle a) (t_handle t)) as [Heq|_].
    + exfalso. apply (Hfresh a); [now left | exact Heq].
    + apply IH. intros x Hin. apply Hfresh. now right.
Qed.

Section MotionInAuto.
Context `{!PyFloatParser} (cfg : Config) (w : World).

Lemma auto_mode (s : Ctl) : is_auto (_mode s) = true -> _mode s = Auto.
Proof. destruct (_mode s); simpl; congruence. Qed.

Lemma on_motion_auto_arrival (entity attribute : string) (old new : option string) (s : Ctl) :
  is_auto (_mode s) = true -> is_occupied new = true ->
  _on_motion cfg w entity attribute old new s =
  (if negb (_automation_allowed cfg w "on") then
     _logx (Msg "Motion but automation is blocked now; ignoring ON.") "INFO" >> publish w
   else
     (if _is_dark_enough cfg w then
        if negb (_any_light_on cfg w) then _turn_on cfg w "motion"
        else
          let* playing := gets _media_playing in
          when (playing && bool_decide (is_Some (_media_dim_brightness_pct cfg)))
            (_apply_media_dimming cfg w)
      else _logx (Msg "Motion but not dark; leaving lights as-is.") "INFO") >>
     publish w)
    (snd (_cancel_timer_safe (_off_timer s) (set_presence true s))).
Proof.
  intros Hauto Hocc. apply auto_mode in Hauto.
  unfold _on_motion. rewrite Hocc, bind_modify, bind_gets.
  change (_mode (set_presence true s)) with (_mode s). rewrite Hauto.
  cbn [is_manual_on andb when]. rewrite bind_ret, bind_gets.
  change (_mode (set_presence true s)) with (_mode s). rewrite Hauto.
  cbn [is_auto negb]. rewrite bind_gets.
  rewrite (bind_returns _ _ _ _ _ (cancel_timer_safe_state _ _)).
  rewrite cancel_timer_safe_state. reflexivity.
Qed.

Lemma on_motion_auto_cleared (entity attribute : string) (old new : option string) (s : Ctl) :
  is_auto (_mode s) = true -> is_occupied new = false ->
  _on_motion cfg w entity attribute old new s =
  (when (negb (_any_motion_on cfg w))
     (if _automation_allowed cfg w "off" then _schedule_off cfg
      else _logx (Msg "Motion cleared but OFF is blocked now; leaving lights as-is.") "INFO") >>
   publish w)
    (set_presence false s).
Proof.
  intros Hauto Hocc. apply auto_mode in Hauto.
  unfold _on_motion. rewrite Hocc, bind_modify, bind_gets.
  change (_mode (set_presence false s)) with (_mode s). rewrite Hauto.
  cbn [is_manual_on andb when]. rewrite bind_ret, bind_gets.
  change (_mode (set_presence false s)) with (_mode s). rewrite Hauto.
  reflexivity.
Qed.

(** X12: a presence report of an occupied value while in auto turns every
    light on exactly when ON is allowed, it is dark enough and no light of
    the group is on; when ON is blocked or it is not dark it sends no
    command. Either way no auto-off timer is left pending. *)
Theorem arrival_in_auto_turns_on_when_allowed
    (entity : string) (old new : option string) (s : Ctl) :
  is_auto (_mode s) = true -> is_occupied new = true ->
  (_automation_allowed cfg w "on" && _is_dark_enough cfg w && negb (_any_light_on cfg w) = true ->
   al_targets_usable cfg w = true ->
   fst (handle cfg w (EvMotion entity old new) s) = Ok tt /\
   calls_of (trace (step cfg w (EvMotion entity old new) s))
   = (calls_of (trace s) ++ on_calls cfg)%list) /\
  (_automation_allowed cfg w "on" && _is_dark_enough cfg w = false ->
   fst (handle cfg w (EvMotion entity old new) s) = Ok tt /\
   calls_of (trace (step cfg w (EvMotion entity old new) s)) = calls_of (trace s)) /\
  (timers_tracked s -> none_pending is_auto_off_cb (step cfg w (EvMotion entity old new) s)).
Proof.
  intros Hauto Hocc. unfold step, handle.
  rewrite (on_motion_auto_arrival entity "state" old new s Hauto Hocc).
  rewrite cancel_timer_safe_state. cbn [snd].
  set (s1 := set_timers _ (set_presence true s)).
  assert (Htr : calls_of (trace s1) = calls_of (trace s)) by reflexivity.
  rewrite <- Htr. split; [|split].
  - intros Hgo Husable.
    apply andb_true_iff in Hgo. destruct Hgo as [Hgo Hnolight].
    apply andb_true_iff in Hgo. destruct Hgo as [Hallowed Hdark].
    rewrite Hallowed, Hdark, Hnolight. cbn [negb]. apply sends_from.
    apply sends_then_quiet; [now apply turn_on_sends | intros _; apply publish_quiet].
  - intros Hstop. apply sends_nothing_from.
    destruct (_automation_allowed cfg w "on"); cbn [negb].
    + simpl in Hstop. rewrite Hstop.
      apply sends_quiet_then; [quiet | intros _; apply publish_quiet].
    + apply sends_quiet_then; [quiet | intros _; apply publish_quiet].
  - intros Hs.
    match goal with
    | |- none_pending _ (snd (?m s1)) =>
        assert (Hp : preserves timers m)
    end.
    { destruct (negb (_automation_allowed cfg w "on")); [frame|].
      unfold _turn_on, _apply_media_dimming, dim_one. frame. }
    intros t. rewrite (Hp s1). unfold s1. cbn [timers set_timers].
    now apply (cancelled_auto_off _ _ _ _ _ Hs).
Qed.

(** X13: a presence report of an unoccupied value while in auto never sends
    a command. When no presence sensor still reads occupied and OFF is
    allowed it cancels the remembered auto-off timer and schedules a new
    one after [delay_off], which is then the only pending auto-off timer;
    otherwise the timers stay as they are. *)
Theorem departure_in_auto_schedules_auto_off
    (entity : string) (old new : option string) (s : Ctl) :
  is_auto (_mode s) = true -> is_occupied new = false ->
  fst (handle cfg w (EvMotion entity old new) s) = Ok tt /\
  calls_of (trace (step cfg w (EvMotion entity old new) s)) = calls_of (trace s) /\
  (negb (_any_motion_on cfg w) && _automation_allowed cfg w "off" = true ->
   _off_timer (step cfg w (EvMotion entity old new) s) = Some (next_handle s) /\
   (timers_tracked s ->
    pending is_auto_off_cb (step cfg w (EvMotion entity old new) s)
    = [{| t_handle := next_handle s; t_cb := CbAutoOff; t_delay := _delay_off cfg |}])) /\
  (negb (_any_motion_on cfg w) && _automation_allowed cfg w "off" = false ->
   timer_view (step cfg w (EvMotion entity old new) s) = timer_view s).
Proof.
  intros Hauto Hocc. unfold step, handle.
  rewrite (on_motion_auto_cleared entity "state" old new s Hauto Hocc).
  set (s1 := set_presence false s).
  split; [|split; [|split]].
  - apply sends_nothing_from.
    apply sends_quiet_then; [|intros _; apply publish_quiet].
    unfold _schedule_off. quiet_timers.
  - change (calls_of (trace s)) with (calls_of (trace s1)). apply sends_nothing_from.
    apply sends_quiet_then; [|intros _; apply publish_quiet].
    unfold _schedule_off. quiet_timers.
  - intros Hgo. apply andb_true_iff in Hgo. destruct Hgo as [Hnone Hallowed].
    rewrite Hnone, Hallowed. cbn [when].
    rewrite (bind_preserved _off_timer) by (intros ?; frame).
    rewrite (bind_preserved (pending is_auto_off_cb)) by (intros ?; unfold pending; frame).
    unfold _schedule_off.
    rewrite bind_gets, (bind_returns _ _ _ _ _ (cancel_timer_safe_state _ s1)), bind_run_in.
    rewrite bind_modify. unfold _logx, emit, modify. cbn [snd].
    split; [reflexivity|]. intros Hs. unfold pending. cbn [timers set_timers set_trace
      set_off_timer set_next_handle set_presence s1].
    rewrite List.filter_app. cbn [List.filter t_cb is_auto_off_cb].
    rewrite filter_none; [reflexivity|].
    intros t. now apply (cancelled_auto_off _ _ _ _ _ Hs).
  - intros Hstay.
    match goal with
    | |- timer_view (snd (?m s1)) = _ => assert (Hp : preserves timer_view m)
    end.
    { destruct (negb (_any_motion_on cfg w)); cbn [when]; [|frame].
      simpl in Hstay. rewrite Hstay. frame. }
    rewrite (Hp s1). reflexivity.
Qed.

Lemma departure_state (entity : string) (old new : option string) (s : Ctl) :
  is_auto (_mode s) = true -> is_occupied new = false ->
  negb (_any_motion_on cfg w) && _automation_allowed cfg w "off" = true ->
  timers (step cfg w (EvMotion entity old new) s)
  = (match _off_timer s with
     | Some h => List.filter (fun t => negb (Nat.eqb (t_handle t) h)) (timers s)
     | None => timers s
     end ++ [{| t_handle := next_handle s; t_cb := CbAutoOff; t_delay := _delay_off cfg |}])%list /\
  _mode (step cfg w (EvMotion entity old new) s) = Auto /\
  _presence (step cfg w (EvMotion entity old new) s) = false /\
  calls_of (trace (step cfg w (EvMotion entity old new) s)) = calls_of (trace s).
Proof.
  intros Hauto Hocc Hgo. pose proof (auto_mode s Hauto) as Hmode.
  unfold step, handle.
  rewrite (on_motion_auto_cleared entity "state" old new s Hauto Hocc).
  apply andb_true_iff in Hgo. destruct Hgo as [Hnone Hallowed].
  rewrite Hnone, Hallowed. cbn [when].
  set (s1 := set_presence false s).
  split; [|split; [|split]].
  - rewrite (bind_preserved timers) by (intros ?; frame).
    unfold _schedule_off.
    rewrite bind_gets, (bind_returns _ _ _ _ _ (cancel_timer_safe_state _ s1)), bind_run_in.
    rewrite bind_modify. reflexivity.
  - rewrite <- Hmode. change (_mode s) with (_mode s1).
    match goal with
    | |- _mode (snd (?m s1)) = _ => assert (Hp : preserves _mode m) by (unfold _schedule_off; frame)
    end.
    apply Hp.
  - change false with (_presence s1).
    match goal with
    | |- _presence (snd (?m s1)) = _ =>
        assert (Hp : preserves _presence m) by (unfold _schedule_off; frame)
    end.
    apply Hp.
  - change (calls_of (trace s)) with (calls_of (trace s1)). apply sends_nothing_from.
    apply sends_quiet_then; [|intros _; apply publish_quiet].
    unfold _schedule_off. quiet_timers.
Qed.

(** X14: the auto-off path end to end. From a state that keeps the timer
    discipline, in auto: the last sensor clears while OFF is allowed, and
    the timer scheduled for it fires while OFF is still allowed and
    nothing happened in between. Then every light is turned off, the
    remembered handle is forgotten and no auto-off timer is pending. *)
Theorem unattended_room_goes_dark
    (w2 : World) (entity : string) (old new : option string) (s : Ctl) :
  timers_tracked s ->
  is_auto (_mode s) = true -> is_occupied new = false ->
  negb (_any_motion_on cfg w) && _automation_allowed cfg w "off" = true ->
  _automation_allowed cfg w2 "off" = true ->
  calls_of (trace (step cfg w2 (EvTimer (next_handle s))
                     (step cfg w (EvMotion entity old new) s)))
  = (calls_of (trace s) ++ off_calls cfg)%list /\
  _off_timer (step cfg w2 (EvTimer (next_handle s))
                (step cfg w (EvMotion entity old new) s)) = None /\
  pending is_auto_off_cb (step cfg w2 (EvTimer (next_handle s))
                            (step cfg w (EvMotion entity old new) s)) = [].
Proof.
  intros Hs Hauto Hocc Hgo Hallowed2.
  destruct (departure_state entity old new s Hauto Hocc Hgo) as (Htimers & Hmode & Hpres & Hcalls).
  set (s1 := step cfg w (EvMotion entity old new) s) in *.
  set (tnew := {| t_handle := next_handle s; t_cb := CbAutoOff; t_delay := _delay_off cfg |}) in *.
  set (rest := match _off_timer s with
               | Some h => List.filter (fun t => negb (Nat.eqb (t_handle t) h)) (timers s)
               | None => timers s
               end) in *.
  assert (Hrest : forall t, In t rest -> In t (timers s)).
  { intros t. unfold rest. destruct (_off_timer s); [|trivial].
    intros Hin. apply List.filter_In in Hin. apply Hin. }
  assert (Hfind : List.find (fun t => Nat.eqb (t_handle t) (next_handle s)) (timers s1)
                  = Some tnew).
  { rewrite Htimers. apply (find_fresh_handle rest tnew).
    intros x Hin. pose proof (handles_issued _ _ _ _ _ Hs x (Hrest x Hin)) as Hlt.
    simpl. lia. }
  unfold step at 1 2 3. unfold handle at 1 2 3. unfold fire_timer.
  rewrite !bind_gets, Hfind. unfold cancel_timer. rewrite !bind_modify.
  cbn [run_callback t_cb tnew].
  set (s2 := set_timers _ s1).
  destruct (auto_off_elapsed_sends cfg w2 s2) as (_ & Hoff & Hsent).
  split; [|split].
  - rewrite Hsent.
    change (_mode s2) with (_mode s1). change (_presence s2) with (_presence s1).
    rewrite Hmode, Hpres, Hallowed2. simpl. now rewrite <- Hcalls.
  - exact Hoff.
  - unfold pending.
    assert (Hp : preserves timers (_auto_off_elapsed cfg w2))
      by (unfold _auto_off_elapsed, _turn_off; frame).
    rewrite (Hp s2). unfold s2. cbn [timers set_timers]. rewrite Htimers.
    apply filter_none. intros t Hin.
    apply List.filter_In in Hin. destruct Hin as [Hin Hne].
    apply List.in_app_iff in Hin. destruct Hin as [Hin|[<-|[]]].
    + now apply (cancelled_auto_off _ _ _ _ _ Hs).
    + simpl in Hne. rewrite Nat.eqb_refl in Hne. discriminate.
Qed.

End MotionInAuto.

(** ** The presence state and the configured sensors *)

Lemma bind_ext_preserved {X A B} (f : Ctl -> X) (m : M A) (k1 k2 : A -> M B) (s : Ctl) :
  preserves f m -> (forall a s', f s' = f s -> k1 a s' = k2 a s') ->
  bind m k1 s = bind m k2 s.
Proof.
  intros Hm Hk. unfold bind. specialize (Hm s).
  destruct (m s) as [[a|] s']; simpl in *; [now apply Hk | reflexivity].
Qed.

Section PresenceAndSensors.
Context `{!PyFloatParser} (cfg : Config) (w : World).

Lemma on_motion_ignores_sensors (ms : list string) (entity attribute : string)
    (old new : option string) (s : Ctl) :
  is_auto (_mode s) = false \/ is_occupied new = true ->
  _on_motion (set_motion_entities ms cfg) w entity attribute old new s
  = _on_motion cfg w entity attribute old new s.
Proof.
  intros Hcase. destruct (is_auto (_mode s)) eqn:Hauto.
  - destruct Hcase as [Hcase|Hocc]; [discriminate|].
    rewrite (on_motion_auto_arrival (set_motion_entities ms cfg) w entity attribute old new s
               Hauto Hocc).
    rewrite (on_motion_auto_arrival cfg w entity attribute old new s Hauto Hocc).
    reflexivity.
  - unfold _on_motion. rewrite !bind_modify, !bind_gets.
    apply (bind_ext_preserved _mode); [frame|].
    intros _ s' Hs'. rewrite !bind_gets, Hs'.
    change (_mode (set_presence (is_occupied new) s)) with (_mode s).
    now rewrite Hauto.
Qed.

Lemma callbacks_ignore_sensors (ms : list string) (cb : callback) :
  run_callback (set_motion_entities ms cfg) w cb = run_callback cfg w cb.
Proof. destruct cb; reflexivity. Qed.

Lemma departure_remembers_timer (entity : string) (old new : option string) (s : Ctl) :
  is_auto (_mode s) = true -> is_occupied new = false ->
  _any_motion_on cfg w = false -> _automation_allowed cfg w "off" = true ->
  _off_timer (step cfg w (EvMotion entity old new) s) = Some (next_handle s).
Proof.
  intros Hauto Hocc Hnone Hallowed. unfold step, handle.
  rewrite (on_motion_auto_cleared cfg w entity "state" old new s Hauto Hocc).
  rewrite Hnone, Hallowed. cbn [negb when].
  rewrite (bind_preserved _off_timer) by (intros ?; frame).
  unfold _schedule_off.
  rewrite bind_gets, (bind_returns _ _ _ _ _ (cancel_timer_safe_state _ _)), bind_run_in.
  rewrite bind_modify. reflexivity.
Qed.

(** C3, as the code has it: after a presence-sensor event the presence
    state is whether the new value of that event is an occupied value (on,
    home, occupied, true or 1, in any letter case), whatever the other
    sensors read. The OR over the configured sensors is consulted only
    when a sensor clears while the controller is in auto: every other
    event, and a presence event that carries an occupied value or arrives
    outside auto, is handled the same whatever sensors are configured.
    There the OR only decides the auto-off: while some sensor still reads
    occupied, the handler sets the presence state, publishes and does
    nothing else; when none does, the auto-off timer is scheduled and
    remembered if OFF is allowed, and the timers stay as they are if it
    is not. *)
Theorem presence_follows_last_event (entity : string) (old new : option string) (s : Ctl) :
  _presence (step cfg w (EvMotion entity old new) s) = is_occupied new /\
  (forall (ms : list string) (ev : event),
     match ev with
     | EvMotion _ _ new' => is_auto (_mode s) = false \/ is_occupied new' = true
     | _ => True
     end ->
     handle (set_motion_entities ms cfg) w ev s = handle cfg w ev s) /\
  (is_auto (_mode s) = true -> is_occupied new = false ->
   (_any_motion_on cfg w = true ->
    handle cfg w (EvMotion entity old new) s = publish w (set_presence false s)) /\
   (_any_motion_on cfg w = false -> _automation_allowed cfg w "off" = true ->
    _off_timer (step cfg w (EvMotion entity old new) s) = Some (next_handle s) /\
    In {| t_handle := next_handle s; t_cb := CbAutoOff; t_delay := _delay_off cfg |}
       (timers (step cfg w (EvMotion entity old new) s))) /\
   (_any_motion_on cfg w = false -> _automation_allowed cfg w "off" = false ->
    timer_view (step cfg w (EvMotion entity old new) s) = timer_view s)).
Proof.
  split; [apply on_motion_sets_presence|]. split.
  - intros ms ev Hev. destruct ev; simpl.
    + now apply on_motion_ignores_sensors.
    + reflexivity.
    + reflexivity.
    + reflexivity.
    + reflexivity.
    + reflexivity.
    + unfold fire_timer. rewrite !bind_gets.
      destruct (List.find _ (timers s)); [|reflexivity].
      now rewrite callbacks_ignore_sensors.
  - intros Hauto Hocc. split; [|split].
    + intros Hany. unfold handle.
      rewrite (on_motion_auto_cleared cfg w entity "state" old new s Hauto Hocc), Hany.
      reflexivity.
    + intros Hnone Hallowed.
      split; [now apply departure_remembers_timer|].
      assert (Hgo : negb (_any_motion_on cfg w) && _automation_allowed cfg w "off" = true)
        by now rewrite Hnone, Hallowed.
      destruct (departure_state cfg w entity old new s Hauto Hocc Hgo) as (Htimers & _).
      rewrite Htimers. apply List.in_app_iff. right. now left.
    + intros Hnone Hblocked. unfold step, handle.
      rewrite (on_motion_auto_cleared cfg w entity "state" old new s Hauto Hocc).
      rewrite Hnone, Hblocked. cbn [negb when].
      match goal with
      | |- timer_view (snd (?m ?s1)) = _ =>
          assert (Hp : preserves timer_view m) by frame; rewrite (Hp s1)
      end.
      reflexivity.
Qed.

End PresenceAndSensors.

(** ** The captured brightness values *)

Lemma pct_clamped_range (bri : pyval) (p : Z) : pct_clamped bri = Some p -> 1 <= p <= 100.
Proof.
  unfold pct_clamped. destruct (number_value bri) as [f|]; simpl; [|discriminate].
  destruct (py_round (fscale 100 255 f)) as [r|]; simpl; [|discriminate].
  intros Hp. injection Hp as <-. lia.
Qed.

Lemma Forall_dict_set {V} (P : string * V -> Prop) (l : string) (v : V)
    (d : list (string * V)) :
  List.Forall P d -> P (l, v) -> List.Forall P (dict_set l v d).
Proof.
  intros Hd Hv. induction Hd as [|[k x] d Hk Hd IH]; simpl.
  - constructor; [exact Hv | constructor].
  - destruct (String.eqb_spec k l) as [->|_]; constructor; assumption.
Qed.

Lemma hoare_for_each {A} (P : Ctl -> Prop) (xs : list A) (body : A -> M unit) :
  (forall x, hoare P (body x) P) -> hoare P (for_each xs body) P.
Proof.
  intros Hb. induction xs as [|x xs IH]; simpl.
  - intros s HP. exact HP.
  - apply hoare_invariant_bind; [apply Hb | intros _; exact IH].
Qed.

Lemma hoare_for_fold {A B} (P : Ctl -> Prop) (xs : list A) (acc : B) (body : B -> A -> M B) :
  (forall b x, hoare P (body b x) P) -> hoare P (for_fold xs acc body) P.
Proof.
  intros Hb. revert acc. induction xs as [|x xs IH]; intros acc; simpl.
  - intros s HP. exact HP.
  - apply hoare_invariant_bind; [apply Hb | intros acc'; apply IH].
Qed.

Lemma hoare_captures_preserves {A} (m : M A) :
  preserves _before_media_brightness_pct m -> hoare captures_ok m captures_ok.
Proof. intros Hm s Hs. unfold captures_ok. now rewrite (Hm s). Qed.

Section CapturedBrightness.
Context `{!PyFloatParser} (cfg : Config) (w : World).

Lemma dim_one_captures (target : Z) (changed : bool) (l : string) :
  hoare captures_ok (dim_one w target changed l) captures_ok.
Proof.
  intros s Hs. unfold dim_one.
  destruct (startswith l "light.") eqn:Hl; simpl; [|exact Hs].
  rewrite bind_gets.
  destruct (dict_mem l (_before_media_brightness_pct s)); simpl; [exact Hs|].
  destruct (is_number (default PNone (get_attr w l "brightness"))).
  - destruct (pct_clamped (default PNone (get_attr w l "brightness"))) as [p|] eqn:Hp;
      simpl; [|exact Hs].
    unfold captures_ok. simpl. apply Forall_dict_set; [exact Hs|].
    split; [exact Hl | exact (pct_clamped_range _ _ Hp)].
  - simpl. unfold captures_ok. simpl. apply Forall_dict_set; [exact Hs|].
    split; [exact Hl | exact I].
Qed.

Lemma apply_media_dimming_captures :
  hoare captures_ok (_apply_media_dimming cfg w) captures_ok.
Proof.
  unfold _apply_media_dimming.
  destruct (_media_dim_brightness_pct cfg) as [target|]; [|intros s Hs; exact Hs].
  apply hoare_invariant_bind.
  - apply hoare_for_fold. intros b x. apply dim_one_captures.
  - intros changed. apply hoare_captures_preserves. frame.
Qed.

Lemma restore_from_media_captures :
  hoare captures_ok (_restore_from_media cfg) captures_ok.
Proof.
  intros s Hs. rewrite restore_from_media_eq. cbn [snd]. unfold captures_ok in *.
  destruct (_before_media_brightness_pct s) eqn:Hd.
  - destruct (_auto_brightness_pct cfg); simpl; rewrite ?Hd; constructor.
  - simpl. constructor.
Qed.

Ltac captures_step :=
  first
    [ solve [apply hoare_captures_preserves; frame]
    | apply apply_media_dimming_captures
    | apply restore_from_media_captures
    | lazymatch goal with
      | |- hoare _ (bind _ _) _ => apply hoare_invariant_bind; [|intros ?]
      | |- hoare _ (when _ _) _ => apply hoare_when
      | |- hoare _ (if ?b then _ else _) _ => destruct b
      | |- hoare _ (match ?x with _ => _ end) _ => destruct x
      end ].

Ltac captures := repeat captures_step.

Lemma run_callback_keeps_captures (cb : callback) :
  preserves _before_media_brightness_pct (run_callback cfg w cb).
Proof.
  destruct cb; simpl;
    unfold _reautomate_from_motion, _reautomate_from_manual_off; frame.
Qed.

Lemma step_captures (ev : event) (s : Ctl) :
  captures_ok s -> captures_ok (step cfg w ev s).
Proof.
  intros Hs. unfold step. revert s Hs.
  change (hoare captures_ok (handle cfg w ev) captures_ok).
  destruct ev; simpl.
  - unfold _on_motion. captures.
  - unfold _on_light_power. captures.
  - unfold _on_light_attr. captures.
  - unfold _on_lux_changed. captures.
  - unfold _on_media_state. captures.
  - unfold _on_button_press. captures.
  - apply hoare_captures_preserves. unfold fire_timer.
    apply preserves_bind; [frame | intros ts].
    destruct (List.find _ ts); [|frame].
    apply preserves_bind; [frame | intros _; apply run_callback_keeps_captures].
Qed.

End CapturedBrightness.

Lemma run_captures `{!PyFloatParser} (cfg : Config) (evs : list (World * event)) :
  forall s, captures_ok s -> captures_ok (run cfg evs s).
Proof.
  induction evs as [|[w ev] evs IH]; intros s Hs; simpl; [exact Hs|].
  apply IH. now apply step_captures.
Qed.

Lemma restore_calls_in (d : list (string * option Z)) (e : effect) :
  In e (restore_calls d) ->
  exists l p, In (l, Some p) d /\ startswith l "light." = true /\ e = dim_call p l.
Proof.
  unfold restore_calls. induction d as [|[l v] d IH]; simpl; [intros []|].
  intros Hin. apply List.in_app_iff in Hin. destruct Hin as [Hin|Hin].
  - destruct (startswith l "light.") eqn:Hl; [|destruct Hin].
    destruct v as [p|]; [|destruct Hin]. destruct Hin as [<-|[]].
    exists l, p. auto.
  - destruct (IH Hin) as (l' & p & Hd & Hl & He). exists l', p. auto.
Qed.

Lemma auto_calls_in (a : Z) (lights : list string) (e : effect) :
  In e (auto_calls a lights) ->
  exists l, startswith l "light." = true /\ e = dim_call a l.
Proof.
  unfold auto_calls. induction lights as [|l lights IH]; simpl; [intros []|].
  intros Hin. apply List.in_app_iff in Hin. destruct Hin as [Hin|Hin].
  - destruct (startswith l "light.") eqn:Hl; [|destruct Hin].
    destruct Hin as [<-|[]]. eauto.
  - exact (IH Hin).
Qed.

(** X15: from start-up on, whatever the events and whatever the host
    shows, every brightness captured before a media dim belongs to a
    [light.] entity and is a percentage from 1 to 100. So every command
    [_restore_from_media] then sends is a [light/turn_on] to a [light.]
    entity, with a captured brightness from 1 to 100 or, when nothing is
    captured, with the configured [auto_brightness_pct] as it is. *)
Theorem captured_brightness_stays_in_range `{!PyFloatParser}
    (cfg : Config) (w0 : World) (s0 : Ctl) (evs : list (World * event)) :
  initialize cfg w0 = Some s0 ->
  (forall l p, In (l, Some p) (_before_media_brightness_pct (run cfg evs s0)) ->
     startswith l "light." = true /\ 1 <= p <= 100) /\
  (exists added,
     trace (snd (_restore_from_media cfg (run cfg evs s0)))
     = (trace (run cfg evs s0) ++ added)%list /\
     forall service l b k, In (Call service l b k) added ->
       service = "light/turn_on" /\ startswith l "light." = true /\ k = None /\
       exists p, b = Some p /\
         ((In (l, Some p) (_before_media_brightness_pct (run cfg evs s0)) /\
           1 <= p <= 100) \/
          (_before_media_brightness_pct (run cfg evs s0) = [] /\
           _auto_brightness_pct cfg = Some p))).
Proof.
  intros Hinit.
  assert (Hok : captures_ok (run cfg evs s0)).
  { apply run_captures. unfold initialize in Hinit.
    destruct (_lights cfg); [discriminate|]. injection Hinit as <-. constructor. }
  assert (Hin : forall l p, In (l, Some p) (_before_media_brightness_pct (run cfg evs s0)) ->
                  startswith l "light." = true /\ 1 <= p <= 100).
  { intros l p Hlp. unfold captures_ok in Hok. rewrite List.Forall_forall in Hok.
    exact (Hok _ Hlp). }
  split; [exact Hin|].
  rewrite restore_from_media_eq. cbn [snd].
  destruct (_before_media_brightness_pct (run cfg evs s0)) as [|kv d] eqn:Hd.
  - destruct (_auto_brightness_pct cfg) as [a|] eqn:Ha.
    + eexists. split; [reflexivity|].
      intros service l b k Hcall. apply List.in_app_iff in Hcall.
      destruct Hcall as [Hcall|[Hcall|[]]]; [|discriminate].
      apply auto_calls_in in Hcall. destruct Hcall as (l' & Hl & He).
      injection He as -> -> -> ->.
      repeat (split; [reflexivity || assumption|]). exists a. auto.
    + exists []. split; [now rewrite app_nil_r|]. intros ? ? ? ? [].
  - eexists. split; [reflexivity|].
    intros service l b k Hcall. apply List.in_app_iff in Hcall.
    destruct Hcall as [Hcall|[Hcall|[]]]; [|discriminate].
    apply restore_calls_in in Hcall. destruct Hcall as (l' & p & Hlp & Hl & He).
    injection He as -> -> -> ->.
    repeat (split; [reflexivity || assumption|]). exists p.
    split; [reflexivity|]. left. split; [exact Hlp | exact (proj2 (Hin l' p Hlp))].
Qed.

(** ** The manager and the status the controllers publish *)

Lemma mode_name_lower (m : mode) : lower (mode_name m) = mode_name m.
Proof. destruct m; reflexivity. Qed.

Lemma mode_name_manual (m : mode) :
  String.eqb (mode_name m) "manual_on" || String.eqb (mode_name m) "manual_off"
  = negb (is_auto m).
Proof. destruct m; reflexivity. Qed.

Lemma refresh_one_published (get_all : string -> option entity_all) (buttons : list pyval)
    (z : Config * Ctl) :
  get_all (_status_sensor (fst z)) = Some (published_status (fst z) (snd z)) ->
  LightAutomationManager.refresh_one get_all buttons (_app_name (fst z))
  = Some (buttons ++ if in_manual z then [PStr (_reauto_button (fst z))] else [])%list.
Proof.
  intros Hpub. unfold LightAutomationManager.refresh_one.
  change (String.append "sensor.light_status_" (_app_name (fst z)))
    with (_status_sensor (fst z)).
  rewrite Hpub. unfold published_status, in_manual. cbn [ea_state ea_attributes default].
  change (dict_get "manual_state" _) with (Some (PStr (mode_name (_mode (snd z))))).
  change (dict_get "reautomate_button" _) with (Some (PStr (_reauto_button (fst z)))).
  cbn [default from_option or_empty]. unfold id.
  assert (Htruthy : py_truthy (PStr (mode_name (_mode (snd z)))) = true)
    by (destruct (_mode (snd z)); reflexivity).
  assert (Hbtn : py_truthy (PStr (_reauto_button (fst z))) = true) by reflexivity.
  rewrite Htruthy, Hbtn. cbn [py_lower mbind option_bind].
  rewrite mode_name_lower, mode_name_manual.
  destruct (negb (is_auto (_mode (snd z)))); cbn [andb].
  - reflexivity.
  - now rewrite app_nil_r.
Qed.

Lemma refresh_loop_published (get_all : string -> option entity_all)
    (zones : list (Config * Ctl)) :
  (forall z, In z zones ->
     get_all (_status_sensor (fst z)) = Some (published_status (fst z) (snd z))) ->
  forall buttons,
    LightAutomationManager.refresh_loop get_all (map (fun z => _app_name (fst z)) zones) buttons
    = Some (buttons ++ map (fun z => PStr (_reauto_button (fst z)))
                         (List.filter in_manual zones))%list.
Proof.
  induction zones as [|z zones IH]; intros Hpub buttons; simpl.
  - now rewrite app_nil_r.
  - rewrite (refresh_one_published get_all buttons z) by (apply Hpub; now left).
    cbn [mbind option_bind]. rewrite IH by (intros z' Hin; apply Hpub; now right).
    destruct (in_manual z); simpl.
    + now rewrite <- app_assoc.
    + now rewrite app_nil_r.
Qed.

(** X16: when the status entity of every managed zone is what that zone's
    controller last published, a refresh of the manager lists the
    re-automate buttons of exactly the zones in manual_on or manual_off,
    in the order the zones are managed, and its sensor is on exactly when
    some zone is in manual control. *)
Theorem manager_lists_manual_zones (get_all : string -> option entity_all)
    (zones : list (Config * Ctl)) :
  (forall z, In z zones ->
     get_all (_status_sensor (fst z)) = Some (published_status (fst z) (snd z))) ->
  LightAutomationManager._refresh (map (fun z => _app_name (fst z)) zones) get_all
  = Some (if existsb in_manual zones then "on" else "off",
          map (fun z => PStr (_reauto_button (fst z))) (List.filter in_manual zones)).
Proof.
  intros Hpub. unfold LightAutomationManager._refresh.
  rewrite (refresh_loop_published get_all zones Hpub []). cbn [mbind option_bind app].
  f_equal. f_equal.
  induction zones as [|z zones IH]; simpl; [reflexivity|].
  destruct (in_manual z); simpl; [reflexivity|].
  apply IH. intros z' Hin. apply Hpub. now right.
Qed.

(** ** Attribute reports that count for nothing *)

Lemma change_at_least_below `{!PyFloatParser} (t : Q) (old new : pyval) (o n : Q) :
  py_float (or_zero old) = Some (Fin o) -> py_float (or_zero new) = Some (Fin n) ->
  (Qabs (n - o) < t)%Q -> change_at_least t old new = Some false.
Proof.
  intros Ho Hn Hlt. unfold change_at_least. rewrite Ho, Hn.
  cbn [mbind option_bind fsub fabs fle]. f_equal.
  destruct (Qle_bool t (Qabs (n - o))) eqn:Hle; [exfalso|reflexivity].
  apply Qle_bool_iff in Hle. apply (Qlt_not_le _ _ Hlt Hle).
Qed.

Section QuietAttributes.
Context `{!PyFloatParser} (cfg : Config) (w : World).

(** X17: an attribute report that looks like the adaptation's own change,
    or that moved by less than the attribute's threshold (5 for brightness
    and mireds, 100 for kelvin), or that comes from a light that is off,
    is handled without touching anything: the mode, the timers and the
    trace stay as they were. *)
Theorem insignificant_attribute_report_is_ignored
    (entity attribute : string) (old new : pyval) (s : Ctl) :
  (_al_is_change_like_al cfg w entity attribute old new = Some true \/
   (_al_is_change_like_al cfg w entity attribute old new = Some false /\
    (_changed_meaningfully attribute old new = false \/
     is_on (get_state w entity) = false)) ->
   handle cfg w (EvLightAttr entity attribute old new) s = (Ok tt, s)) /\
  (forall t o n,
     attr_threshold attribute = Some t ->
     py_float (or_zero old) = Some (Fin o) -> py_float (or_zero new) = Some (Fin n) ->
     (Qabs (n - o) < t)%Q ->
     _changed_meaningfully attribute old new = false).
Proof.
  split.
  - intros Hwhy. unfold handle, _on_light_attr. rewrite bind_gets.
    destruct (Qlt_bool (now_ts w - _started_ts s) (_boot_grace cfg)); [reflexivity|].
    rewrite bind_gets.
    destruct (_recent_app_change cfg w entity None s); [reflexivity|].
    destruct Hwhy as [Hal | (Hal & [Hsmall | Hoff])]; rewrite Hal; simpl; try reflexivity.
    + now rewrite Hsmall.
    + destruct (_changed_meaningfully attribute old new); simpl; [|reflexivity].
      now rewrite Hoff.
  - intros t o n Ht Ho Hn Hlt. unfold attr_threshold in Ht. unfold _changed_meaningfully.
    destruct (is_brightness_attr attribute).
    { injection Ht as <-. now rewrite (change_at_least_below 5 old new o n Ho Hn Hlt). }
    destruct (is_color_attr attribute); [|discriminate].
    destruct (endswith attribute "kelvin"); injection Ht as <-.
    + now rewrite (change_at_least_below 100 old new o n Ho Hn Hlt).
    + now rewrite (change_at_least_below 5 old new o n Ho Hn Hlt).
Qed.

Lemma dark_enough_reading (v : string) (f : pyfloat) (low : Q) :
  _only_when_dark cfg = true -> str_truthy (_lux_sensor cfg) = true ->
  _lux_threshold cfg = Some low ->
  get_state w (or_empty (_lux_sensor cfg)) = Some v -> float_of_string v = Some f ->
  _is_dark_enough cfg w = fle f (Fin low).
Proof.
  intros Hdark Hsensor Hlow Hv Hf. unfold _is_dark_enough.
  now rewrite Hdark, Hsensor, Hv, Hf, Hlow.
Qed.

End QuietAttributes.

(** X18: with a lux sensor and a threshold configured, a numeric reading
    is dark enough exactly when it is at most the threshold, so a reading
    no brighter than one that is dark enough is dark enough too; a reading
    that [float] turns into nan is never dark enough. *)
Theorem darkness_follows_the_reading `{!PyFloatParser}
    (cfg : Config) (w1 w2 : World) (v1 v2 : string) (f1 f2 : pyfloat) (low : Q) :
  _only_when_dark cfg = true -> str_truthy (_lux_sensor cfg) = true ->
  _lux_threshold cfg = Some low ->
  get_state w1 (or_empty (_lux_sensor cfg)) = Some v1 -> float_of_string v1 = Some f1 ->
  get_state w2 (or_empty (_lux_sensor cfg)) = Some v2 -> float_of_string v2 = Some f2 ->
  (forall q1, f1 = Fin q1 -> (_is_dark_enough cfg w1 = true <-> (q1 <= low)%Q)) /\
  (forall q1 q2, f1 = Fin q1 -> f2 = Fin q2 -> (q1 <= q2)%Q ->
     _is_dark_enough cfg w2 = true -> _is_dark_enough cfg w1 = true) /\
  (f1 = NaN -> _is_dark_enough cfg w1 = false).
Proof.
  intros Hdark Hsensor Hlow Hv1 Hf1 Hv2 Hf2.
  rewrite (dark_enough_reading cfg w1 v1 f1 low Hdark Hsensor Hlow Hv1 Hf1).
  rewrite (dark_enough_reading cfg w2 v2 f2 low Hdark Hsensor Hlow Hv2 Hf2).
  split; [|split].
  - intros q1 ->. simpl. apply Qle_bool_iff.
  - intros q1 q2 -> -> Hle. simpl. rewrite !Qle_bool_iff. intros H2.
    exact (Qle_trans _ _ _ Hle H2).
  - intros ->. reflexivity.
Qed.

(** ** The status sensor and the mode *)

Lemma shown_mode_app (t1 t2 : list effect) (shown : mode) :
  shown_mode (t1 ++ t2) shown = shown_mode t2 (shown_mode t1 shown).
Proof.
  revert shown. induction t1 as [|e t1 IH]; intros shown; simpl; [reflexivity|].
  destruct e; apply IH.
Qed.

Lemma keeps_sync_ret {A} (a : A) : keeps_sync (ret a).
Proof. intros s Hs _. exact Hs. Qed.

Lemma keeps_sync_view {A} (m : M A) : preserves sync_view m -> keeps_sync m.
Proof.
  intros Hm s Hs _. specialize (Hm s). unfold sync_view in Hm. unfold in_sync in *.
  injection Hm as -> ->. exact Hs.
Qed.

Lemma keeps_sync_ends {A} (m : M A) : ends_synced m -> keeps_sync m.
Proof. intros Hm s _ Hok. now apply Hm. Qed.

Lemma keeps_sync_bind {A B} (m : M A) (k : A -> M B) :
  preserves sync_view m -> (forall a, keeps_sync (k a)) -> keeps_sync (bind m k).
Proof.
  intros Hm Hk s Hs Hok. pose proof (keeps_sync_view m Hm s Hs) as Hs'.
  unfold bind in *. destruct (m s) as [[a|] s']; simpl in *.
  - apply Hk; [apply Hs'; eauto | exact Hok].
  - destruct Hok as [b Hb]. discriminate.
Qed.

Lemma ends_synced_bind {A B} (m : M A) (k : A -> M B) :
  (forall a, ends_synced (k a)) -> ends_synced (bind m k).
Proof.
  intros Hk s Hok. unfold bind in *. destruct (m s) as [[a|] s']; simpl in *.
  - now apply Hk.
  - destruct Hok as [b Hb]. discriminate.
Qed.

Lemma ends_synced_publish (w : World) : ends_synced (publish w).
Proof.
  intros s _. unfold in_sync. simpl. rewrite <- !app_assoc, shown_mode_app. reflexivity.
Qed.

(** A step that writes to the trace anything but a status. *)
Lemma sync_view_emit (e : effect) :
  (forall m, shown_mode [e] m = m) -> preserves sync_view (emit e).
Proof.
  intros He s. unfold sync_view. simpl. now rewrite shown_mode_app, He.
Qed.

Create HintDb syncers.

#[local] Hint Unfold _logx cancel_timer _cancel_timer_safe _mark_expected_echo
  _ignore_if_expected_echo _al_set_manual_control _al_reset _al_schedule_reset_for
  _al_reset_timer_cb _turn_on _turn_off _schedule_off _auto_off_elapsed dim_one
  _apply_media_dimming _restore_from_media : syncers.

Ltac sync_frame_step :=
  lazymatch goal with
  | |- preserves _ (emit (Log _ _)) => apply sync_view_emit; intros ?; reflexivity
  | |- preserves _ (emit (Call _ _ _ _)) => apply sync_view_emit; intros ?; reflexivity
  | |- preserves _ (emit (AlCall _ _ _)) => apply sync_view_emit; intros ?; reflexivity
  | |- preserves _ (bind _ _) => apply preserves_bind; [|intros ?]
  | |- preserves _ (ret _) => apply preserves_ret
  | |- preserves _ raise => apply preserves_raise
  | |- preserves _ (gets _) => apply preserves_gets
  | |- preserves _ (lift_opt _) => apply preserves_lift_opt
  | |- preserves _ (modify _) => apply preserves_modify; intros ?; reflexivity
  | |- preserves _ (when _ _) => apply preserves_when
  | |- preserves _ (for_each _ _) => apply preserves_for_each; intros ?
  | |- preserves _ (for_fold _ _ _) => apply preserves_for_fold; intros ? ?
  | |- preserves _ (run_in _ _) => apply preserves_run_in; intros ? ? ?; reflexivity
  | |- preserves _ (if ?b then _ else _) => destruct b
  | |- preserves _ (match ?x with _ => _ end) => destruct x
  | |- preserves _ _ => progress autounfold with syncers
  end.

Ltac sync_frame := repeat sync_frame_step.

Ltac sync_step :=
  lazymatch goal with
  | |- ends_synced (publish _) => apply ends_synced_publish
  | |- ends_synced (bind _ _) => apply ends_synced_bind; intros ?
  | |- ends_synced (if ?b then _ else _) => destruct b
  | |- ends_synced (match ?x with _ => _ end) => destruct x
  | |- keeps_sync (ret _) => apply keeps_sync_ret
  | |- keeps_sync (bind _ _) =>
      first [apply keeps_sync_bind; [solve [sync_frame]|intros ?] | apply keeps_sync_ends]
  | |- keeps_sync (if ?b then _ else _) => destruct b
  | |- keeps_sync (match ?x with _ => _ end) => destruct x
  | |- keeps_sync _ => apply keeps_sync_ends
  end.

Ltac sync := repeat sync_step.

Section StatusSensor.
Context `{!PyFloatParser} (cfg : Config) (w : World).

Lemma on_motion_sync (entity attribute : string) (old new : option string) :
  keeps_sync (_on_motion cfg w entity attribute old new).
Proof. apply keeps_sync_ends. unfold _on_motion. sync. Qed.

Lemma on_lux_changed_sync (entity attribute : string) (old new : option string) :
  keeps_sync (_on_lux_changed cfg w entity attribute old new).
Proof. apply keeps_sync_ends. unfold _on_lux_changed. sync. Qed.

Lemma on_media_state_sync (entity attribute : string) (old new : option string) :
  keeps_sync (_on_media_state cfg w entity attribute old new).
Proof. apply keeps_sync_ends. unfold _on_media_state. sync. Qed.

Lemma on_light_power_sync (entity attribute : string) (old new : option string) :
  keeps_sync (_on_light_power cfg w entity attribute old new).
Proof. unfold _on_light_power. sync. Qed.

Lemma on_light_attr_sync (entity attribute : string) (old new : pyval) :
  keeps_sync (_on_light_attr cfg w entity attribute old new).
Proof. unfold _on_light_attr. sync. Qed.

Lemma on_button_press_sync (data : button_data) :
  keeps_sync (_on_button_press cfg w data).
Proof. unfold _on_button_press. sync. Qed.

Lemma run_callback_sync (cb : callback) : keeps_sync (run_callback cfg w cb).
Proof.
  destruct cb; simpl.
  - apply keeps_sync_view. unfold _auto_off_elapsed, _turn_off. sync_frame.
  - apply keeps_sync_ends. unfold _reautomate_from_motion. sync.
  - apply keeps_sync_ends. unfold _reautomate_from_manual_off. sync.
  - apply keeps_sync_view. unfold _al_reset_timer_cb, _al_reset. sync_frame.
Qed.

Lemma fire_timer_sync (h : nat) : keeps_sync (fire_timer cfg w h).
Proof.
  unfold fire_timer. apply keeps_sync_bind; [sync_frame | intros ts].
  destruct (List.find _ ts); [|apply keeps_sync_ret].
  apply keeps_sync_bind; [sync_frame | intros _; apply run_callback_sync].
Qed.

Lemma step_sync (ev : event) (s : Ctl) :
  in_sync s -> fst (handle cfg w ev s) = Ok tt -> in_sync (step cfg w ev s).
Proof.
  intros Hs Hok. unfold step.
  assert (Hk : keeps_sync (handle cfg w ev)).
  { destruct ev; simpl.
    - apply on_motion_sync.
    - apply on_light_power_sync.
    - apply on_light_attr_sync.
    - apply on_lux_changed_sync.
    - apply on_media_state_sync.
    - apply on_button_press_sync.
    - apply fire_timer_sync. }
  apply Hk; eauto.
Qed.

End StatusSensor.

(** X19: as long as every handler returns, the status sensor shows the
    mode the controller is in: from start-up on, after any events, the
    mode last published is the current mode. *)
Theorem status_sensor_shows_the_mode `{!PyFloatParser}
    (cfg : Config) (w0 : World) (s0 : Ctl) (evs : list (World * event)) :
  initialize cfg w0 = Some s0 ->
  run_returns cfg evs s0 ->
  shown_mode (trace (run cfg evs s0)) Auto = _mode (run cfg evs s0).
Proof.
  intros Hinit.
  assert (Hs0 : in_sync s0).
  { unfold initialize in Hinit. destruct (_lights cfg); [discriminate|].
    injection Hinit as <-. reflexivity. }
  clear Hinit. revert s0 Hs0.
  induction evs as [|[w ev] evs IH]; intros s Hs Hret; simpl in *; [exact Hs|].
  destruct Hret as [Hok Hrest]. apply IH; [|exact Hrest].
  now apply step_sync.
Qed.

(** ** The timer discipline, from start-up *)

(** X20: from start-up on, whatever the events and whatever the host
    shows, no two pending timers share a handle, every pending handle is
    older than the next fresh one, and every pending auto-off, quick
    re-automate and manual-hold timer is the one whose handle the
    controller remembers for that purpose (in [_off_timer],
    [_motion_reauto_timer] and [_al_manual_timers]). *)
Theorem pending_timers_are_the_remembered_ones `{!PyFloatParser}
    (cfg : Config) (w0 : World) (s0 : Ctl) (evs : list (World * event)) :
  initialize cfg w0 = Some s0 ->
  List.NoDup (map t_handle (timers (run cfg evs s0))) /\
  (forall t, In t (timers (run cfg evs s0)) ->
     (t_handle t < next_handle (run cfg evs s0))%nat /\
     (t_cb t = CbAutoOff -> _off_timer (run cfg evs s0) = Some (t_handle t)) /\
     (t_cb t = CbMotionReauto ->
      _motion_reauto_timer (run cfg evs s0) = Some (t_handle t)) /\
     (forall e, t_cb t = CbAlReset e ->
      _al_manual_timers (run cfg evs s0) !! e = Some (t_handle t))).
Proof.
  intros Hinit.
  pose proof (run_tracked cfg evs s0 (initialize_tracked cfg w0 s0 Hinit)) as Htracked.
  destruct Htracked as [Hnd Hlt Hoff Hmo Hal].
  split; [exact Hnd|]. intros t Hin.
  split; [exact (Hlt t Hin)|]. split; [exact (Hoff t Hin)|].
  split; [exact (Hmo t Hin)|]. intros e. exact (Hal t e Hin).
Qed.

(** ** The further scenarios, evaluated *)

Section MoreScenarios.
#[local] Existing Instance decimal_parser.

Lemma commands_mark_every_light_witness :
  _expected_echo (snd (_turn_off plain_config world_noon "auto_off" (demo_state Auto false)))
    !! "light.a"
  = Some (marked_echo plain_config world_noon "off") /\
  _last_cmd_by_entity (snd (_turn_on plain_config world_noon "motion" (demo_state Auto false)))
    !! "light.a"
  = Some ("on", 1000%Q).
Proof.
  pose proof (commands_mark_every_light plain_config world_noon "motion" "light.a"
                (demo_state Auto false) (or_introl eq_refl)) as (_ & Hon & _).
  pose proof (commands_mark_every_light plain_config world_noon "auto_off" "light.a"
                (demo_state Auto false) (or_introl eq_refl)) as (_ & _ & Hoff & _).
  split; [exact Hoff | exact Hon].
Defined.

Lemma own_echo_is_not_manual_witness :
  _mode (step plain_config world_echo (EvLightPower "light.a" (Some "on") (Some "off"))
           (snd (_turn_off plain_config world_noon "auto_off" (demo_state Auto false))))
  = Auto.
Proof.
  pose proof (own_echo_is_not_manual plain_config world_noon world_echo "auto_off" "light.a"
                (Some "on") (Some "off") (demo_state Auto false)
                (or_introl eq_refl) eq_refl) as [Hoff _].
  exact (proj1 (Hoff eq_refl eq_refl)).
Defined.

Lemma attribute_jitter_after_command_is_dropped_witness :
  step plain_config world_echo (EvLightAttr "light.a" "brightness" (PInt 0) (PInt 255))
    (snd (_turn_on plain_config world_noon "motion" (demo_state Auto true)))
  = snd (_turn_on plain_config world_noon "motion" (demo_state Auto true)).
Proof.
  apply (attribute_jitter_after_command_is_dropped plain_config world_noon world_echo
           "motion" "light.a" "brightness" (PInt 0) (PInt 255) (demo_state Auto true)).
  - left. reflexivity.
  - reflexivity.
Defined.

Lemma uncovered_power_report_is_manual_witness :
  _mode (step plain_config world_noon (EvLightPower "light.a" (Some "off") (Some "on"))
           (demo_state Auto true)) = ManualOn.
Proof.
  pose proof (uncovered_power_report_is_manual plain_config world_noon "light.a"
                (Some "off") (Some "on") (demo_state Auto true)) as [_ Hpast].
  destruct (Hpast eq_refl (or_introl eq_refl)) as (_ & Hon & _).
  exact (Hon eq_refl eq_refl).
Defined.

Lemma block_actions_are_normalised_witness :
  window_actions plain_config padded_window = "off" /\
  window_actions plain_config vague_window = "on_off".
Proof.
  pose proof (block_actions_are_normalised plain_config padded_window)
    as (_ & (Hkept & _) & _).
  pose proof (block_actions_are_normalised plain_config vague_window)
    as (_ & (_ & _ & Hwindow) & (_ & _ & Hdefault)).
  split.
  - apply (Hkept " Off "); [reflexivity | right; left; reflexivity].
  - rewrite Hwindow.
    + apply Hdefault. left. reflexivity.
    + right. right. exists "sometimes". split; [reflexivity|].
      intros [Hk | [Hk | Hk]]; vm_compute in Hk; discriminate.
Defined.

Lemma first_matching_window_decides_witness :
  _blocked_now three_windows_config world_2330 = (true, Some "off 22:00-07:00").
Proof.
  apply (first_matching_window_decides three_windows_config world_2330
           [broken_window] [night_window "on_off"] (night_window "off")
           (true, Some "off 22:00-07:00")); reflexivity.
Defined.

Lemma on_off_window_blocks_both_witness :
  _automation_allowed (night_config "on_off") world_2330 "on" = false /\
  _automation_allowed (night_config "on_off") world_2330 "off" = false.
Proof.
  split;
    apply (on_off_window_blocks_both (night_config "on_off") world_2330 [] []
             (night_window "on_off") (true, Some "on_off 22:00-07:00")); reflexivity.
Defined.

Lemma swapped_window_is_the_complement_witness :
  _within_window (Some 1320) (Some 420) 1410
  = negb (_within_window (Some 420) (Some 1320) 1410).
Proof. apply swapped_window_is_the_complement. lia. Defined.

Lemma auto_off_fires_only_when_idle_witness :
  calls_of (trace (snd (_auto_off_elapsed plain_config world_noon (demo_state Auto false))))
  = [("light/turn_off", "light.a")] /\
  calls_of (trace (snd (_auto_off_elapsed plain_config world_noon (demo_state Auto true))))
  = [].
Proof.
  pose proof (auto_off_fires_only_when_idle plain_config world_noon (demo_state Auto false))
    as (_ & _ & _ & Hidle & _).
  pose proof (auto_off_fires_only_when_idle plain_config world_noon (demo_state Auto true))
    as (_ & _ & _ & _ & Hbusy).
  split; [exact (Hidle eq_refl) | exact (Hbusy eq_refl)].
Defined.

Lemma manual_mode_sends_no_command_witness :
  calls_of (trace (step plain_config world_dark
                     (EvMotion "binary_sensor.m1" (Some "off") (Some "on"))
                     (demo_state ManualOff false))) = [].
Proof.
  exact (proj2 (manual_mode_sends_no_command plain_config world_dark
                  (EvMotion "binary_sensor.m1" (Some "off") (Some "on"))
                  (demo_state ManualOff false) eq_refl)).
Defined.

Lemma arrival_in_auto_turns_on_when_allowed_witness :
  calls_of (trace (step plain_config world_dark
                     (EvMotion "binary_sensor.m1" (Some "off") (Some "on"))
                     (demo_state Auto false)))
  = [("light/turn_on", "light.a")] /\
  calls_of (trace (step (night_config "on_off") world_2330
                     (EvMotion "binary_sensor.m1" (Some "off") (Some "on"))
                     (demo_state Auto false)))
  = [].
Proof.
  pose proof (arrival_in_auto_turns_on_when_allowed plain_config world_dark
                "binary_sensor.m1" (Some "off") (Some "on") (demo_state Auto false)
                eq_refl eq_refl) as (Hgo & _ & _).
  pose proof (arrival_in_auto_turns_on_when_allowed (night_config "on_off") world_2330
                "binary_sensor.m1" (Some "off") (Some "on") (demo_state Auto false)
                eq_refl eq_refl) as (_ & Hstop & _).
  split; [exact (proj2 (Hgo eq_refl eq_refl)) | exact (proj2 (Hstop eq_refl))].
Defined.

Lemma departure_in_auto_schedules_auto_off_witness :
  _off_timer (step plain_config world_noon
                (EvMotion "binary_sensor.m1" (Some "on") (Some "off"))
                (demo_state Auto true)) = Some 0%nat /\
  timer_view (step two_sensor_config world_one_sensor_on
                (EvMotion "binary_sensor.m2" (Some "on") (Some "off"))
                (demo_state Auto true)) = timer_view (demo_state Auto true).
Proof.
  pose proof (departure_in_auto_schedules_auto_off plain_config world_noon
                "binary_sensor.m1" (Some "on") (Some "off") (demo_state Auto true)
                eq_refl eq_refl) as (_ & _ & Hgo & _).
  pose proof (departure_in_auto_schedules_auto_off two_sensor_config world_one_sensor_on
                "binary_sensor.m2" (Some "on") (Some "off") (demo_state Auto true)
                eq_refl eq_refl) as (_ & _ & _ & Hstay).
  split; [exact (proj1 (Hgo eq_refl)) | exact (Hstay eq_refl)].
Defined.

Lemma unattended_room_goes_dark_witness :
  calls_of (trace (step plain_config world_noon (EvTimer 0)
                     (step plain_config world_noon
                        (EvMotion "binary_sensor.m1" (Some "on") (Some "off"))
                        (demo_state Auto true))))
  = [("light/turn_off", "light.a")].
Proof.
  refine (proj1 (unattended_room_goes_dark plain_config world_noon world_noon
                   "binary_sensor.m1" (Some "on") (Some "off") (demo_state Auto true)
                   _ eq_refl eq_refl eq_refl eq_refl)).
  constructor; simpl;
    [constructor | intros ? [] | intros ? [] | intros ? [] | intros ? ? []].
Defined.

Lemma captured_brightness_stays_in_range_witness :
  _before_media_brightness_pct (run (media_config None) media_started boot_state)
  = [("light.a", Some 80); ("light.b", Some 60)] /\
  (startswith "light.b" "light." = true /\ 1 <= 60 <= 100).
Proof.
  split; [reflexivity|].
  apply (proj1 (captured_brightness_stays_in_range (media_config None) world_media
                  boot_state media_started eq_refl) "light.b" 60).
  vm_compute. right. left. reflexivity.
Defined.

Lemma manager_lists_manual_zones_witness :
  LightAutomationManager._refresh ["den"] (den_status (demo_state ManualOn false))
  = Some ("on", [PStr "button.reautomate_den"]) /\
  LightAutomationManager._refresh ["den"] (den_status (demo_state Auto false))
  = Some ("off", []).
Proof.
  split.
  - apply (manager_lists_manual_zones (den_status (demo_state ManualOn false))
             [(plain_config, demo_state ManualOn false)]).
    intros z [<-|[]]. reflexivity.
  - apply (manager_lists_manual_zones (den_status (demo_state Auto false))
             [(plain_config, demo_state Auto false)]).
    intros z [<-|[]]. reflexivity.
Defined.

Lemma insignificant_attribute_report_is_ignored_witness :
  _changed_meaningfully "brightness" (PInt 100) (PInt 102) = false /\
  handle plain_config world_later (EvLightAttr "light.a" "brightness" (PInt 100) (PInt 102))
    (demo_state Auto true)
  = (Ok tt, demo_state Auto true).
Proof.
  pose proof (insignificant_attribute_report_is_ignored plain_config world_later
                "light.a" "brightness" (PInt 100) (PInt 102) (demo_state Auto true))
    as [Hignored Hsmall].
  assert (Hno : _changed_meaningfully "brightness" (PInt 100) (PInt 102) = false).
  { apply (Hsmall 5%Q (inject_Z 100) (inject_Z 102)); reflexivity. }
  split; [exact Hno|].
  apply Hignored. right. split; [reflexivity | left; exact Hno].
Defined.

Lemma darkness_follows_the_reading_witness :
  _is_dark_enough lux_config (lux_world "5") = true /\
  _is_dark_enough lux_config (lux_world "12") = false.
Proof.
  pose proof (darkness_follows_the_reading lux_config (lux_world "5") (lux_world "12")
                "5" "12" (Fin 5) (Fin 12) 10%Q
                eq_refl eq_refl eq_refl eq_refl eq_refl eq_refl eq_refl) as (Hiff & _ & _).
  pose proof (darkness_follows_the_reading lux_config (lux_world "12") (lux_world "5")
                "12" "5" (Fin 12) (Fin 5) 10%Q
                eq_refl eq_refl eq_refl eq_refl eq_refl eq_refl eq_refl) as (Hiff' & _ & _).
  split.
  - apply (Hiff 5%Q eq_refl). vm_compute. discriminate.
  - apply not_true_is_false. intros Hdark.
    apply (Hiff' 12%Q eq_refl) in Hdark. vm_compute in Hdark. now apply Hdark.
Defined.

Lemma status_sensor_shows_the_mode_witness :
  shown_mode (trace (run plain_config switched_off_later boot_state)) Auto = ManualOff.
Proof.
  apply (status_sensor_shows_the_mode plain_config world_noon boot_state switched_off_later).
  - reflexivity.
  - split; [reflexivity | exact I].
Defined.

Lemma pending_timers_are_the_remembered_ones_witness :
  List.NoDup (map t_handle (timers (run plain_config switched_off_later boot_state))) /\
  _off_timer (run plain_config
                [(world_later, EvMotion "binary_sensor.m1" (Some "on") (Some "off"))]
                boot_state) = Some 0%nat.
Proof.
  split.
  - apply (pending_timers_are_the_remembered_ones plain_config world_noon boot_state
             switched_off_later).
    reflexivity.
  - pose proof (pending_timers_are_the_remembered_ones plain_config world_noon boot_state
                  [(world_later, EvMotion "binary_sensor.m1" (Some "on") (Some "off"))]
                  eq_refl) as [_ Hall].
    apply (Hall {| t_handle := 0%nat; t_cb := CbAutoOff; t_delay := 60 |}).
    + left. reflexivity.
    + reflexivity.
Defined.

End MoreScenarios.
